(** * VCMail helper scripts: [decode_email.py] and [fix_url.py]

    A shallow embedding of the two scripts and of the Python built-ins
    they call ([str.find], slicing, [str.replace], [re.findall],
    [quopri.decodestring], [bytes.decode], [html.unescape]), followed by
    the properties established about them. *)

From Stdlib Require Import Ascii String DecimalString List ZArith NArith Lia Bool.
Import ListNotations.

Local Open Scope Z_scope.

(** ** Python strings and byte strings *)

(** A Python [str] is a sequence of Unicode code points; a [bytes] object
    is a sequence of octets. *)
Definition codepoint := N.
Definition str := list codepoint.
Definition bytes := list ascii.

(** An ASCII literal of the source, as a [str]. *)
Definition lit (s : string) : str := map N_of_ascii (list_ascii_of_string s).

Module PyStr.

Section Seq.
Context {A : Type} (eqb : A -> A -> bool).

(** [s.startswith(p)] *)
Fixpoint starts_with (p s : list A) : bool :=
  match p, s with
  | [], _ => true
  | _ :: _, [] => false
  | x :: p', y :: s' => eqb x y && starts_with p' s'
  end.

(** Scan [s], whose first element has index [i], for the first place
    where [p] starts. *)
Fixpoint find_from (p s : list A) (i : Z) : Z :=
  if starts_with p s then i
  else match s with
       | [] => -1
       | _ :: s' => find_from p s' (i + 1)
       end.

(** Python's normalisation of a slice bound against a length. *)
Definition clip (len i : Z) : Z :=
  if i <? 0 then Z.max 0 (i + len) else Z.min i len.

(** [s.find(p, start)]: the lowest index at or after [start] where [p]
    occurs, or [-1]. *)
Definition find (p s : list A) (start : Z) : Z :=
  let len := Z.of_nat (length s) in
  let st := if start <? 0 then Z.max 0 (start + len) else start in
  if len <? st then -1
  else find_from p (skipn (Z.to_nat st) s) st.

(** [s[a:b]], with Python's treatment of negative and out-of-range bounds. *)
Definition slice (s : list A) (a b : Z) : list A :=
  let len := Z.of_nat (length s) in
  let a' := clip len a in
  let b' := clip len b in
  firstn (Z.to_nat (b' - a')) (skipn (Z.to_nat a') s).

(** [s[a:]] *)
Definition slice_from (s : list A) (a : Z) : list A :=
  skipn (Z.to_nat (clip (Z.of_nat (length s)) a)) s.

(** [p in s] *)
Definition contains (p s : list A) : bool := negb (find p s 0 =? -1).

(** The scan of [s.replace(old, new)] for a non-empty [old]: [skip] counts
    the elements of the current occurrence still to be passed over. *)
Fixpoint replace_scan (old new : list A) (skip : nat) (s : list A) : list A :=
  match s with
  | [] => []
  | c :: s' =>
      match skip with
      | S k => replace_scan old new k s'
      | O => if starts_with old s
             then new ++ replace_scan old new (length old - 1) s'
             else c :: replace_scan old new 0 s'
      end
  end.

(** [s.replace(old, new)]: every non-overlapping occurrence, left to right;
    an empty [old] matches before every element and at the end. *)
Definition replace (old new s : list A) : list A :=
  match old with
  | [] => new ++ flat_map (fun c => c :: new) s
  | _ :: _ => replace_scan old new 0 s
  end.

End Seq.

End PyStr.

Definition str_eqb (a b : str) : bool :=
  (length a =? length b)%nat && PyStr.starts_with N.eqb a b.

Definition str_find := PyStr.find N.eqb.
Definition str_replace := PyStr.replace N.eqb.
Definition str_contains := PyStr.contains N.eqb.

(** ** UTF-8 ([str.encode('utf-8')], [bytes.decode('utf-8')]) *)

Module Utf8.
Local Open Scope N_scope.

Definition byte_of (n : N) : ascii := ascii_of_N n.

(** A continuation byte, [0x80 .. 0xBF]. *)
Definition is_cont (b : ascii) : bool :=
  (128 <=? N_of_ascii b) && (N_of_ascii b <=? 191).

Definition in_range (lo hi : N) (b : ascii) : bool :=
  (lo <=? N_of_ascii b) && (N_of_ascii b <=? hi).

(** The payload of a continuation byte. *)
Definition cont (b : ascii) : N := N_of_ascii b - 128.

(** The UTF-8 encoding of one code point; [None] for a surrogate or a
    value above U+10FFFF (Python raises [UnicodeEncodeError]). *)
Definition encode_char (c : codepoint) : option bytes :=
  if c <? 128 then Some [byte_of c]
  else if c <? 2048 then
    Some [byte_of (192 + c / 64); byte_of (128 + c mod 64)]
  else if c <? 65536 then
    if (55296 <=? c) && (c <=? 57343) then None
    else Some [byte_of (224 + c / 4096);
               byte_of (128 + (c / 64) mod 64);
               byte_of (128 + c mod 64)]
  else if c <=? 1114111 then
    Some [byte_of (240 + c / 262144);
          byte_of (128 + (c / 4096) mod 64);
          byte_of (128 + (c / 64) mod 64);
          byte_of (128 + c mod 64)]
  else None.

(** [s.encode('utf-8')] *)
Fixpoint encode (s : str) : option bytes :=
  match s with
  | [] => Some []
  | c :: s' =>
      match encode_char c, encode s' with
      | Some b, Some bs => Some (b ++ bs)
      | _, _ => None
      end
  end.

(** [b.decode('utf-8')] with the default strict error handling: [None]
    stands for [UnicodeDecodeError].  Overlong forms, surrogates and
    values above U+10FFFF are rejected through the ranges allowed for the
    second byte. *)
Fixpoint decode (b : bytes) : option str :=
  match b with
  | [] => Some []
  | b1 :: t1 =>
      let n1 := N_of_ascii b1 in
      if n1 <? 128 then option_map (cons n1) (decode t1)
      else if in_range 194 223 b1 then
        match t1 with
        | b2 :: t2 =>
            if is_cont b2
            then option_map (cons ((n1 - 192) * 64 + cont b2)) (decode t2)
            else None
        | _ => None
        end
      else if in_range 224 239 b1 then
        match t1 with
        | b2 :: b3 :: t3 =>
            let lo := if n1 =? 224 then 160 else 128 in
            let hi := if n1 =? 237 then 159 else 191 in
            if in_range lo hi b2 && is_cont b3
            then option_map
                   (cons ((n1 - 224) * 4096 + cont b2 * 64 + cont b3))
                   (decode t3)
            else None
        | _ => None
        end
      else if in_range 240 244 b1 then
        match t1 with
        | b2 :: b3 :: b4 :: t4 =>
            let lo := if n1 =? 240 then 144 else 128 in
            let hi := if n1 =? 244 then 143 else 191 in
            if in_range lo hi b2 && is_cont b3 && is_cont b4
            then option_map
                   (cons ((n1 - 240) * 262144 + cont b2 * 4096
                          + cont b3 * 64 + cont b4))
                   (decode t4)
            else None
        | _ => None
        end
      else None
  end.

(** A code point UTF-8 can encode: a Unicode scalar value. *)
Definition scalar (c : codepoint) : bool :=
  (c <=? 1114111) && negb ((55296 <=? c) && (c <=? 57343)).

End Utf8.

(** ** Quoted-printable ([quopri], implemented by [binascii]) *)

Module Quopri.
Local Open Scope N_scope.

Definition LF : ascii := ascii_of_N 10.
Definition CR : ascii := ascii_of_N 13.
Definition TAB : ascii := ascii_of_N 9.
Definition NUL : ascii := ascii_of_N 0.

(** The hexadecimal-digit test of [a2b_qp]. *)
Definition is_hex (c : ascii) : bool :=
  let n := N_of_ascii c in
  ((65 <=? n) && (n <=? 70)) || ((97 <=? n) && (n <=? 102))
  || ((48 <=? n) && (n <=? 57)).

(** [_PyLong_DigitValue] on a hexadecimal digit. *)
Definition digit_value (c : ascii) : N :=
  let n := N_of_ascii c in
  if n <=? 57 then n - 48 else if n <=? 70 then n - 55 else n - 87.

(** The loop of [binascii.a2b_qp] with [header=False].  [skipping] is set
    while the input position runs from the carriage return of a soft line
    break [=\r...] to the next line feed. *)
Fixpoint a2b_qp_loop (skipping : bool) (s : bytes) : bytes :=
  match s with
  | [] => []
  | c :: s1 =>
      if skipping then
        if Ascii.eqb c LF then a2b_qp_loop false s1 else a2b_qp_loop true s1
      else if Ascii.eqb c "="%char then
        match s1 with
        | [] => []
        | c1 :: s2 =>
            if Ascii.eqb c1 LF then a2b_qp_loop false s2
            else if Ascii.eqb c1 CR then a2b_qp_loop true s2
            else if Ascii.eqb c1 "="%char then "="%char :: a2b_qp_loop false s2
            else
              match s2 with
              | c2 :: s3 =>
                  if is_hex c1 && is_hex c2
                  then ascii_of_N (digit_value c1 * 16 + digit_value c2)
                       :: a2b_qp_loop false s3
                  else "="%char :: a2b_qp_loop false s1
              | [] => "="%char :: a2b_qp_loop false s1
              end
        end
      else c :: a2b_qp_loop false s1
  end.

Definition a2b_qp (s : bytes) : bytes := a2b_qp_loop false s.

(** [quopri.decodestring(s)] on a [bytes] argument. *)
Definition decodestring (s : bytes) : bytes := a2b_qp s.

(** The conversion [a2b_qp] applies to a [str] argument: only ASCII
    strings are accepted ([None] stands for [ValueError]). *)
Definition ascii_buffer (s : str) : option bytes :=
  if forallb (fun c => c <? 128) s then Some (map ascii_of_N s) else None.

(** [quopri.decodestring(s)] on a [str] argument. *)
Definition decodestring_str (s : str) : option bytes :=
  option_map a2b_qp (ascii_buffer s).

Definition MAXLINESIZE : N := 76.

Definition hex_digit (n : N) : ascii :=
  ascii_of_N (if n <? 10 then 48 + n else 55 + n).

(** [to_hex]: two upper-case hexadecimal digits. *)
Definition to_hex (c : ascii) : bytes :=
  [hex_digit (N_of_ascii c / 16); hex_digit (N_of_ascii c mod 16)].

(** The first line feed of the data is preceded by a carriage return. *)
Fixpoint crlf_after (prev_cr : bool) (s : bytes) : bool :=
  match s with
  | [] => false
  | c :: s' => if Ascii.eqb c LF then prev_cr
               else crlf_after (Ascii.eqb c CR) s'
  end.

Definition detect_crlf (data : bytes) : bool := crlf_after false data.

(** The test of [b2a_qp] for a byte that is written as [=XX], with
    [quotetabs=False], [istext=True], [header=False]; [s1] is the input
    after [c]. *)
Definition must_quote (c : ascii) (s1 : bytes) (linelen : N) : bool :=
  let n := N_of_ascii c in
  (126 <? n)
  || Ascii.eqb c "="%char
  || (Ascii.eqb c "."%char && (linelen =? 0)
      && match s1 with
         | [] => true
         | d :: _ => Ascii.eqb d LF || Ascii.eqb d CR || Ascii.eqb d NUL
         end)
  || ((Ascii.eqb c TAB || Ascii.eqb c " "%char)
      && match s1 with [] => true | _ => false end)
  || ((n <? 33) && negb (Ascii.eqb c CR) && negb (Ascii.eqb c LF)
      && negb (Ascii.eqb c TAB) && negb (Ascii.eqb c " "%char)).

(** A soft line break appended to the (reversed) output. *)
Definition soft_break (crlf : bool) (rout : bytes) : bytes :=
  if crlf then LF :: CR :: "="%char :: rout else LF :: "="%char :: rout.

(** A line end appended to the (reversed) output. *)
Definition line_end (crlf : bool) (rout : bytes) : bytes :=
  if crlf then LF :: CR :: rout else LF :: rout.

(** White space at the end of a line is rewritten as [=XX]. *)
Definition protect_space (rout : bytes) : bytes :=
  match rout with
  | ch :: r => if Ascii.eqb ch " "%char || Ascii.eqb ch TAB
               then rev (to_hex ch) ++ "="%char :: r
               else rout
  | [] => rout
  end.

(** The output loop of [binascii.b2a_qp]: [s] is the input still to be
    read, [rout] the output written so far, last byte first, [linelen]
    the length of the current output line. *)
Fixpoint b2a_qp_loop (crlf : bool) (s : bytes) (rout : bytes) (linelen : N)
  : bytes :=
  match s with
  | [] => rev rout
  | c :: s1 =>
      if must_quote c s1 linelen then
        let brk := MAXLINESIZE <=? linelen + 3 in
        let rout' := if brk then soft_break crlf rout else rout in
        let linelen' := if brk then 0 else linelen in
        b2a_qp_loop crlf s1 (rev (to_hex c) ++ "="%char :: rout') (linelen' + 3)
      else if Ascii.eqb c LF then
        b2a_qp_loop crlf s1 (line_end crlf (protect_space rout)) 0
      else
        match s1 with
        | d :: s2 =>
            if Ascii.eqb c CR && Ascii.eqb d LF then
              b2a_qp_loop crlf s2 (line_end crlf (protect_space rout)) 0
            else
              let brk := negb (Ascii.eqb d LF)
                         && (MAXLINESIZE <=? linelen + 1) in
              let rout' := if brk then soft_break crlf rout else rout in
              let linelen' := if brk then 0 else linelen in
              b2a_qp_loop crlf s1 (c :: rout') (linelen' + 1)
        | [] => b2a_qp_loop crlf s1 (c :: rout) (linelen + 1)
        end
  end.

Definition b2a_qp (data : bytes) : bytes :=
  b2a_qp_loop (detect_crlf data) data [] 0.

(** [quopri.encodestring(s)] *)
Definition encodestring (s : bytes) : bytes := b2a_qp s.

End Quopri.

(** ** The regular expressions of [decode_email.py] *)

Module Regex.
Local Open Scope N_scope.

(** The character class of the two patterns: a double or a single quote. *)
Definition is_quote (c : codepoint) : bool := (c =? 34) || (c =? 39).

(** The greedy run over the negated class: the longest prefix free of
    quote characters, and what follows it. *)
Fixpoint span_value (s : str) : str * str :=
  match s with
  | [] => ([], [])
  | c :: s' =>
      if is_quote c then ([], s)
      else let (v, r) := span_value s' in (c :: v, r)
  end.

(** One attempt to match, at the start of [s], the literal [prefix], a
    quote character, a group of one or more characters that are not quote
    characters, and a quote character: group 1 and the text after the
    match.  The greedy run is followed by a
    quote character or by the end of the text, and every shorter run is
    followed by a character of the run, so no backtracking can succeed
    where the longest run fails. *)
Definition match_here (prefix s : str) : option (str * str) :=
  if PyStr.starts_with N.eqb prefix s then
    match skipn (length prefix) s with
    | q :: t =>
        if is_quote q then
          match span_value t with
          | ((_ :: _) as v, q' :: rest) =>
              if is_quote q' then Some (v, rest) else None
          | _ => None
          end
        else None
    | [] => None
    end
  else None.

(** The scan of [re.findall]: leftmost match first, then on from the end
    of that match; where nothing matches, one character further. *)
Fixpoint findall_scan (prefix : str) (fuel : nat) (s : str) : list str :=
  match fuel with
  | O => []
  | S fuel' =>
      match match_here prefix s with
      | Some (v, rest) => v :: findall_scan prefix fuel' rest
      | None =>
          match s with
          | [] => []
          | _ :: s' => findall_scan prefix fuel' s'
          end
      end
  end.

(** [re.findall] with the pattern of [match_here] on [s]. *)
Definition findall (prefix s : str) : list str :=
  findall_scan prefix (S (length s)) s.

End Regex.

(** ** [decode_email.py] *)

Module DecodeEmail.

Inductive exn : Set := ValueError | UnicodeDecodeError | UnicodeEncodeError.

(** What a run leaves behind: the arguments of the successful [print]
    calls, in order, and the content written to [decoded_html.txt]. *)
Record world : Type := mkWorld {
  stdout : list str;
  decoded_html_txt : option str
}.

Inductive result (A : Type) : Type :=
| Return (a : A)
| Raise (e : exn)
| SystemExit (code : Z).
Arguments Return {A} a.
Arguments Raise {A} e.
Arguments SystemExit {A} code.

Definition M (A : Type) : Type := world -> result A * world.

Definition ret {A} (a : A) : M A := fun w => (Return a, w).

Definition bind {A B} (m : M A) (k : A -> M B) : M B :=
  fun w =>
    match m w with
    | (Return a, w') => k a w'
    | (Raise e, w') => (Raise e, w')
    | (SystemExit c, w') => (SystemExit c, w')
    end.

Notation "x <- m ;; k" := (bind m (fun x => k))
  (at level 61, m at next level, right associativity).
Notation "m ;; k" := (bind m (fun _ => k))
  (at level 61, right associativity).

Definition raise {A} (e : exn) : M A := fun w => (Raise e, w).

(** [exit(code)] *)
Definition exit (code : Z) : M unit := fun w => (SystemExit code, w).

Definition or_raise {A} (e : exn) (o : option A) : M A :=
  match o with Some a => ret a | None => raise e end.

(** [try: body / except UnicodeEncodeError: handler] *)
Definition try_except_encode (body handler : M unit) : M unit :=
  fun w =>
    match body w with
    | (Raise UnicodeEncodeError, w') => handler w'
    | r => r
    end.

(** [for x in xs: body(x)] *)
Fixpoint for_each {A} (xs : list A) (body : A -> M unit) : M unit :=
  match xs with
  | [] => ret tt
  | x :: xs' => body x ;; for_each xs' body
  end.

(** [enumerate(xs, start)] *)
Fixpoint enumerate {A} (xs : list A) (start : Z) : list (Z * A) :=
  match xs with
  | [] => []
  | x :: xs' => (start, x) :: enumerate xs' (start + 1)
  end.

(** [str(i)] for a non-negative integer. *)
Definition str_of_int (i : Z) : str :=
  lit (NilEmpty.string_of_uint (N.to_uint (Z.to_N i))).

Definition NL : str := [10%N].

Section Program.

(** The non-ASCII code points the encoding of standard output can
    represent. *)
Variable stdout_charset : codepoint -> bool.

Definition encodable (s : str) : bool :=
  forallb (fun c => (c <? 128)%N || stdout_charset c) s.

(** [print(s)]: raises [UnicodeEncodeError] when standard output cannot
    encode [s]. *)
Definition print (s : str) : M unit :=
  fun w =>
    if encodable s
    then (Return tt, mkWorld (stdout w ++ [s]) (decoded_html_txt w))
    else (Raise UnicodeEncodeError, w).

(** [with open('decoded_html.txt', 'w', encoding='utf-8') as f: f.write(s)] *)
Definition write_decoded_html_txt (s : str) : M unit :=
  match Utf8.encode s with
  | Some _ => fun w => (Return tt, mkWorld (stdout w) (Some s))
  | None => raise UnicodeEncodeError
  end.

Definition boundary : str :=
  lit "Apple-Mail-A09F7E62-F8D0-44A2-A336-ACC3AE50D0F0".

(** [f"--{boundary}\nContent-Type: text/html;"] *)
Definition html_part_marker : str :=
  lit "--" ++ boundary ++ NL ++ lit "Content-Type: text/html;".

(** [f"\n--{boundary}--"] *)
Definition terminal_marker : str := NL ++ lit "--" ++ boundary ++ lit "--".

(** [f"\n--{boundary}"] *)
Definition boundary_marker : str := NL ++ lit "--" ++ boundary.

Definition html_start_of (email_content : str) : Z :=
  str_find html_part_marker email_content 0.

Definition html_end_of (email_content : str) (html_start : Z) : Z :=
  let html_end := str_find terminal_marker email_content html_start in
  if html_end =? -1
  then str_find boundary_marker email_content (html_start + 1)
  else html_end.

Definition html_section_of (email_content : str) : str :=
  let html_start := html_start_of email_content in
  PyStr.slice email_content html_start (html_end_of email_content html_start).

Definition body_start_of (html_section : str) : Z :=
  let body_start := str_find (NL ++ NL) html_section 0 in
  let body_start :=
    if body_start =? -1
    then str_find ([13; 10; 13; 10]%N) html_section 0
    else body_start in
  if body_start =? -1 then 0 else body_start + 2.

Definition html_body_of (html_section : str) : str :=
  PyStr.slice_from html_section (body_start_of html_section).

Definition rule : str := repeat 61%N 80.

(** The links of the decoded HTML. *)
Definition links_of (decoded_html : str) : list str :=
  Regex.findall (lit "href=") decoded_html.

(** The links of the body that is still quoted-printable. *)
Definition raw_links_of (html_body : str) : list str :=
  Regex.findall (lit "href=3D") html_body.

(** [quopri.decodestring(link.encode('utf-8')).decode('utf-8')] *)
Definition decode_link (link : str) : M str :=
  link_bytes <- or_raise UnicodeEncodeError (Utf8.encode link) ;;
  or_raise UnicodeDecodeError (Utf8.decode (Quopri.decodestring link_bytes)).

(** The body of the loop over [links]. *)
Definition print_link (numbered_link : Z * str) : M unit :=
  let '(i, link) := numbered_link in
  print (NL ++ lit "Link " ++ str_of_int i ++ lit ":") ;;
  print link.

Definition print_links (links : list str) : M unit :=
  for_each (enumerate links 1) print_link.

(** The body of the loop over [raw_links]. *)
Definition print_raw_link (numbered_link : Z * str) : M unit :=
  let '(i, link) := numbered_link in
  print (NL ++ lit "Raw Link " ++ str_of_int i ++ lit ":") ;;
  print link ;;
  decoded_link <- decode_link link ;;
  print (lit "Decoded: " ++ decoded_link).

Definition print_raw_links (raw_links : list str) : M unit :=
  for_each (enumerate raw_links 1) print_raw_link.

(** [quopri.decodestring(html_body).decode('utf-8')] *)
Definition decode_html (html_body : str) : M str :=
  decoded_bytes <- or_raise ValueError (Quopri.decodestring_str html_body) ;;
  or_raise UnicodeDecodeError (Utf8.decode decoded_bytes).

(** The script, from the text [email_content] read from
    [latest_email.txt]. *)
Definition main (email_content : str) : M unit :=
  let html_start := html_start_of email_content in
  (if html_start =? -1
   then print (lit "Could not find HTML part") ;; exit 1
   else ret tt) ;;
  let html_section := html_section_of email_content in
  let html_body := html_body_of html_section in
  decoded_html <- decode_html html_body ;;
  print rule ;;
  print (lit "DECODED HTML CONTENT:") ;;
  print rule ;;
  try_except_encode
    (print decoded_html)
    (write_decoded_html_txt decoded_html ;;
     print (lit "(Content written to decoded_html.txt due to encoding issues)")) ;;
  print (NL ++ rule) ;;
  print (lit "EXTRACTED LINKS:") ;;
  print rule ;;
  print_links (links_of decoded_html) ;;
  print (NL ++ rule) ;;
  print (lit "RAW QUOTED-PRINTABLE LINKS (before decoding):") ;;
  print rule ;;
  print_raw_links (raw_links_of html_body).

(** The run of the script on an input, from an empty output. *)
Definition run (email_content : str) : result unit * world :=
  main email_content (mkWorld [] None).

End Program.

(** The exit status of the process: [0] at the end of the script, the
    argument of [exit], and [1] for an exception nobody caught. *)
Definition exit_status (r : result unit) : Z :=
  match r with
  | Return _ => 0
  | SystemExit code => code
  | Raise _ => 1
  end.

End DecodeEmail.

(** ** [html.unescape] *)

Module Html.
Local Open Scope N_scope.

(** [html.entities.html5]: the named character references of HTML 5, with
    and without their final semicolon as the standard lists them. *)
Definition html5 : list (str * str) := [
  (lit "Aacute", [193]);
  (lit "aacute", [225]);
  (lit "Aacute;", [193]);
  (lit "aacute;", [225]);
  (lit "Abreve;", [258]);
  (lit "abreve;", [259]);
  (lit "ac;", [8766]);
  (lit "acd;", [8767]);
  (lit "acE;", [8766; 819]);
  (lit "Acirc", [194]);
  (lit "acirc", [226]);
  (lit "Acirc;", [194]);
  (lit "acirc;", [226]);
  (lit "acute", [180]);
  (lit "acute;", [180]);
  (lit "Acy;", [1040]);
  (lit "acy;", [1072]);
  (lit "AElig", [198]);
  (lit "aelig", [230]);
  (lit "AElig;", [198]);
  (lit "aelig;", [230]);
  (lit "af;", [8289]);
  (lit "Afr;", [120068]);
  (lit "afr;", [120094]);
  (lit "Agrave", [192]);
  (lit "agrave", [224]);
  (lit "Agrave;", [192]);
  (lit "agrave;", [224]);
  (lit "alefsym;", [8501]);
  (lit "aleph;", [8501]);
  (lit "Alpha;", [913]);
  (lit "alpha;", [945]);
  (lit "Amacr;", [256]);
  (lit "amacr;", [257]);
  (lit "amalg;", [10815]);
  (lit "AMP", [38]);
  (lit "amp", [38]);
  (lit "AMP;", [38]);
  (lit "amp;", [38]);
  (lit "And;", [10835]);
  (lit "and;", [8743]);
  (lit "andand;", [10837]);
  (lit "andd;", [10844]);
  (lit "andslope;", [10840]);
  (lit "andv;", [10842]);
  (lit "ang;", [8736]);
  (lit "ange;", [10660]);
  (lit "angle;", [8736]);
  (lit "angmsd;", [8737]);
  (lit "angmsdaa;", [10664]);
  (lit "angmsdab;", [10665]);
  (lit "angmsdac;", [10666]);
  (lit "angmsdad;", [10667]);
  (lit "angmsdae;", [10668]);
  (lit "angmsdaf;", [10669]);
  (lit "angmsdag;", [10670]);
  (lit "angmsdah;", [10671]);
  (lit "angrt;", [8735]);
  (lit "angrtvb;", [8894]);
  (lit "angrtvbd;", [10653]);
  (lit "angsph;", [8738]);
  (lit "angst;", [197]);
  (lit "angzarr;", [9084]);
  (lit "Aogon;", [260]);
  (lit "aogon;", [261]);
  (lit "Aopf;", [120120]);
  (lit "aopf;", [120146]);
  (lit "ap;", [8776]);
  (lit "apacir;", [10863]);
  (lit "apE;", [10864]);
  (lit "ape;", [8778]);
  (lit "apid;", [8779]);
  (lit "apos;", [39]);
  (lit "ApplyFunction;", [8289]);
  (lit "approx;", [8776]);
  (lit "approxeq;", [8778]);
  (lit "Aring", [197]);
  (lit "aring", [229]);
  (lit "Aring;", [197]);
  (lit "aring;", [229]);
  (lit "Ascr;", [119964]);
  (lit "ascr;", [119990]);
  (lit "Assign;", [8788]);
  (lit "ast;", [42]);
  (lit "asymp;", [8776]);
  (lit "asympeq;", [8781]);
  (lit "Atilde", [195]);
  (lit "atilde", [227]);
  (lit "Atilde;", [195]);
  (lit "atilde;", [227]);
  (lit "Auml", [196]);
  (lit "auml", [228]);
  (lit "Auml;", [196]);
  (lit "auml;", [228]);
  (lit "awconint;", [8755]);
  (lit "awint;", [10769]);
  (lit "backcong;", [8780]);
  (lit "backepsilon;", [1014]);
  (lit "backprime;", [8245]);
  (lit "backsim;", [8765]);
  (lit "backsimeq;", [8909]);
  (lit "Backslash;", [8726]);
  (lit "Barv;", [10983]);
  (lit "barvee;", [8893]);
  (lit "Barwed;", [8966]);
  (lit "barwed;", [8965]);
  (lit "barwedge;", [8965]);
  (lit "bbrk;", [9141]);
  (lit "bbrktbrk;", [9142]);
  (lit "bcong;", [8780]);
  (lit "Bcy;", [1041]);
  (lit "bcy;", [1073]);
  (lit "bdquo;", [8222]);
  (lit "becaus;", [8757]);
  (lit "Because;", [8757]);
  (lit "because;", [8757]);
  (lit "bemptyv;", [10672]);
  (lit "bepsi;", [1014]);
  (lit "bernou;", [8492]);
  (lit "Bernoullis;", [8492]);
  (lit "Beta;", [914]);
  (lit "beta;", [946]);
  (lit "beth;", [8502]);
  (lit "between;", [8812]);
  (lit "Bfr;", [120069]);
  (lit "bfr;", [120095]);
  (lit "bigcap;", [8898]);
  (lit "bigcirc;", [9711]);
  (lit "bigcup;", [8899]);
  (lit "bigodot;", [10752]);
  (lit "bigoplus;", [10753]);
  (lit "bigotimes;", [10754]);
  (lit "bigsqcup;", [10758]);
  (lit "bigstar;", [9733]);
  (lit "bigtriangledown;", [9661]);
  (lit "bigtriangleup;", [9651]);
  (lit "biguplus;", [10756]);
  (lit "bigvee;", [8897]);
  (lit "bigwedge;", [8896]);
  (lit "bkarow;", [10509]);
  (lit "blacklozenge;", [10731]);
  (lit "blacksquare;", [9642]);
  (lit "blacktriangle;", [9652]);
  (lit "blacktriangledown;", [9662]);
  (lit "blacktriangleleft;", [9666]);
  (lit "blacktriangleright;", [9656]);
  (lit "blank;", [9251]);
  (lit "blk12;", [9618]);
  (lit "blk14;", [9617]);
  (lit "blk34;", [9619]);
  (lit "block;", [9608]);
  (lit "bne;", [61; 8421]);
  (lit "bnequiv;", [8801; 8421]);
  (lit "bNot;", [10989]);
  (lit "bnot;", [8976]);
  (lit "Bopf;", [120121]);
  (lit "bopf;", [120147]);
  (lit "bot;", [8869]);
  (lit "bottom;", [8869]);
  (lit "bowtie;", [8904]);
  (lit "boxbox;", [10697]);
  (lit "boxDL;", [9559]);
  (lit "boxDl;", [9558]);
  (lit "boxdL;", [9557]);
  (lit "boxdl;", [9488]);
  (lit "boxDR;", [9556]);
  (lit "boxDr;", [9555]);
  (lit "boxdR;", [9554]);
  (lit "boxdr;", [9484]);
  (lit "boxH;", [9552]);
  (lit "boxh;", [9472]);
  (lit "boxHD;", [9574]);
  (lit "boxHd;", [9572]);
  (lit "boxhD;", [9573]);
  (lit "boxhd;", [9516]);
  (lit "boxHU;", [9577]);
  (lit "boxHu;", [9575]);
  (lit "boxhU;", [9576]);
  (lit "boxhu;", [9524]);
  (lit "boxminus;", [8863]);
  (lit "boxplus;", [8862]);
  (lit "boxtimes;", [8864]);
  (lit "boxUL;", [9565]);
  (lit "boxUl;", [9564]);
  (lit "boxuL;", [9563]);
  (lit "boxul;", [9496]);
  (lit "boxUR;", [9562]);
  (lit "boxUr;", [9561]);
  (lit "boxuR;", [9560]);
  (lit "boxur;", [9492]);
  (lit "boxV;", [9553]);
  (lit "boxv;", [9474]);
  (lit "boxVH;", [9580]);
  (lit "boxVh;", [9579]);
  (lit "boxvH;", [9578]);
  (lit "boxvh;", [9532]);
  (lit "boxVL;", [9571]);
  (lit "boxVl;", [9570]);
  (lit "boxvL;", [9569]);
  (lit "boxvl;", [9508]);
  (lit "boxVR;", [9568]);
  (lit "boxVr;", [9567]);
  (lit "boxvR;", [9566]);
  (lit "boxvr;", [9500]);
  (lit "bprime;", [8245]);
  (lit "Breve;", [728]);
  (lit "breve;", [728]);
  (lit "brvbar", [166]);
  (lit "brvbar;", [166]);
  (lit "Bscr;", [8492]);
  (lit "bscr;", [119991]);
  (lit "bsemi;", [8271]);
  (lit "bsim;", [8765]);
  (lit "bsime;", [8909]);
  (lit "bsol;", [92]);
  (lit "bsolb;", [10693]);
  (lit "bsolhsub;", [10184]);
  (lit "bull;", [8226]);
  (lit "bullet;", [8226]);
  (lit "bump;", [8782]);
  (lit "bumpE;", [10926]);
  (lit "bumpe;", [8783]);
  (lit "Bumpeq;", [8782]);
  (lit "bumpeq;", [8783]);
  (lit "Cacute;", [262]);
  (lit "cacute;", [263]);
  (lit "Cap;", [8914]);
  (lit "cap;", [8745]);
  (lit "capand;", [10820]);
  (lit "capbrcup;", [10825]);
  (lit "capcap;", [10827]);
  (lit "capcup;", [10823]);
  (lit "capdot;", [10816]);
  (lit "CapitalDifferentialD;", [8517]);
  (lit "caps;", [8745; 65024]);
  (lit "caret;", [8257]);
  (lit "caron;", [711]);
  (lit "Cayleys;", [8493]);
  (lit "ccaps;", [10829]);
  (lit "Ccaron;", [268]);
  (lit "ccaron;", [269]);
  (lit "Ccedil", [199]);
  (lit "ccedil", [231]);
  (lit "Ccedil;", [199]);
  (lit "ccedil;", [231]);
  (lit "Ccirc;", [264]);
  (lit "ccirc;", [265]);
  (lit "Cconint;", [8752]);
  (lit "ccups;", [10828]);
  (lit "ccupssm;", [10832]);
  (lit "Cdot;", [266]);
  (lit "cdot;", [267]);
  (lit "cedil", [184]);
  (lit "cedil;", [184]);
  (lit "Cedilla;", [184]);
  (lit "cemptyv;", [10674]);
  (lit "cent", [162]);
  (lit "cent;", [162]);
  (lit "CenterDot;", [183]);
  (lit "centerdot;", [183]);
  (lit "Cfr;", [8493]);
  (lit "cfr;", [120096]);
  (lit "CHcy;", [1063]);
  (lit "chcy;", [1095]);
  (lit "check;", [10003]);
  (lit "checkmark;", [10003]);
  (lit "Chi;", [935]);
  (lit "chi;", [967]);
  (lit "cir;", [9675]);
  (lit "circ;", [710]);
  (lit "circeq;", [8791]);
  (lit "circlearrowleft;", [8634]);
  (lit "circlearrowright;", [8635]);
  (lit "circledast;", [8859]);
  (lit "circledcirc;", [8858]);
  (lit "circleddash;", [8861]);
  (lit "CircleDot;", [8857]);
  (lit "circledR;", [174]);
  (lit "circledS;", [9416]);
  (lit "CircleMinus;", [8854]);
  (lit "CirclePlus;", [8853]);
  (lit "CircleTimes;", [8855]);
  (lit "cirE;", [10691]);
  (lit "cire;", [8791]);
  (lit "cirfnint;", [10768]);
  (lit "cirmid;", [10991]);
  (lit "cirscir;", [10690]);
  (lit "ClockwiseContourIntegral;", [8754]);
  (lit "CloseCurlyDoubleQuote;", [8221]);
  (lit "CloseCurlyQuote;", [8217]);
  (lit "clubs;", [9827]);
  (lit "clubsuit;", [9827]);
  (lit "Colon;", [8759]);
  (lit "colon;", [58]);
  (lit "Colone;", [10868]);
  (lit "colone;", [8788]);
  (lit "coloneq;", [8788]);
  (lit "comma;", [44]);
  (lit "commat;", [64]);
  (lit "comp;", [8705]);
  (lit "compfn;", [8728]);
  (lit "complement;", [8705]);
  (lit "complexes;", [8450]);
  (lit "cong;", [8773]);
  (lit "congdot;", [10861]);
  (lit "Congruent;", [8801]);
  (lit "Conint;", [8751]);
  (lit "conint;", [8750]);
  (lit "ContourIntegral;", [8750]);
  (lit "Copf;", [8450]);
  (lit "copf;", [120148]);
  (lit "coprod;", [8720]);
  (lit "Coproduct;", [8720]);
  (lit "COPY", [169]);
  (lit "copy", [169]);
  (lit "COPY;", [169]);
  (lit "copy;", [169]);
  (lit "copysr;", [8471]);
  (lit "CounterClockwiseContourIntegral;", [8755]);
  (lit "crarr;", [8629]);
  (lit "Cross;", [10799]);
  (lit "cross;", [10007]);
  (lit "Cscr;", [119966]);
  (lit "cscr;", [119992]);
  (lit "csub;", [10959]);
  (lit "csube;", [10961]);
  (lit "csup;", [10960]);
  (lit "csupe;", [10962]);
  (lit "ctdot;", [8943]);
  (lit "cudarrl;", [10552]);
  (lit "cudarrr;", [10549]);
  (lit "cuepr;", [8926]);
  (lit "cuesc;", [8927]);
  (lit "cularr;", [8630]);
  (lit "cularrp;", [10557]);
  (lit "Cup;", [8915]);
  (lit "cup;", [8746]);
  (lit "cupbrcap;", [10824]);
  (lit "CupCap;", [8781]);
  (lit "cupcap;", [10822]);
  (lit "cupcup;", [10826]);
  (lit "cupdot;", [8845]);
  (lit "cupor;", [10821]);
  (lit "cups;", [8746; 65024]);
  (lit "curarr;", [8631]);
  (lit "curarrm;", [10556]);
  (lit "curlyeqprec;", [8926]);
  (lit "curlyeqsucc;", [8927]);
  (lit "curlyvee;", [8910]);
  (lit "curlywedge;", [8911]);
  (lit "curren", [164]);
  (lit "curren;", [164]);
  (lit "curvearrowleft;", [8630]);
  (lit "curvearrowright;", [8631]);
  (lit "cuvee;", [8910]);
  (lit "cuwed;", [8911]);
  (lit "cwconint;", [8754]);
  (lit "cwint;", [8753]);
  (lit "cylcty;", [9005]);
  (lit "Dagger;", [8225]);
  (lit "dagger;", [8224]);
  (lit "daleth;", [8504]);
  (lit "Darr;", [8609]);
  (lit "dArr;", [8659]);
  (lit "darr;", [8595]);
  (lit "dash;", [8208]);
  (lit "Dashv;", [10980]);
  (lit "dashv;", [8867]);
  (lit "dbkarow;", [10511]);
  (lit "dblac;", [733]);
  (lit "Dcaron;", [270]);
  (lit "dcaron;", [271]);
  (lit "Dcy;", [1044]);
  (lit "dcy;", [1076]);
  (lit "DD;", [8517]);
  (lit "dd;", [8518]);
  (lit "ddagger;", [8225]);
  (lit "ddarr;", [8650]);
  (lit "DDotrahd;", [10513]);
  (lit "ddotseq;", [10871]);
  (lit "deg", [176]);
  (lit "deg;", [176]);
  (lit "Del;", [8711]);
  (lit "Delta;", [916]);
  (lit "delta;", [948]);
  (lit "demptyv;", [10673]);
  (lit "dfisht;", [10623]);
  (lit "Dfr;", [120071]);
  (lit "dfr;", [120097]);
  (lit "dHar;", [10597]);
  (lit "dharl;", [8643]);
  (lit "dharr;", [8642]);
  (lit "DiacriticalAcute;", [180]);
  (lit "DiacriticalDot;", [729]);
  (lit "DiacriticalDoubleAcute;", [733]);
  (lit "DiacriticalGrave;", [96]);
  (lit "DiacriticalTilde;", [732]);
  (lit "diam;", [8900]);
  (lit "Diamond;", [8900]);
  (lit "diamond;", [8900]);
  (lit "diamondsuit;", [9830]);
  (lit "diams;", [9830]);
  (lit "die;", [168]);
  (lit "DifferentialD;", [8518]);
  (lit "digamma;", [989]);
  (lit "disin;", [8946]);
  (lit "div;", [247]);
  (lit "divide", [247]);
  (lit "divide;", [247]);
  (lit "divideontimes;", [8903]);
  (lit "divonx;", [8903]);
  (lit "DJcy;", [1026]);
  (lit "djcy;", [1106]);
  (lit "dlcorn;", [8990]);
  (lit "dlcrop;", [8973]);
  (lit "dollar;", [36]);
  (lit "Dopf;", [120123]);
  (lit "dopf;", [120149]);
  (lit "Dot;", [168]);
  (lit "dot;", [729]);
  (lit "DotDot;", [8412]);
  (lit "doteq;", [8784]);
  (lit "doteqdot;", [8785]);
  (lit "DotEqual;", [8784]);
  (lit "dotminus;", [8760]);
  (lit "dotplus;", [8724]);
  (lit "dotsquare;", [8865]);
  (lit "doublebarwedge;", [8966]);
  (lit "DoubleContourIntegral;", [8751]);
  (lit "DoubleDot;", [168]);
  (lit "DoubleDownArrow;", [8659]);
  (lit "DoubleLeftArrow;", [8656]);
  (lit "DoubleLeftRightArrow;", [8660]);
  (lit "DoubleLeftTee;", [10980]);
  (lit "DoubleLongLeftArrow;", [10232]);
  (lit "DoubleLongLeftRightArrow;", [10234]);
  (lit "DoubleLongRightArrow;", [10233]);
  (lit "DoubleRightArrow;", [8658]);
  (lit "DoubleRightTee;", [8872]);
  (lit "DoubleUpArrow;", [8657]);
  (lit "DoubleUpDownArrow;", [8661]);
  (lit "DoubleVerticalBar;", [8741]);
  (lit "DownArrow;", [8595]);
  (lit "Downarrow;", [8659]);
  (lit "downarrow;", [8595]);
  (lit "DownArrowBar;", [10515]);
  (lit "DownArrowUpArrow;", [8693]);
  (lit "DownBreve;", [785]);
  (lit "downdownarrows;", [8650]);
  (lit "downharpoonleft;", [8643]);
  (lit "downharpoonright;", [8642]);
  (lit "DownLeftRightVector;", [10576]);
  (lit "DownLeftTeeVector;", [10590]);
  (lit "DownLeftVector;", [8637]);
  (lit "DownLeftVectorBar;", [10582]);
  (lit "DownRightTeeVector;", [10591]);
  (lit "DownRightVector;", [8641]);
  (lit "DownRightVectorBar;", [10583]);
  (lit "DownTee;", [8868]);
  (lit "DownTeeArrow;", [8615]);
  (lit "drbkarow;", [10512]);
  (lit "drcorn;", [8991]);
  (lit "drcrop;", [8972]);
  (lit "Dscr;", [119967]);
  (lit "dscr;", [119993]);
  (lit "DScy;", [1029]);
  (lit "dscy;", [1109]);
  (lit "dsol;", [10742]);
  (lit "Dstrok;", [272]);
  (lit "dstrok;", [273]);
  (lit "dtdot;", [8945]);
  (lit "dtri;", [9663]);
  (lit "dtrif;", [9662]);
  (lit "duarr;", [8693]);
  (lit "duhar;", [10607]);
  (lit "dwangle;", [10662]);
  (lit "DZcy;", [1039]);
  (lit "dzcy;", [1119]);
  (lit "dzigrarr;", [10239]);
  (lit "Eacute", [201]);
  (lit "eacute", [233]);
  (lit "Eacute;", [201]);
  (lit "eacute;", [233]);
  (lit "easter;", [10862]);
  (lit "Ecaron;", [282]);
  (lit "ecaron;", [283]);
  (lit "ecir;", [8790]);
  (lit "Ecirc", [202]);
  (lit "ecirc", [234]);
  (lit "Ecirc;", [202]);
  (lit "ecirc;", [234]);
  (lit "ecolon;", [8789]);
  (lit "Ecy;", [1069]);
  (lit "ecy;", [1101]);
  (lit "eDDot;", [10871]);
  (lit "Edot;", [278]);
  (lit "eDot;", [8785]);
  (lit "edot;", [279]);
  (lit "ee;", [8519]);
  (lit "efDot;", [8786]);
  (lit "Efr;", [120072]);
  (lit "efr;", [120098]);
  (lit "eg;", [10906]);
  (lit "Egrave", [200]);
  (lit "egrave", [232]);
  (lit "Egrave;", [200]);
  (lit "egrave;", [232]);
  (lit "egs;", [10902]);
  (lit "egsdot;", [10904]);
  (lit "el;", [10905]);
  (lit "Element;", [8712]);
  (lit "elinters;", [9191]);
  (lit "ell;", [8467]);
  (lit "els;", [10901]);
  (lit "elsdot;", [10903]);
  (lit "Emacr;", [274]);
  (lit "emacr;", [275]);
  (lit "empty;", [8709]);
  (lit "emptyset;", [8709]);
  (lit "EmptySmallSquare;", [9723]);
  (lit "emptyv;", [8709]);
  (lit "EmptyVerySmallSquare;", [9643]);
  (lit "emsp13;", [8196]);
  (lit "emsp14;", [8197]);
  (lit "emsp;", [8195]);
  (lit "ENG;", [330]);
  (lit "eng;", [331]);
  (lit "ensp;", [8194]);
  (lit "Eogon;", [280]);
  (lit "eogon;", [281]);
  (lit "Eopf;", [120124]);
  (lit "eopf;", [120150]);
  (lit "epar;", [8917]);
  (lit "eparsl;", [10723]);
  (lit "eplus;", [10865]);
  (lit "epsi;", [949]);
  (lit "Epsilon;", [917]);
  (lit "epsilon;", [949]);
  (lit "epsiv;", [1013]);
  (lit "eqcirc;", [8790]);
  (lit "eqcolon;", [8789]);
  (lit "eqsim;", [8770]);
  (lit "eqslantgtr;", [10902]);
  (lit "eqslantless;", [10901]);
  (lit "Equal;", [10869]);
  (lit "equals;", [61]);
  (lit "EqualTilde;", [8770]);
  (lit "equest;", [8799]);
  (lit "Equilibrium;", [8652]);
  (lit "equiv;", [8801]);
  (lit "equivDD;", [10872]);
  (lit "eqvparsl;", [10725]);
  (lit "erarr;", [10609]);
  (lit "erDot;", [8787]);
  (lit "Escr;", [8496]);
  (lit "escr;", [8495]);
  (lit "esdot;", [8784]);
  (lit "Esim;", [10867]);
  (lit "esim;", [8770]);
  (lit "Eta;", [919]);
  (lit "eta;", [951]);
  (lit "ETH", [208]);
  (lit "eth", [240]);
  (lit "ETH;", [208]);
  (lit "eth;", [240]);
  (lit "Euml", [203]);
  (lit "euml", [235]);
  (lit "Euml;", [203]);
  (lit "euml;", [235]);
  (lit "euro;", [8364]);
  (lit "excl;", [33]);
  (lit "exist;", [8707]);
  (lit "Exists;", [8707]);
  (lit "expectation;", [8496]);
  (lit "ExponentialE;", [8519]);
  (lit "exponentiale;", [8519]);
  (lit "fallingdotseq;", [8786]);
  (lit "Fcy;", [1060]);
  (lit "fcy;", [1092]);
  (lit "female;", [9792]);
  (lit "ffilig;", [64259]);
  (lit "fflig;", [64256]);
  (lit "ffllig;", [64260]);
  (lit "Ffr;", [120073]);
  (lit "ffr;", [120099]);
  (lit "filig;", [64257]);
  (lit "FilledSmallSquare;", [9724]);
  (lit "FilledVerySmallSquare;", [9642]);
  (lit "fjlig;", [102; 106]);
  (lit "flat;", [9837]);
  (lit "fllig;", [64258]);
  (lit "fltns;", [9649]);
  (lit "fnof;", [402]);
  (lit "Fopf;", [120125]);
  (lit "fopf;", [120151]);
  (lit "ForAll;", [8704]);
  (lit "forall;", [8704]);
  (lit "fork;", [8916]);
  (lit "forkv;", [10969]);
  (lit "Fouriertrf;", [8497]);
  (lit "fpartint;", [10765]);
  (lit "frac12", [189]);
  (lit "frac12;", [189]);
  (lit "frac13;", [8531]);
  (lit "frac14", [188]);
  (lit "frac14;", [188]);
  (lit "frac15;", [8533]);
  (lit "frac16;", [8537]);
  (lit "frac18;", [8539]);
  (lit "frac23;", [8532]);
  (lit "frac25;", [8534]);
  (lit "frac34", [190]);
  (lit "frac34;", [190]);
  (lit "frac35;", [8535]);
  (lit "frac38;", [8540]);
  (lit "frac45;", [8536]);
  (lit "frac56;", [8538]);
  (lit "frac58;", [8541]);
  (lit "frac78;", [8542]);
  (lit "frasl;", [8260]);
  (lit "frown;", [8994]);
  (lit "Fscr;", [8497]);
  (lit "fscr;", [119995]);
  (lit "gacute;", [501]);
  (lit "Gamma;", [915]);
  (lit "gamma;", [947]);
  (lit "Gammad;", [988]);
  (lit "gammad;", [989]);
  (lit "gap;", [10886]);
  (lit "Gbreve;", [286]);
  (lit "gbreve;", [287]);
  (lit "Gcedil;", [290]);
  (lit "Gcirc;", [284]);
  (lit "gcirc;", [285]);
  (lit "Gcy;", [1043]);
  (lit "gcy;", [1075]);
  (lit "Gdot;", [288]);
  (lit "gdot;", [289]);
  (lit "gE;", [8807]);
  (lit "ge;", [8805]);
  (lit "gEl;", [10892]);
  (lit "gel;", [8923]);
  (lit "geq;", [8805]);
  (lit "geqq;", [8807]);
  (lit "geqslant;", [10878]);
  (lit "ges;", [10878]);
  (lit "gescc;", [10921]);
  (lit "gesdot;", [10880]);
  (lit "gesdoto;", [10882]);
  (lit "gesdotol;", [10884]);
  (lit "gesl;", [8923; 65024]);
  (lit "gesles;", [10900]);
  (lit "Gfr;", [120074]);
  (lit "gfr;", [120100]);
  (lit "Gg;", [8921]);
  (lit "gg;", [8811]);
  (lit "ggg;", [8921]);
  (lit "gimel;", [8503]);
  (lit "GJcy;", [1027]);
  (lit "gjcy;", [1107]);
  (lit "gl;", [8823]);
  (lit "gla;", [10917]);
  (lit "glE;", [10898]);
  (lit "glj;", [10916]);
  (lit "gnap;", [10890]);
  (lit "gnapprox;", [10890]);
  (lit "gnE;", [8809]);
  (lit "gne;", [10888]);
  (lit "gneq;", [10888]);
  (lit "gneqq;", [8809]);
  (lit "gnsim;", [8935]);
  (lit "Gopf;", [120126]);
  (lit "gopf;", [120152]);
  (lit "grave;", [96]);
  (lit "GreaterEqual;", [8805]);
  (lit "GreaterEqualLess;", [8923]);
  (lit "GreaterFullEqual;", [8807]);
  (lit "GreaterGreater;", [10914]);
  (lit "GreaterLess;", [8823]);
  (lit "GreaterSlantEqual;", [10878]);
  (lit "GreaterTilde;", [8819]);
  (lit "Gscr;", [119970]);
  (lit "gscr;", [8458]);
  (lit "gsim;", [8819]);
  (lit "gsime;", [10894]);
  (lit "gsiml;", [10896]);
  (lit "GT", [62]);
  (lit "gt", [62]);
  (lit "GT;", [62]);
  (lit "Gt;", [8811]);
  (lit "gt;", [62]);
  (lit "gtcc;", [10919]);
  (lit "gtcir;", [10874]);
  (lit "gtdot;", [8919]);
  (lit "gtlPar;", [10645]);
  (lit "gtquest;", [10876]);
  (lit "gtrapprox;", [10886]);
  (lit "gtrarr;", [10616]);
  (lit "gtrdot;", [8919]);
  (lit "gtreqless;", [8923]);
  (lit "gtreqqless;", [10892]);
  (lit "gtrless;", [8823]);
  (lit "gtrsim;", [8819]);
  (lit "gvertneqq;", [8809; 65024]);
  (lit "gvnE;", [8809; 65024]);
  (lit "Hacek;", [711]);
  (lit "hairsp;", [8202]);
  (lit "half;", [189]);
  (lit "hamilt;", [8459]);
  (lit "HARDcy;", [1066]);
  (lit "hardcy;", [1098]);
  (lit "hArr;", [8660]);
  (lit "harr;", [8596]);
  (lit "harrcir;", [10568]);
  (lit "harrw;", [8621]);
  (lit "Hat;", [94]);
  (lit "hbar;", [8463]);
  (lit "Hcirc;", [292]);
  (lit "hcirc;", [293]);
  (lit "hearts;", [9829]);
  (lit "heartsuit;", [9829]);
  (lit "hellip;", [8230]);
  (lit "hercon;", [8889]);
  (lit "Hfr;", [8460]);
  (lit "hfr;", [120101]);
  (lit "HilbertSpace;", [8459]);
  (lit "hksearow;", [10533]);
  (lit "hkswarow;", [10534]);
  (lit "hoarr;", [8703]);
  (lit "homtht;", [8763]);
  (lit "hookleftarrow;", [8617]);
  (lit "hookrightarrow;", [8618]);
  (lit "Hopf;", [8461]);
  (lit "hopf;", [120153]);
  (lit "horbar;", [8213]);
  (lit "HorizontalLine;", [9472]);
  (lit "Hscr;", [8459]);
  (lit "hscr;", [119997]);
  (lit "hslash;", [8463]);
  (lit "Hstrok;", [294]);
  (lit "hstrok;", [295]);
  (lit "HumpDownHump;", [8782]);
  (lit "HumpEqual;", [8783]);
  (lit "hybull;", [8259]);
  (lit "hyphen;", [8208]);
  (lit "Iacute", [205]);
  (lit "iacute", [237]);
  (lit "Iacute;", [205]);
  (lit "iacute;", [237]);
  (lit "ic;", [8291]);
  (lit "Icirc", [206]);
  (lit "icirc", [238]);
  (lit "Icirc;", [206]);
  (lit "icirc;", [238]);
  (lit "Icy;", [1048]);
  (lit "icy;", [1080]);
  (lit "Idot;", [304]);
  (lit "IEcy;", [1045]);
  (lit "iecy;", [1077]);
  (lit "iexcl", [161]);
  (lit "iexcl;", [161]);
  (lit "iff;", [8660]);
  (lit "Ifr;", [8465]);
  (lit "ifr;", [120102]);
  (lit "Igrave", [204]);
  (lit "igrave", [236]);
  (lit "Igrave;", [204]);
  (lit "igrave;", [236]);
  (lit "ii;", [8520]);
  (lit "iiiint;", [10764]);
  (lit "iiint;", [8749]);
  (lit "iinfin;", [10716]);
  (lit "iiota;", [8489]);
  (lit "IJlig;", [306]);
  (lit "ijlig;", [307]);
  (lit "Im;", [8465]);
  (lit "Imacr;", [298]);
  (lit "imacr;", [299]);
  (lit "image;", [8465]);
  (lit "ImaginaryI;", [8520]);
  (lit "imagline;", [8464]);
  (lit "imagpart;", [8465]);
  (lit "imath;", [305]);
  (lit "imof;", [8887]);
  (lit "imped;", [437]);
  (lit "Implies;", [8658]);
  (lit "in;", [8712]);
  (lit "incare;", [8453]);
  (lit "infin;", [8734]);
  (lit "infintie;", [10717]);
  (lit "inodot;", [305]);
  (lit "Int;", [8748]);
  (lit "int;", [8747]);
  (lit "intcal;", [8890]);
  (lit "integers;", [8484]);
  (lit "Integral;", [8747]);
  (lit "intercal;", [8890]);
  (lit "Intersection;", [8898]);
  (lit "intlarhk;", [10775]);
  (lit "intprod;", [10812]);
  (lit "InvisibleComma;", [8291]);
  (lit "InvisibleTimes;", [8290]);
  (lit "IOcy;", [1025]);
  (lit "iocy;", [1105]);
  (lit "Iogon;", [302]);
  (lit "iogon;", [303]);
  (lit "Iopf;", [120128]);
  (lit "iopf;", [120154]);
  (lit "Iota;", [921]);
  (lit "iota;", [953]);
  (lit "iprod;", [10812]);
  (lit "iquest", [191]);
  (lit "iquest;", [191]);
  (lit "Iscr;", [8464]);
  (lit "iscr;", [119998]);
  (lit "isin;", [8712]);
  (lit "isindot;", [8949]);
  (lit "isinE;", [8953]);
  (lit "isins;", [8948]);
  (lit "isinsv;", [8947]);
  (lit "isinv;", [8712]);
  (lit "it;", [8290]);
  (lit "Itilde;", [296]);
  (lit "itilde;", [297]);
  (lit "Iukcy;", [1030]);
  (lit "iukcy;", [1110]);
  (lit "Iuml", [207]);
  (lit "iuml", [239]);
  (lit "Iuml;", [207]);
  (lit "iuml;", [239]);
  (lit "Jcirc;", [308]);
  (lit "jcirc;", [309]);
  (lit "Jcy;", [1049]);
  (lit "jcy;", [1081]);
  (lit "Jfr;", [120077]);
  (lit "jfr;", [120103]);
  (lit "jmath;", [567]);
  (lit "Jopf;", [120129]);
  (lit "jopf;", [120155]);
  (lit "Jscr;", [119973]);
  (lit "jscr;", [119999]);
  (lit "Jsercy;", [1032]);
  (lit "jsercy;", [1112]);
  (lit "Jukcy;", [1028]);
  (lit "jukcy;", [1108]);
  (lit "Kappa;", [922]);
  (lit "kappa;", [954]);
  (lit "kappav;", [1008]);
  (lit "Kcedil;", [310]);
  (lit "kcedil;", [311]);
  (lit "Kcy;", [1050]);
  (lit "kcy;", [1082]);
  (lit "Kfr;", [120078]);
  (lit "kfr;", [120104]);
  (lit "kgreen;", [312]);
  (lit "KHcy;", [1061]);
  (lit "khcy;", [1093]);
  (lit "KJcy;", [1036]);
  (lit "kjcy;", [1116]);
  (lit "Kopf;", [120130]);
  (lit "kopf;", [120156]);
  (lit "Kscr;", [119974]);
  (lit "kscr;", [120000]);
  (lit "lAarr;", [8666]);
  (lit "Lacute;", [313]);
  (lit "lacute;", [314]);
  (lit "laemptyv;", [10676]);
  (lit "lagran;", [8466]);
  (lit "Lambda;", [923]);
  (lit "lambda;", [955]);
  (lit "Lang;", [10218]);
  (lit "lang;", [10216]);
  (lit "langd;", [10641]);
  (lit "langle;", [10216]);
  (lit "lap;", [10885]);
  (lit "Laplacetrf;", [8466]);
  (lit "laquo", [171]);
  (lit "laquo;", [171]);
  (lit "Larr;", [8606]);
  (lit "lArr;", [8656]);
  (lit "larr;", [8592]);
  (lit "larrb;", [8676]);
  (lit "larrbfs;", [10527]);
  (lit "larrfs;", [10525]);
  (lit "larrhk;", [8617]);
  (lit "larrlp;", [8619]);
  (lit "larrpl;", [10553]);
  (lit "larrsim;", [10611]);
  (lit "larrtl;", [8610]);
  (lit "lat;", [10923]);
  (lit "lAtail;", [10523]);
  (lit "latail;", [10521]);
  (lit "late;", [10925]);
  (lit "lates;", [10925; 65024]);
  (lit "lBarr;", [10510]);
  (lit "lbarr;", [10508]);
  (lit "lbbrk;", [10098]);
  (lit "lbrace;", [123]);
  (lit "lbrack;", [91]);
  (lit "lbrke;", [10635]);
  (lit "lbrksld;", [10639]);
  (lit "lbrkslu;", [10637]);
  (lit "Lcaron;", [317]);
  (lit "lcaron;", [318]);
  (lit "Lcedil;", [315]);
  (lit "lcedil;", [316]);
  (lit "lceil;", [8968]);
  (lit "lcub;", [123]);
  (lit "Lcy;", [1051]);
  (lit "lcy;", [1083]);
  (lit "ldca;", [10550]);
  (lit "ldquo;", [8220]);
  (lit "ldquor;", [8222]);
  (lit "ldrdhar;", [10599]);
  (lit "ldrushar;", [10571]);
  (lit "ldsh;", [8626]);
  (lit "lE;", [8806]);
  (lit "le;", [8804]);
  (lit "LeftAngleBracket;", [10216]);
  (lit "LeftArrow;", [8592]);
  (lit "Leftarrow;", [8656]);
  (lit "leftarrow;", [8592]);
  (lit "LeftArrowBar;", [8676]);
  (lit "LeftArrowRightArrow;", [8646]);
  (lit "leftarrowtail;", [8610]);
  (lit "LeftCeiling;", [8968]);
  (lit "LeftDoubleBracket;", [10214]);
  (lit "LeftDownTeeVector;", [10593]);
  (lit "LeftDownVector;", [8643]);
  (lit "LeftDownVectorBar;", [10585]);
  (lit "LeftFloor;", [8970]);
  (lit "leftharpoondown;", [8637]);
  (lit "leftharpoonup;", [8636]);
  (lit "leftleftarrows;", [8647]);
  (lit "LeftRightArrow;", [8596]);
  (lit "Leftrightarrow;", [8660]);
  (lit "leftrightarrow;", [8596]);
  (lit "leftrightarrows;", [8646]);
  (lit "leftrightharpoons;", [8651]);
  (lit "leftrightsquigarrow;", [8621]);
  (lit "LeftRightVector;", [10574]);
  (lit "LeftTee;", [8867]);
  (lit "LeftTeeArrow;", [8612]);
  (lit "LeftTeeVector;", [10586]);
  (lit "leftthreetimes;", [8907]);
  (lit "LeftTriangle;", [8882]);
  (lit "LeftTriangleBar;", [10703]);
  (lit "LeftTriangleEqual;", [8884]);
  (lit "LeftUpDownVector;", [10577]);
  (lit "LeftUpTeeVector;", [10592]);
  (lit "LeftUpVector;", [8639]);
  (lit "LeftUpVectorBar;", [10584]);
  (lit "LeftVector;", [8636]);
  (lit "LeftVectorBar;", [10578]);
  (lit "lEg;", [10891]);
  (lit "leg;", [8922]);
  (lit "leq;", [8804]);
  (lit "leqq;", [8806]);
  (lit "leqslant;", [10877]);
  (lit "les;", [10877]);
  (lit "lescc;", [10920]);
  (lit "lesdot;", [10879]);
  (lit "lesdoto;", [10881]);
  (lit "lesdotor;", [10883]);
  (lit "lesg;", [8922; 65024]);
  (lit "lesges;", [10899]);
  (lit "lessapprox;", [10885]);
  (lit "lessdot;", [8918]);
  (lit "lesseqgtr;", [8922]);
  (lit "lesseqqgtr;", [10891]);
  (lit "LessEqualGreater;", [8922]);
  (lit "LessFullEqual;", [8806]);
  (lit "LessGreater;", [8822]);
  (lit "lessgtr;", [8822]);
  (lit "LessLess;", [10913]);
  (lit "lesssim;", [8818]);
  (lit "LessSlantEqual;", [10877]);
  (lit "LessTilde;", [8818]);
  (lit "lfisht;", [10620]);
  (lit "lfloor;", [8970]);
  (lit "Lfr;", [120079]);
  (lit "lfr;", [120105]);
  (lit "lg;", [8822]);
  (lit "lgE;", [10897]);
  (lit "lHar;", [10594]);
  (lit "lhard;", [8637]);
  (lit "lharu;", [8636]);
  (lit "lharul;", [10602]);
  (lit "lhblk;", [9604]);
  (lit "LJcy;", [1033]);
  (lit "ljcy;", [1113]);
  (lit "Ll;", [8920]);
  (lit "ll;", [8810]);
  (lit "llarr;", [8647]);
  (lit "llcorner;", [8990]);
  (lit "Lleftarrow;", [8666]);
  (lit "llhard;", [10603]);
  (lit "lltri;", [9722]);
  (lit "Lmidot;", [319]);
  (lit "lmidot;", [320]);
  (lit "lmoust;", [9136]);
  (lit "lmoustache;", [9136]);
  (lit "lnap;", [10889]);
  (lit "lnapprox;", [10889]);
  (lit "lnE;", [8808]);
  (lit "lne;", [10887]);
  (lit "lneq;", [10887]);
  (lit "lneqq;", [8808]);
  (lit "lnsim;", [8934]);
  (lit "loang;", [10220]);
  (lit "loarr;", [8701]);
  (lit "lobrk;", [10214]);
  (lit "LongLeftArrow;", [10229]);
  (lit "Longleftarrow;", [10232]);
  (lit "longleftarrow;", [10229]);
  (lit "LongLeftRightArrow;", [10231]);
  (lit "Longleftrightarrow;", [10234]);
  (lit "longleftrightarrow;", [10231]);
  (lit "longmapsto;", [10236]);
  (lit "LongRightArrow;", [10230]);
  (lit "Longrightarrow;", [10233]);
  (lit "longrightarrow;", [10230]);
  (lit "looparrowleft;", [8619]);
  (lit "looparrowright;", [8620]);
  (lit "lopar;", [10629]);
  (lit "Lopf;", [120131]);
  (lit "lopf;", [120157]);
  (lit "loplus;", [10797]);
  (lit "lotimes;", [10804]);
  (lit "lowast;", [8727]);
  (lit "lowbar;", [95]);
  (lit "LowerLeftArrow;", [8601]);
  (lit "LowerRightArrow;", [8600]);
  (lit "loz;", [9674]);
  (lit "lozenge;", [9674]);
  (lit "lozf;", [10731]);
  (lit "lpar;", [40]);
  (lit "lparlt;", [10643]);
  (lit "lrarr;", [8646]);
  (lit "lrcorner;", [8991]);
  (lit "lrhar;", [8651]);
  (lit "lrhard;", [10605]);
  (lit "lrm;", [8206]);
  (lit "lrtri;", [8895]);
  (lit "lsaquo;", [8249]);
  (lit "Lscr;", [8466]);
  (lit "lscr;", [120001]);
  (lit "Lsh;", [8624]);
  (lit "lsh;", [8624]);
  (lit "lsim;", [8818]);
  (lit "lsime;", [10893]);
  (lit "lsimg;", [10895]);
  (lit "lsqb;", [91]);
  (lit "lsquo;", [8216]);
  (lit "lsquor;", [8218]);
  (lit "Lstrok;", [321]);
  (lit "lstrok;", [322]);
  (lit "LT", [60]);
  (lit "lt", [60]);
  (lit "LT;", [60]);
  (lit "Lt;", [8810]);
  (lit "lt;", [60]);
  (lit "ltcc;", [10918]);
  (lit "ltcir;", [10873]);
  (lit "ltdot;", [8918]);
  (lit "lthree;", [8907]);
  (lit "ltimes;", [8905]);
  (lit "ltlarr;", [10614]);
  (lit "ltquest;", [10875]);
  (lit "ltri;", [9667]);
  (lit "ltrie;", [8884]);
  (lit "ltrif;", [9666]);
  (lit "ltrPar;", [10646]);
  (lit "lurdshar;", [10570]);
  (lit "luruhar;", [10598]);
  (lit "lvertneqq;", [8808; 65024]);
  (lit "lvnE;", [8808; 65024]);
  (lit "macr", [175]);
  (lit "macr;", [175]);
  (lit "male;", [9794]);
  (lit "malt;", [10016]);
  (lit "maltese;", [10016]);
  (lit "Map;", [10501]);
  (lit "map;", [8614]);
  (lit "mapsto;", [8614]);
  (lit "mapstodown;", [8615]);
  (lit "mapstoleft;", [8612]);
  (lit "mapstoup;", [8613]);
  (lit "marker;", [9646]);
  (lit "mcomma;", [10793]);
  (lit "Mcy;", [1052]);
  (lit "mcy;", [1084]);
  (lit "mdash;", [8212]);
  (lit "mDDot;", [8762]);
  (lit "measuredangle;", [8737]);
  (lit "MediumSpace;", [8287]);
  (lit "Mellintrf;", [8499]);
  (lit "Mfr;", [120080]);
  (lit "mfr;", [120106]);
  (lit "mho;", [8487]);
  (lit "micro", [181]);
  (lit "micro;", [181]);
  (lit "mid;", [8739]);
  (lit "midast;", [42]);
  (lit "midcir;", [10992]);
  (lit "middot", [183]);
  (lit "middot;", [183]);
  (lit "minus;", [8722]);
  (lit "minusb;", [8863]);
  (lit "minusd;", [8760]);
  (lit "minusdu;", [10794]);
  (lit "MinusPlus;", [8723]);
  (lit "mlcp;", [10971]);
  (lit "mldr;", [8230]);
  (lit "mnplus;", [8723]);
  (lit "models;", [8871]);
  (lit "Mopf;", [120132]);
  (lit "mopf;", [120158]);
  (lit "mp;", [8723]);
  (lit "Mscr;", [8499]);
  (lit "mscr;", [120002]);
  (lit "mstpos;", [8766]);
  (lit "Mu;", [924]);
  (lit "mu;", [956]);
  (lit "multimap;", [8888]);
  (lit "mumap;", [8888]);
  (lit "nabla;", [8711]);
  (lit "Nacute;", [323]);
  (lit "nacute;", [324]);
  (lit "nang;", [8736; 8402]);
  (lit "nap;", [8777]);
  (lit "napE;", [10864; 824]);
  (lit "napid;", [8779; 824]);
  (lit "napos;", [329]);
  (lit "napprox;", [8777]);
  (lit "natur;", [9838]);
  (lit "natural;", [9838]);
  (lit "naturals;", [8469]);
  (lit "nbsp", [160]);
  (lit "nbsp;", [160]);
  (lit "nbump;", [8782; 824]);
  (lit "nbumpe;", [8783; 824]);
  (lit "ncap;", [10819]);
  (lit "Ncaron;", [327]);
  (lit "ncaron;", [328]);
  (lit "Ncedil;", [325]);
  (lit "ncedil;", [326]);
  (lit "ncong;", [8775]);
  (lit "ncongdot;", [10861; 824]);
  (lit "ncup;", [10818]);
  (lit "Ncy;", [1053]);
  (lit "ncy;", [1085]);
  (lit "ndash;", [8211]);
  (lit "ne;", [8800]);
  (lit "nearhk;", [10532]);
  (lit "neArr;", [8663]);
  (lit "nearr;", [8599]);
  (lit "nearrow;", [8599]);
  (lit "nedot;", [8784; 824]);
  (lit "NegativeMediumSpace;", [8203]);
  (lit "NegativeThickSpace;", [8203]);
  (lit "NegativeThinSpace;", [8203]);
  (lit "NegativeVeryThinSpace;", [8203]);
  (lit "nequiv;", [8802]);
  (lit "nesear;", [10536]);
  (lit "nesim;", [8770; 824]);
  (lit "NestedGreaterGreater;", [8811]);
  (lit "NestedLessLess;", [8810]);
  (lit "NewLine;", [10]);
  (lit "nexist;", [8708]);
  (lit "nexists;", [8708]);
  (lit "Nfr;", [120081]);
  (lit "nfr;", [120107]);
  (lit "ngE;", [8807; 824]);
  (lit "nge;", [8817]);
  (lit "ngeq;", [8817]);
  (lit "ngeqq;", [8807; 824]);
  (lit "ngeqslant;", [10878; 824]);
  (lit "nges;", [10878; 824]);
  (lit "nGg;", [8921; 824]);
  (lit "ngsim;", [8821]);
  (lit "nGt;", [8811; 8402]);
  (lit "ngt;", [8815]);
  (lit "ngtr;", [8815]);
  (lit "nGtv;", [8811; 824]);
  (lit "nhArr;", [8654]);
  (lit "nharr;", [8622]);
  (lit "nhpar;", [10994]);
  (lit "ni;", [8715]);
  (lit "nis;", [8956]);
  (lit "nisd;", [8954]);
  (lit "niv;", [8715]);
  (lit "NJcy;", [1034]);
  (lit "njcy;", [1114]);
  (lit "nlArr;", [8653]);
  (lit "nlarr;", [8602]);
  (lit "nldr;", [8229]);
  (lit "nlE;", [8806; 824]);
  (lit "nle;", [8816]);
  (lit "nLeftarrow;", [8653]);
  (lit "nleftarrow;", [8602]);
  (lit "nLeftrightarrow;", [8654]);
  (lit "nleftrightarrow;", [8622]);
  (lit "nleq;", [8816]);
  (lit "nleqq;", [8806; 824]);
  (lit "nleqslant;", [10877; 824]);
  (lit "nles;", [10877; 824]);
  (lit "nless;", [8814]);
  (lit "nLl;", [8920; 824]);
  (lit "nlsim;", [8820]);
  (lit "nLt;", [8810; 8402]);
  (lit "nlt;", [8814]);
  (lit "nltri;", [8938]);
  (lit "nltrie;", [8940]);
  (lit "nLtv;", [8810; 824]);
  (lit "nmid;", [8740]);
  (lit "NoBreak;", [8288]);
  (lit "NonBreakingSpace;", [160]);
  (lit "Nopf;", [8469]);
  (lit "nopf;", [120159]);
  (lit "not", [172]);
  (lit "Not;", [10988]);
  (lit "not;", [172]);
  (lit "NotCongruent;", [8802]);
  (lit "NotCupCap;", [8813]);
  (lit "NotDoubleVerticalBar;", [8742]);
  (lit "NotElement;", [8713]);
  (lit "NotEqual;", [8800]);
  (lit "NotEqualTilde;", [8770; 824]);
  (lit "NotExists;", [8708]);
  (lit "NotGreater;", [8815]);
  (lit "NotGreaterEqual;", [8817]);
  (lit "NotGreaterFullEqual;", [8807; 824]);
  (lit "NotGreaterGreater;", [8811; 824]);
  (lit "NotGreaterLess;", [8825]);
  (lit "NotGreaterSlantEqual;", [10878; 824]);
  (lit "NotGreaterTilde;", [8821]);
  (lit "NotHumpDownHump;", [8782; 824]);
  (lit "NotHumpEqual;", [8783; 824]);
  (lit "notin;", [8713]);
  (lit "notindot;", [8949; 824]);
  (lit "notinE;", [8953; 824]);
  (lit "notinva;", [8713]);
  (lit "notinvb;", [8951]);
  (lit "notinvc;", [8950]);
  (lit "NotLeftTriangle;", [8938]);
  (lit "NotLeftTriangleBar;", [10703; 824]);
  (lit "NotLeftTriangleEqual;", [8940]);
  (lit "NotLess;", [8814]);
  (lit "NotLessEqual;", [8816]);
  (lit "NotLessGreater;", [8824]);
  (lit "NotLessLess;", [8810; 824]);
  (lit "NotLessSlantEqual;", [10877; 824]);
  (lit "NotLessTilde;", [8820]);
  (lit "NotNestedGreaterGreater;", [10914; 824]);
  (lit "NotNestedLessLess;", [10913; 824]);
  (lit "notni;", [8716]);
  (lit "notniva;", [8716]);
  (lit "notnivb;", [8958]);
  (lit "notnivc;", [8957]);
  (lit "NotPrecedes;", [8832]);
  (lit "NotPrecedesEqual;", [10927; 824]);
  (lit "NotPrecedesSlantEqual;", [8928]);
  (lit "NotReverseElement;", [8716]);
  (lit "NotRightTriangle;", [8939]);
  (lit "NotRightTriangleBar;", [10704; 824]);
  (lit "NotRightTriangleEqual;", [8941]);
  (lit "NotSquareSubset;", [8847; 824]);
  (lit "NotSquareSubsetEqual;", [8930]);
  (lit "NotSquareSuperset;", [8848; 824]);
  (lit "NotSquareSupersetEqual;", [8931]);
  (lit "NotSubset;", [8834; 8402]);
  (lit "NotSubsetEqual;", [8840]);
  (lit "NotSucceeds;", [8833]);
  (lit "NotSucceedsEqual;", [10928; 824]);
  (lit "NotSucceedsSlantEqual;", [8929]);
  (lit "NotSucceedsTilde;", [8831; 824]);
  (lit "NotSuperset;", [8835; 8402]);
  (lit "NotSupersetEqual;", [8841]);
  (lit "NotTilde;", [8769]);
  (lit "NotTildeEqual;", [8772]);
  (lit "NotTildeFullEqual;", [8775]);
  (lit "NotTildeTilde;", [8777]);
  (lit "NotVerticalBar;", [8740]);
  (lit "npar;", [8742]);
  (lit "nparallel;", [8742]);
  (lit "nparsl;", [11005; 8421]);
  (lit "npart;", [8706; 824]);
  (lit "npolint;", [10772]);
  (lit "npr;", [8832]);
  (lit "nprcue;", [8928]);
  (lit "npre;", [10927; 824]);
  (lit "nprec;", [8832]);
  (lit "npreceq;", [10927; 824]);
  (lit "nrArr;", [8655]);
  (lit "nrarr;", [8603]);
  (lit "nrarrc;", [10547; 824]);
  (lit "nrarrw;", [8605; 824]);
  (lit "nRightarrow;", [8655]);
  (lit "nrightarrow;", [8603]);
  (lit "nrtri;", [8939]);
  (lit "nrtrie;", [8941]);
  (lit "nsc;", [8833]);
  (lit "nsccue;", [8929]);
  (lit "nsce;", [10928; 824]);
  (lit "Nscr;", [119977]);
  (lit "nscr;", [120003]);
  (lit "nshortmid;", [8740]);
  (lit "nshortparallel;", [8742]);
  (lit "nsim;", [8769]);
  (lit "nsime;", [8772]);
  (lit "nsimeq;", [8772]);
  (lit "nsmid;", [8740]);
  (lit "nspar;", [8742]);
  (lit "nsqsube;", [8930]);
  (lit "nsqsupe;", [8931]);
  (lit "nsub;", [8836]);
  (lit "nsubE;", [10949; 824]);
  (lit "nsube;", [8840]);
  (lit "nsubset;", [8834; 8402]);
  (lit "nsubseteq;", [8840]);
  (lit "nsubseteqq;", [10949; 824]);
  (lit "nsucc;", [8833]);
  (lit "nsucceq;", [10928; 824]);
  (lit "nsup;", [8837]);
  (lit "nsupE;", [10950; 824]);
  (lit "nsupe;", [8841]);
  (lit "nsupset;", [8835; 8402]);
  (lit "nsupseteq;", [8841]);
  (lit "nsupseteqq;", [10950; 824]);
  (lit "ntgl;", [8825]);
  (lit "Ntilde", [209]);
  (lit "ntilde", [241]);
  (lit "Ntilde;", [209]);
  (lit "ntilde;", [241]);
  (lit "ntlg;", [8824]);
  (lit "ntriangleleft;", [8938]);
  (lit "ntrianglelefteq;", [8940]);
  (lit "ntriangleright;", [8939]);
  (lit "ntrianglerighteq;", [8941]);
  (lit "Nu;", [925]);
  (lit "nu;", [957]);
  (lit "num;", [35]);
  (lit "numero;", [8470]);
  (lit "numsp;", [8199]);
  (lit "nvap;", [8781; 8402]);
  (lit "nVDash;", [8879]);
  (lit "nVdash;", [8878]);
  (lit "nvDash;", [8877]);
  (lit "nvdash;", [8876]);
  (lit "nvge;", [8805; 8402]);
  (lit "nvgt;", [62; 8402]);
  (lit "nvHarr;", [10500]);
  (lit "nvinfin;", [10718]);
  (lit "nvlArr;", [10498]);
  (lit "nvle;", [8804; 8402]);
  (lit "nvlt;", [60; 8402]);
  (lit "nvltrie;", [8884; 8402]);
  (lit "nvrArr;", [10499]);
  (lit "nvrtrie;", [8885; 8402]);
  (lit "nvsim;", [8764; 8402]);
  (lit "nwarhk;", [10531]);
  (lit "nwArr;", [8662]);
  (lit "nwarr;", [8598]);
  (lit "nwarrow;", [8598]);
  (lit "nwnear;", [10535]);
  (lit "Oacute", [211]);
  (lit "oacute", [243]);
  (lit "Oacute;", [211]);
  (lit "oacute;", [243]);
  (lit "oast;", [8859]);
  (lit "ocir;", [8858]);
  (lit "Ocirc", [212]);
  (lit "ocirc", [244]);
  (lit "Ocirc;", [212]);
  (lit "ocirc;", [244]);
  (lit "Ocy;", [1054]);
  (lit "ocy;", [1086]);
  (lit "odash;", [8861]);
  (lit "Odblac;", [336]);
  (lit "odblac;", [337]);
  (lit "odiv;", [10808]);
  (lit "odot;", [8857]);
  (lit "odsold;", [10684]);
  (lit "OElig;", [338]);
  (lit "oelig;", [339]);
  (lit "ofcir;", [10687]);
  (lit "Ofr;", [120082]);
  (lit "ofr;", [120108]);
  (lit "ogon;", [731]);
  (lit "Ograve", [210]);
  (lit "ograve", [242]);
  (lit "Ograve;", [210]);
  (lit "ograve;", [242]);
  (lit "ogt;", [10689]);
  (lit "ohbar;", [10677]);
  (lit "ohm;", [937]);
  (lit "oint;", [8750]);
  (lit "olarr;", [8634]);
  (lit "olcir;", [10686]);
  (lit "olcross;", [10683]);
  (lit "oline;", [8254]);
  (lit "olt;", [10688]);
  (lit "Omacr;", [332]);
  (lit "omacr;", [333]);
  (lit "Omega;", [937]);
  (lit "omega;", [969]);
  (lit "Omicron;", [927]);
  (lit "omicron;", [959]);
  (lit "omid;", [10678]);
  (lit "ominus;", [8854]);
  (lit "Oopf;", [120134]);
  (lit "oopf;", [120160]);
  (lit "opar;", [10679]);
  (lit "OpenCurlyDoubleQuote;", [8220]);
  (lit "OpenCurlyQuote;", [8216]);
  (lit "operp;", [10681]);
  (lit "oplus;", [8853]);
  (lit "Or;", [10836]);
  (lit "or;", [8744]);
  (lit "orarr;", [8635]);
  (lit "ord;", [10845]);
  (lit "order;", [8500]);
  (lit "orderof;", [8500]);
  (lit "ordf", [170]);
  (lit "ordf;", [170]);
  (lit "ordm", [186]);
  (lit "ordm;", [186]);
  (lit "origof;", [8886]);
  (lit "oror;", [10838]);
  (lit "orslope;", [10839]);
  (lit "orv;", [10843]);
  (lit "oS;", [9416]);
  (lit "Oscr;", [119978]);
  (lit "oscr;", [8500]);
  (lit "Oslash", [216]);
  (lit "oslash", [248]);
  (lit "Oslash;", [216]);
  (lit "oslash;", [248]);
  (lit "osol;", [8856]);
  (lit "Otilde", [213]);
  (lit "otilde", [245]);
  (lit "Otilde;", [213]);
  (lit "otilde;", [245]);
  (lit "Otimes;", [10807]);
  (lit "otimes;", [8855]);
  (lit "otimesas;", [10806]);
  (lit "Ouml", [214]);
  (lit "ouml", [246]);
  (lit "Ouml;", [214]);
  (lit "ouml;", [246]);
  (lit "ovbar;", [9021]);
  (lit "OverBar;", [8254]);
  (lit "OverBrace;", [9182]);
  (lit "OverBracket;", [9140]);
  (lit "OverParenthesis;", [9180]);
  (lit "par;", [8741]);
  (lit "para", [182]);
  (lit "para;", [182]);
  (lit "parallel;", [8741]);
  (lit "parsim;", [10995]);
  (lit "parsl;", [11005]);
  (lit "part;", [8706]);
  (lit "PartialD;", [8706]);
  (lit "Pcy;", [1055]);
  (lit "pcy;", [1087]);
  (lit "percnt;", [37]);
  (lit "period;", [46]);
  (lit "permil;", [8240]);
  (lit "perp;", [8869]);
  (lit "pertenk;", [8241]);
  (lit "Pfr;", [120083]);
  (lit "pfr;", [120109]);
  (lit "Phi;", [934]);
  (lit "phi;", [966]);
  (lit "phiv;", [981]);
  (lit "phmmat;", [8499]);
  (lit "phone;", [9742]);
  (lit "Pi;", [928]);
  (lit "pi;", [960]);
  (lit "pitchfork;", [8916]);
  (lit "piv;", [982]);
  (lit "planck;", [8463]);
  (lit "planckh;", [8462]);
  (lit "plankv;", [8463]);
  (lit "plus;", [43]);
  (lit "plusacir;", [10787]);
  (lit "plusb;", [8862]);
  (lit "pluscir;", [10786]);
  (lit "plusdo;", [8724]);
  (lit "plusdu;", [10789]);
  (lit "pluse;", [10866]);
  (lit "PlusMinus;", [177]);
  (lit "plusmn", [177]);
  (lit "plusmn;", [177]);
  (lit "plussim;", [10790]);
  (lit "plustwo;", [10791]);
  (lit "pm;", [177]);
  (lit "Poincareplane;", [8460]);
  (lit "pointint;", [10773]);
  (lit "Popf;", [8473]);
  (lit "popf;", [120161]);
  (lit "pound", [163]);
  (lit "pound;", [163]);
  (lit "Pr;", [10939]);
  (lit "pr;", [8826]);
  (lit "prap;", [10935]);
  (lit "prcue;", [8828]);
  (lit "prE;", [10931]);
  (lit "pre;", [10927]);
  (lit "prec;", [8826]);
  (lit "precapprox;", [10935]);
  (lit "preccurlyeq;", [8828]);
  (lit "Precedes;", [8826]);
  (lit "PrecedesEqual;", [10927]);
  (lit "PrecedesSlantEqual;", [8828]);
  (lit "PrecedesTilde;", [8830]);
  (lit "preceq;", [10927]);
  (lit "precnapprox;", [10937]);
  (lit "precneqq;", [10933]);
  (lit "precnsim;", [8936]);
  (lit "precsim;", [8830]);
  (lit "Prime;", [8243]);
  (lit "prime;", [8242]);
  (lit "primes;", [8473]);
  (lit "prnap;", [10937]);
  (lit "prnE;", [10933]);
  (lit "prnsim;", [8936]);
  (lit "prod;", [8719]);
  (lit "Product;", [8719]);
  (lit "profalar;", [9006]);
  (lit "profline;", [8978]);
  (lit "profsurf;", [8979]);
  (lit "prop;", [8733]);
  (lit "Proportion;", [8759]);
  (lit "Proportional;", [8733]);
  (lit "propto;", [8733]);
  (lit "prsim;", [8830]);
  (lit "prurel;", [8880]);
  (lit "Pscr;", [119979]);
  (lit "pscr;", [120005]);
  (lit "Psi;", [936]);
  (lit "psi;", [968]);
  (lit "puncsp;", [8200]);
  (lit "Qfr;", [120084]);
  (lit "qfr;", [120110]);
  (lit "qint;", [10764]);
  (lit "Qopf;", [8474]);
  (lit "qopf;", [120162]);
  (lit "qprime;", [8279]);
  (lit "Qscr;", [119980]);
  (lit "qscr;", [120006]);
  (lit "quaternions;", [8461]);
  (lit "quatint;", [10774]);
  (lit "quest;", [63]);
  (lit "questeq;", [8799]);
  (lit "QUOT", [34]);
  (lit "quot", [34]);
  (lit "QUOT;", [34]);
  (lit "quot;", [34]);
  (lit "rAarr;", [8667]);
  (lit "race;", [8765; 817]);
  (lit "Racute;", [340]);
  (lit "racute;", [341]);
  (lit "radic;", [8730]);
  (lit "raemptyv;", [10675]);
  (lit "Rang;", [10219]);
  (lit "rang;", [10217]);
  (lit "rangd;", [10642]);
  (lit "range;", [10661]);
  (lit "rangle;", [10217]);
  (lit "raquo", [187]);
  (lit "raquo;", [187]);
  (lit "Rarr;", [8608]);
  (lit "rArr;", [8658]);
  (lit "rarr;", [8594]);
  (lit "rarrap;", [10613]);
  (lit "rarrb;", [8677]);
  (lit "rarrbfs;", [10528]);
  (lit "rarrc;", [10547]);
  (lit "rarrfs;", [10526]);
  (lit "rarrhk;", [8618]);
  (lit "rarrlp;", [8620]);
  (lit "rarrpl;", [10565]);
  (lit "rarrsim;", [10612]);
  (lit "Rarrtl;", [10518]);
  (lit "rarrtl;", [8611]);
  (lit "rarrw;", [8605]);
  (lit "rAtail;", [10524]);
  (lit "ratail;", [10522]);
  (lit "ratio;", [8758]);
  (lit "rationals;", [8474]);
  (lit "RBarr;", [10512]);
  (lit "rBarr;", [10511]);
  (lit "rbarr;", [10509]);
  (lit "rbbrk;", [10099]);
  (lit "rbrace;", [125]);
  (lit "rbrack;", [93]);
  (lit "rbrke;", [10636]);
  (lit "rbrksld;", [10638]);
  (lit "rbrkslu;", [10640]);
  (lit "Rcaron;", [344]);
  (lit "rcaron;", [345]);
  (lit "Rcedil;", [342]);
  (lit "rcedil;", [343]);
  (lit "rceil;", [8969]);
  (lit "rcub;", [125]);
  (lit "Rcy;", [1056]);
  (lit "rcy;", [1088]);
  (lit "rdca;", [10551]);
  (lit "rdldhar;", [10601]);
  (lit "rdquo;", [8221]);
  (lit "rdquor;", [8221]);
  (lit "rdsh;", [8627]);
  (lit "Re;", [8476]);
  (lit "real;", [8476]);
  (lit "realine;", [8475]);
  (lit "realpart;", [8476]);
  (lit "reals;", [8477]);
  (lit "rect;", [9645]);
  (lit "REG", [174]);
  (lit "reg", [174]);
  (lit "REG;", [174]);
  (lit "reg;", [174]);
  (lit "ReverseElement;", [8715]);
  (lit "ReverseEquilibrium;", [8651]);
  (lit "ReverseUpEquilibrium;", [10607]);
  (lit "rfisht;", [10621]);
  (lit "rfloor;", [8971]);
  (lit "Rfr;", [8476]);
  (lit "rfr;", [120111]);
  (lit "rHar;", [10596]);
  (lit "rhard;", [8641]);
  (lit "rharu;", [8640]);
  (lit "rharul;", [10604]);
  (lit "Rho;", [929]);
  (lit "rho;", [961]);
  (lit "rhov;", [1009]);
  (lit "RightAngleBracket;", [10217]);
  (lit "RightArrow;", [8594]);
  (lit "Rightarrow;", [8658]);
  (lit "rightarrow;", [8594]);
  (lit "RightArrowBar;", [8677]);
  (lit "RightArrowLeftArrow;", [8644]);
  (lit "rightarrowtail;", [8611]);
  (lit "RightCeiling;", [8969]);
  (lit "RightDoubleBracket;", [10215]);
  (lit "RightDownTeeVector;", [10589]);
  (lit "RightDownVector;", [8642]);
  (lit "RightDownVectorBar;", [10581]);
  (lit "RightFloor;", [8971]);
  (lit "rightharpoondown;", [8641]);
  (lit "rightharpoonup;", [8640]);
  (lit "rightleftarrows;", [8644]);
  (lit "rightleftharpoons;", [8652]);
  (lit "rightrightarrows;", [8649]);
  (lit "rightsquigarrow;", [8605]);
  (lit "RightTee;", [8866]);
  (lit "RightTeeArrow;", [8614]);
  (lit "RightTeeVector;", [10587]);
  (lit "rightthreetimes;", [8908]);
  (lit "RightTriangle;", [8883]);
  (lit "RightTriangleBar;", [10704]);
  (lit "RightTriangleEqual;", [8885]);
  (lit "RightUpDownVector;", [10575]);
  (lit "RightUpTeeVector;", [10588]);
  (lit "RightUpVector;", [8638]);
  (lit "RightUpVectorBar;", [10580]);
  (lit "RightVector;", [8640]);
  (lit "RightVectorBar;", [10579]);
  (lit "ring;", [730]);
  (lit "risingdotseq;", [8787]);
  (lit "rlarr;", [8644]);
  (lit "rlhar;", [8652]);
  (lit "rlm;", [8207]);
  (lit "rmoust;", [9137]);
  (lit "rmoustache;", [9137]);
  (lit "rnmid;", [10990]);
  (lit "roang;", [10221]);
  (lit "roarr;", [8702]);
  (lit "robrk;", [10215]);
  (lit "ropar;", [10630]);
  (lit "Ropf;", [8477]);
  (lit "ropf;", [120163]);
  (lit "roplus;", [10798]);
  (lit "rotimes;", [10805]);
  (lit "RoundImplies;", [10608]);
  (lit "rpar;", [41]);
  (lit "rpargt;", [10644]);
  (lit "rppolint;", [10770]);
  (lit "rrarr;", [8649]);
  (lit "Rrightarrow;", [8667]);
  (lit "rsaquo;", [8250]);
  (lit "Rscr;", [8475]);
  (lit "rscr;", [120007]);
  (lit "Rsh;", [8625]);
  (lit "rsh;", [8625]);
  (lit "rsqb;", [93]);
  (lit "rsquo;", [8217]);
  (lit "rsquor;", [8217]);
  (lit "rthree;", [8908]);
  (lit "rtimes;", [8906]);
  (lit "rtri;", [9657]);
  (lit "rtrie;", [8885]);
  (lit "rtrif;", [9656]);
  (lit "rtriltri;", [10702]);
  (lit "RuleDelayed;", [10740]);
  (lit "ruluhar;", [10600]);
  (lit "rx;", [8478]);
  (lit "Sacute;", [346]);
  (lit "sacute;", [347]);
  (lit "sbquo;", [8218]);
  (lit "Sc;", [10940]);
  (lit "sc;", [8827]);
  (lit "scap;", [10936]);
  (lit "Scaron;", [352]);
  (lit "scaron;", [353]);
  (lit "sccue;", [8829]);
  (lit "scE;", [10932]);
  (lit "sce;", [10928]);
  (lit "Scedil;", [350]);
  (lit "scedil;", [351]);
  (lit "Scirc;", [348]);
  (lit "scirc;", [349]);
  (lit "scnap;", [10938]);
  (lit "scnE;", [10934]);
  (lit "scnsim;", [8937]);
  (lit "scpolint;", [10771]);
  (lit "scsim;", [8831]);
  (lit "Scy;", [1057]);
  (lit "scy;", [1089]);
  (lit "sdot;", [8901]);
  (lit "sdotb;", [8865]);
  (lit "sdote;", [10854]);
  (lit "searhk;", [10533]);
  (lit "seArr;", [8664]);
  (lit "searr;", [8600]);
  (lit "searrow;", [8600]);
  (lit "sect", [167]);
  (lit "sect;", [167]);
  (lit "semi;", [59]);
  (lit "seswar;", [10537]);
  (lit "setminus;", [8726]);
  (lit "setmn;", [8726]);
  (lit "sext;", [10038]);
  (lit "Sfr;", [120086]);
  (lit "sfr;", [120112]);
  (lit "sfrown;", [8994]);
  (lit "sharp;", [9839]);
  (lit "SHCHcy;", [1065]);
  (lit "shchcy;", [1097]);
  (lit "SHcy;", [1064]);
  (lit "shcy;", [1096]);
  (lit "ShortDownArrow;", [8595]);
  (lit "ShortLeftArrow;", [8592]);
  (lit "shortmid;", [8739]);
  (lit "shortparallel;", [8741]);
  (lit "ShortRightArrow;", [8594]);
  (lit "ShortUpArrow;", [8593]);
  (lit "shy", [173]);
  (lit "shy;", [173]);
  (lit "Sigma;", [931]);
  (lit "sigma;", [963]);
  (lit "sigmaf;", [962]);
  (lit "sigmav;", [962]);
  (lit "sim;", [8764]);
  (lit "simdot;", [10858]);
  (lit "sime;", [8771]);
  (lit "simeq;", [8771]);
  (lit "simg;", [10910]);
  (lit "simgE;", [10912]);
  (lit "siml;", [10909]);
  (lit "simlE;", [10911]);
  (lit "simne;", [8774]);
  (lit "simplus;", [10788]);
  (lit "simrarr;", [10610]);
  (lit "slarr;", [8592]);
  (lit "SmallCircle;", [8728]);
  (lit "smallsetminus;", [8726]);
  (lit "smashp;", [10803]);
  (lit "smeparsl;", [10724]);
  (lit "smid;", [8739]);
  (lit "smile;", [8995]);
  (lit "smt;", [10922]);
  (lit "smte;", [10924]);
  (lit "smtes;", [10924; 65024]);
  (lit "SOFTcy;", [1068]);
  (lit "softcy;", [1100]);
  (lit "sol;", [47]);
  (lit "solb;", [10692]);
  (lit "solbar;", [9023]);
  (lit "Sopf;", [120138]);
  (lit "sopf;", [120164]);
  (lit "spades;", [9824]);
  (lit "spadesuit;", [9824]);
  (lit "spar;", [8741]);
  (lit "sqcap;", [8851]);
  (lit "sqcaps;", [8851; 65024]);
  (lit "sqcup;", [8852]);
  (lit "sqcups;", [8852; 65024]);
  (lit "Sqrt;", [8730]);
  (lit "sqsub;", [8847]);
  (lit "sqsube;", [8849]);
  (lit "sqsubset;", [8847]);
  (lit "sqsubseteq;", [8849]);
  (lit "sqsup;", [8848]);
  (lit "sqsupe;", [8850]);
  (lit "sqsupset;", [8848]);
  (lit "sqsupseteq;", [8850]);
  (lit "squ;", [9633]);
  (lit "Square;", [9633]);
  (lit "square;", [9633]);
  (lit "SquareIntersection;", [8851]);
  (lit "SquareSubset;", [8847]);
  (lit "SquareSubsetEqual;", [8849]);
  (lit "SquareSuperset;", [8848]);
  (lit "SquareSupersetEqual;", [8850]);
  (lit "SquareUnion;", [8852]);
  (lit "squarf;", [9642]);
  (lit "squf;", [9642]);
  (lit "srarr;", [8594]);
  (lit "Sscr;", [119982]);
  (lit "sscr;", [120008]);
  (lit "ssetmn;", [8726]);
  (lit "ssmile;", [8995]);
  (lit "sstarf;", [8902]);
  (lit "Star;", [8902]);
  (lit "star;", [9734]);
  (lit "starf;", [9733]);
  (lit "straightepsilon;", [1013]);
  (lit "straightphi;", [981]);
  (lit "strns;", [175]);
  (lit "Sub;", [8912]);
  (lit "sub;", [8834]);
  (lit "subdot;", [10941]);
  (lit "subE;", [10949]);
  (lit "sube;", [8838]);
  (lit "subedot;", [10947]);
  (lit "submult;", [10945]);
  (lit "subnE;", [10955]);
  (lit "subne;", [8842]);
  (lit "subplus;", [10943]);
  (lit "subrarr;", [10617]);
  (lit "Subset;", [8912]);
  (lit "subset;", [8834]);
  (lit "subseteq;", [8838]);
  (lit "subseteqq;", [10949]);
  (lit "SubsetEqual;", [8838]);
  (lit "subsetneq;", [8842]);
  (lit "subsetneqq;", [10955]);
  (lit "subsim;", [10951]);
  (lit "subsub;", [10965]);
  (lit "subsup;", [10963]);
  (lit "succ;", [8827]);
  (lit "succapprox;", [10936]);
  (lit "succcurlyeq;", [8829]);
  (lit "Succeeds;", [8827]);
  (lit "SucceedsEqual;", [10928]);
  (lit "SucceedsSlantEqual;", [8829]);
  (lit "SucceedsTilde;", [8831]);
  (lit "succeq;", [10928]);
  (lit "succnapprox;", [10938]);
  (lit "succneqq;", [10934]);
  (lit "succnsim;", [8937]);
  (lit "succsim;", [8831]);
  (lit "SuchThat;", [8715]);
  (lit "Sum;", [8721]);
  (lit "sum;", [8721]);
  (lit "sung;", [9834]);
  (lit "sup1", [185]);
  (lit "sup1;", [185]);
  (lit "sup2", [178]);
  (lit "sup2;", [178]);
  (lit "sup3", [179]);
  (lit "sup3;", [179]);
  (lit "Sup;", [8913]);
  (lit "sup;", [8835]);
  (lit "supdot;", [10942]);
  (lit "supdsub;", [10968]);
  (lit "supE;", [10950]);
  (lit "supe;", [8839]);
  (lit "supedot;", [10948]);
  (lit "Superset;", [8835]);
  (lit "SupersetEqual;", [8839]);
  (lit "suphsol;", [10185]);
  (lit "suphsub;", [10967]);
  (lit "suplarr;", [10619]);
  (lit "supmult;", [10946]);
  (lit "supnE;", [10956]);
  (lit "supne;", [8843]);
  (lit "supplus;", [10944]);
  (lit "Supset;", [8913]);
  (lit "supset;", [8835]);
  (lit "supseteq;", [8839]);
  (lit "supseteqq;", [10950]);
  (lit "supsetneq;", [8843]);
  (lit "supsetneqq;", [10956]);
  (lit "supsim;", [10952]);
  (lit "supsub;", [10964]);
  (lit "supsup;", [10966]);
  (lit "swarhk;", [10534]);
  (lit "swArr;", [8665]);
  (lit "swarr;", [8601]);
  (lit "swarrow;", [8601]);
  (lit "swnwar;", [10538]);
  (lit "szlig", [223]);
  (lit "szlig;", [223]);
  (lit "Tab;", [9]);
  (lit "target;", [8982]);
  (lit "Tau;", [932]);
  (lit "tau;", [964]);
  (lit "tbrk;", [9140]);
  (lit "Tcaron;", [356]);
  (lit "tcaron;", [357]);
  (lit "Tcedil;", [354]);
  (lit "tcedil;", [355]);
  (lit "Tcy;", [1058]);
  (lit "tcy;", [1090]);
  (lit "tdot;", [8411]);
  (lit "telrec;", [8981]);
  (lit "Tfr;", [120087]);
  (lit "tfr;", [120113]);
  (lit "there4;", [8756]);
  (lit "Therefore;", [8756]);
  (lit "therefore;", [8756]);
  (lit "Theta;", [920]);
  (lit "theta;", [952]);
  (lit "thetasym;", [977]);
  (lit "thetav;", [977]);
  (lit "thickapprox;", [8776]);
  (lit "thicksim;", [8764]);
  (lit "ThickSpace;", [8287; 8202]);
  (lit "thinsp;", [8201]);
  (lit "ThinSpace;", [8201]);
  (lit "thkap;", [8776]);
  (lit "thksim;", [8764]);
  (lit "THORN", [222]);
  (lit "thorn", [254]);
  (lit "THORN;", [222]);
  (lit "thorn;", [254]);
  (lit "Tilde;", [8764]);
  (lit "tilde;", [732]);
  (lit "TildeEqual;", [8771]);
  (lit "TildeFullEqual;", [8773]);
  (lit "TildeTilde;", [8776]);
  (lit "times", [215]);
  (lit "times;", [215]);
  (lit "timesb;", [8864]);
  (lit "timesbar;", [10801]);
  (lit "timesd;", [10800]);
  (lit "tint;", [8749]);
  (lit "toea;", [10536]);
  (lit "top;", [8868]);
  (lit "topbot;", [9014]);
  (lit "topcir;", [10993]);
  (lit "Topf;", [120139]);
  (lit "topf;", [120165]);
  (lit "topfork;", [10970]);
  (lit "tosa;", [10537]);
  (lit "tprime;", [8244]);
  (lit "TRADE;", [8482]);
  (lit "trade;", [8482]);
  (lit "triangle;", [9653]);
  (lit "triangledown;", [9663]);
  (lit "triangleleft;", [9667]);
  (lit "trianglelefteq;", [8884]);
  (lit "triangleq;", [8796]);
  (lit "triangleright;", [9657]);
  (lit "trianglerighteq;", [8885]);
  (lit "tridot;", [9708]);
  (lit "trie;", [8796]);
  (lit "triminus;", [10810]);
  (lit "TripleDot;", [8411]);
  (lit "triplus;", [10809]);
  (lit "trisb;", [10701]);
  (lit "tritime;", [10811]);
  (lit "trpezium;", [9186]);
  (lit "Tscr;", [119983]);
  (lit "tscr;", [120009]);
  (lit "TScy;", [1062]);
  (lit "tscy;", [1094]);
  (lit "TSHcy;", [1035]);
  (lit "tshcy;", [1115]);
  (lit "Tstrok;", [358]);
  (lit "tstrok;", [359]);
  (lit "twixt;", [8812]);
  (lit "twoheadleftarrow;", [8606]);
  (lit "twoheadrightarrow;", [8608]);
  (lit "Uacute", [218]);
  (lit "uacute", [250]);
  (lit "Uacute;", [218]);
  (lit "uacute;", [250]);
  (lit "Uarr;", [8607]);
  (lit "uArr;", [8657]);
  (lit "uarr;", [8593]);
  (lit "Uarrocir;", [10569]);
  (lit "Ubrcy;", [1038]);
  (lit "ubrcy;", [1118]);
  (lit "Ubreve;", [364]);
  (lit "ubreve;", [365]);
  (lit "Ucirc", [219]);
  (lit "ucirc", [251]);
  (lit "Ucirc;", [219]);
  (lit "ucirc;", [251]);
  (lit "Ucy;", [1059]);
  (lit "ucy;", [1091]);
  (lit "udarr;", [8645]);
  (lit "Udblac;", [368]);
  (lit "udblac;", [369]);
  (lit "udhar;", [10606]);
  (lit "ufisht;", [10622]);
  (lit "Ufr;", [120088]);
  (lit "ufr;", [120114]);
  (lit "Ugrave", [217]);
  (lit "ugrave", [249]);
  (lit "Ugrave;", [217]);
  (lit "ugrave;", [249]);
  (lit "uHar;", [10595]);
  (lit "uharl;", [8639]);
  (lit "uharr;", [8638]);
  (lit "uhblk;", [9600]);
  (lit "ulcorn;", [8988]);
  (lit "ulcorner;", [8988]);
  (lit "ulcrop;", [8975]);
  (lit "ultri;", [9720]);
  (lit "Umacr;", [362]);
  (lit "umacr;", [363]);
  (lit "uml", [168]);
  (lit "uml;", [168]);
  (lit "UnderBar;", [95]);
  (lit "UnderBrace;", [9183]);
  (lit "UnderBracket;", [9141]);
  (lit "UnderParenthesis;", [9181]);
  (lit "Union;", [8899]);
  (lit "UnionPlus;", [8846]);
  (lit "Uogon;", [370]);
  (lit "uogon;", [371]);
  (lit "Uopf;", [120140]);
  (lit "uopf;", [120166]);
  (lit "UpArrow;", [8593]);
  (lit "Uparrow;", [8657]);
  (lit "uparrow;", [8593]);
  (lit "UpArrowBar;", [10514]);
  (lit "UpArrowDownArrow;", [8645]);
  (lit "UpDownArrow;", [8597]);
  (lit "Updownarrow;", [8661]);
  (lit "updownarrow;", [8597]);
  (lit "UpEquilibrium;", [10606]);
  (lit "upharpoonleft;", [8639]);
  (lit "upharpoonright;", [8638]);
  (lit "uplus;", [8846]);
  (lit "UpperLeftArrow;", [8598]);
  (lit "UpperRightArrow;", [8599]);
  (lit "Upsi;", [978]);
  (lit "upsi;", [965]);
  (lit "upsih;", [978]);
  (lit "Upsilon;", [933]);
  (lit "upsilon;", [965]);
  (lit "UpTee;", [8869]);
  (lit "UpTeeArrow;", [8613]);
  (lit "upuparrows;", [8648]);
  (lit "urcorn;", [8989]);
  (lit "urcorner;", [8989]);
  (lit "urcrop;", [8974]);
  (lit "Uring;", [366]);
  (lit "uring;", [367]);
  (lit "urtri;", [9721]);
  (lit "Uscr;", [119984]);
  (lit "uscr;", [120010]);
  (lit "utdot;", [8944]);
  (lit "Utilde;", [360]);
  (lit "utilde;", [361]);
  (lit "utri;", [9653]);
  (lit "utrif;", [9652]);
  (lit "uuarr;", [8648]);
  (lit "Uuml", [220]);
  (lit "uuml", [252]);
  (lit "Uuml;", [220]);
  (lit "uuml;", [252]);
  (lit "uwangle;", [10663]);
  (lit "vangrt;", [10652]);
  (lit "varepsilon;", [1013]);
  (lit "varkappa;", [1008]);
  (lit "varnothing;", [8709]);
  (lit "varphi;", [981]);
  (lit "varpi;", [982]);
  (lit "varpropto;", [8733]);
  (lit "vArr;", [8661]);
  (lit "varr;", [8597]);
  (lit "varrho;", [1009]);
  (lit "varsigma;", [962]);
  (lit "varsubsetneq;", [8842; 65024]);
  (lit "varsubsetneqq;", [10955; 65024]);
  (lit "varsupsetneq;", [8843; 65024]);
  (lit "varsupsetneqq;", [10956; 65024]);
  (lit "vartheta;", [977]);
  (lit "vartriangleleft;", [8882]);
  (lit "vartriangleright;", [8883]);
  (lit "Vbar;", [10987]);
  (lit "vBar;", [10984]);
  (lit "vBarv;", [10985]);
  (lit "Vcy;", [1042]);
  (lit "vcy;", [1074]);
  (lit "VDash;", [8875]);
  (lit "Vdash;", [8873]);
  (lit "vDash;", [8872]);
  (lit "vdash;", [8866]);
  (lit "Vdashl;", [10982]);
  (lit "Vee;", [8897]);
  (lit "vee;", [8744]);
  (lit "veebar;", [8891]);
  (lit "veeeq;", [8794]);
  (lit "vellip;", [8942]);
  (lit "Verbar;", [8214]);
  (lit "verbar;", [124]);
  (lit "Vert;", [8214]);
  (lit "vert;", [124]);
  (lit "VerticalBar;", [8739]);
  (lit "VerticalLine;", [124]);
  (lit "VerticalSeparator;", [10072]);
  (lit "VerticalTilde;", [8768]);
  (lit "VeryThinSpace;", [8202]);
  (lit "Vfr;", [120089]);
  (lit "vfr;", [120115]);
  (lit "vltri;", [8882]);
  (lit "vnsub;", [8834; 8402]);
  (lit "vnsup;", [8835; 8402]);
  (lit "Vopf;", [120141]);
  (lit "vopf;", [120167]);
  (lit "vprop;", [8733]);
  (lit "vrtri;", [8883]);
  (lit "Vscr;", [119985]);
  (lit "vscr;", [120011]);
  (lit "vsubnE;", [10955; 65024]);
  (lit "vsubne;", [8842; 65024]);
  (lit "vsupnE;", [10956; 65024]);
  (lit "vsupne;", [8843; 65024]);
  (lit "Vvdash;", [8874]);
  (lit "vzigzag;", [10650]);
  (lit "Wcirc;", [372]);
  (lit "wcirc;", [373]);
  (lit "wedbar;", [10847]);
  (lit "Wedge;", [8896]);
  (lit "wedge;", [8743]);
  (lit "wedgeq;", [8793]);
  (lit "weierp;", [8472]);
  (lit "Wfr;", [120090]);
  (lit "wfr;", [120116]);
  (lit "Wopf;", [120142]);
  (lit "wopf;", [120168]);
  (lit "wp;", [8472]);
  (lit "wr;", [8768]);
  (lit "wreath;", [8768]);
  (lit "Wscr;", [119986]);
  (lit "wscr;", [120012]);
  (lit "xcap;", [8898]);
  (lit "xcirc;", [9711]);
  (lit "xcup;", [8899]);
  (lit "xdtri;", [9661]);
  (lit "Xfr;", [120091]);
  (lit "xfr;", [120117]);
  (lit "xhArr;", [10234]);
  (lit "xharr;", [10231]);
  (lit "Xi;", [926]);
  (lit "xi;", [958]);
  (lit "xlArr;", [10232]);
  (lit "xlarr;", [10229]);
  (lit "xmap;", [10236]);
  (lit "xnis;", [8955]);
  (lit "xodot;", [10752]);
  (lit "Xopf;", [120143]);
  (lit "xopf;", [120169]);
  (lit "xoplus;", [10753]);
  (lit "xotime;", [10754]);
  (lit "xrArr;", [10233]);
  (lit "xrarr;", [10230]);
  (lit "Xscr;", [119987]);
  (lit "xscr;", [120013]);
  (lit "xsqcup;", [10758]);
  (lit "xuplus;", [10756]);
  (lit "xutri;", [9651]);
  (lit "xvee;", [8897]);
  (lit "xwedge;", [8896]);
  (lit "Yacute", [221]);
  (lit "yacute", [253]);
  (lit "Yacute;", [221]);
  (lit "yacute;", [253]);
  (lit "YAcy;", [1071]);
  (lit "yacy;", [1103]);
  (lit "Ycirc;", [374]);
  (lit "ycirc;", [375]);
  (lit "Ycy;", [1067]);
  (lit "ycy;", [1099]);
  (lit "yen", [165]);
  (lit "yen;", [165]);
  (lit "Yfr;", [120092]);
  (lit "yfr;", [120118]);
  (lit "YIcy;", [1031]);
  (lit "yicy;", [1111]);
  (lit "Yopf;", [120144]);
  (lit "yopf;", [120170]);
  (lit "Yscr;", [119988]);
  (lit "yscr;", [120014]);
  (lit "YUcy;", [1070]);
  (lit "yucy;", [1102]);
  (lit "yuml", [255]);
  (lit "Yuml;", [376]);
  (lit "yuml;", [255]);
  (lit "Zacute;", [377]);
  (lit "zacute;", [378]);
  (lit "Zcaron;", [381]);
  (lit "zcaron;", [382]);
  (lit "Zcy;", [1047]);
  (lit "zcy;", [1079]);
  (lit "Zdot;", [379]);
  (lit "zdot;", [380]);
  (lit "zeetrf;", [8488]);
  (lit "ZeroWidthSpace;", [8203]);
  (lit "Zeta;", [918]);
  (lit "zeta;", [950]);
  (lit "Zfr;", [8488]);
  (lit "zfr;", [120119]);
  (lit "ZHcy;", [1046]);
  (lit "zhcy;", [1078]);
  (lit "zigrarr;", [8669]);
  (lit "Zopf;", [8484]);
  (lit "zopf;", [120171]);
  (lit "Zscr;", [119989]);
  (lit "zscr;", [120015]);
  (lit "zwj;", [8205]);
  (lit "zwnj;", [8204])
].

(** [_invalid_charrefs] *)
Definition invalid_charrefs : list (N * codepoint) := [
  (0, 65533);
  (13, 13);
  (128, 8364);
  (129, 129);
  (130, 8218);
  (131, 402);
  (132, 8222);
  (133, 8230);
  (134, 8224);
  (135, 8225);
  (136, 710);
  (137, 8240);
  (138, 352);
  (139, 8249);
  (140, 338);
  (141, 141);
  (142, 381);
  (143, 143);
  (144, 144);
  (145, 8216);
  (146, 8217);
  (147, 8220);
  (148, 8221);
  (149, 8226);
  (150, 8211);
  (151, 8212);
  (152, 732);
  (153, 8482);
  (154, 353);
  (155, 8250);
  (156, 339);
  (157, 157);
  (158, 382);
  (159, 376)
].

(** [_invalid_codepoints] *)
Definition invalid_codepoints : list N := [
  1; 2; 3; 4; 5; 6; 7; 8;
  11; 14; 15; 16; 17; 18; 19; 20;
  21; 22; 23; 24; 25; 26; 27; 28;
  29; 30; 31; 127; 128; 129; 130; 131;
  132; 133; 134; 135; 136; 137; 138; 139;
  140; 141; 142; 143; 144; 145; 146; 147;
  148; 149; 150; 151; 152; 153; 154; 155;
  156; 157; 158; 159; 64976; 64977; 64978; 64979;
  64980; 64981; 64982; 64983; 64984; 64985; 64986; 64987;
  64988; 64989; 64990; 64991; 64992; 64993; 64994; 64995;
  64996; 64997; 64998; 64999; 65000; 65001; 65002; 65003;
  65004; 65005; 65006; 65007; 65534; 65535; 131070; 131071;
  196606; 196607; 262142; 262143; 327678; 327679; 393214; 393215;
  458750; 458751; 524286; 524287; 589822; 589823; 655358; 655359;
  720894; 720895; 786430; 786431; 851966; 851967; 917502; 917503;
  983038; 983039; 1048574; 1048575; 1114110; 1114111
].

Definition lookup (name : str) : option str :=
  option_map snd (find (fun kv => str_eqb (fst kv) name) html5).

Definition is_digit (c : codepoint) : bool := (48 <=? c) && (c <=? 57).

Definition is_hexdigit (c : codepoint) : bool :=
  is_digit c || ((97 <=? c) && (c <=? 102)) || ((65 <=? c) && (c <=? 70)).

(** The class of the third alternative of [_charref]: anything but tab,
    line feed, form feed, space, [<], [&], [#] and [;]. *)
Definition is_name_char (c : codepoint) : bool :=
  negb ((c =? 9) || (c =? 10) || (c =? 12) || (c =? 32)
        || (c =? 60) || (c =? 38) || (c =? 35) || (c =? 59)).

(** A greedy run of at most [max] characters of class [p], and the rest. *)
Fixpoint span (p : codepoint -> bool) (max : nat) (s : str) : str * str :=
  match max, s with
  | S max', c :: s' =>
      if p c then let (v, r) := span p max' s' in (c :: v, r) else ([], s)
  | _, _ => ([], s)
  end.

(** A greedy run of any length. *)
Definition span_all (p : codepoint -> bool) (s : str) : str * str :=
  span p (length s) s.

(** The optional final semicolon of each alternative. *)
Definition with_semicolon (body rest : str) : str * str :=
  match rest with
  | 59 :: rest' => (body ++ [59], rest')
  | _ => (body, rest)
  end.

(** One attempt to match [_charref] where [s] is the text after an
    ampersand: group 1 and the text after the match.  The alternatives are
    tried in order: decimal reference, hexadecimal reference, name of 1 to
    32 characters. *)
Definition match_charref (s : str) : option (str * str) :=
  match s with
  | 35 :: t =>
      match span_all is_digit t with
      | ((_ :: _) as ds, r) => Some (with_semicolon (35 :: ds) r)
      | _ =>
          match t with
          | x :: t' =>
              if (x =? 120) || (x =? 88) then
                match span_all is_hexdigit t' with
                | ((_ :: _) as hs, r) => Some (with_semicolon (35 :: x :: hs) r)
                | _ => None
                end
              else None
          | [] => None
          end
      end
  | _ =>
      match span is_name_char 32 s with
      | ((_ :: _) as nm, r) => Some (with_semicolon nm r)
      | _ => None
      end
  end.

(** [s.rstrip(';')] *)
Definition rstrip_semicolon (s : str) : str :=
  rev (let fix strip (r : str) : str :=
         match r with
         | 59 :: r' => strip r'
         | _ => r
         end in strip (rev s)).

Definition digit_of (c : codepoint) : N :=
  if c <=? 57 then c - 48 else if c <=? 70 then c - 55 else c - 87.

(** [int(s, base)] on a string of digits of that base (the interpreter's
    limit on the length of a decimal literal is left out). *)
Definition int_of (base : N) (s : str) : N :=
  fold_left (fun acc c => acc * base + digit_of c) s 0.

(** The numeric branch of [_replace_charref]; [s] starts with [#]. *)
Definition replace_numeric (s : str) : str :=
  let num :=
    match s with
    | _ :: x :: ds =>
        if (x =? 120) || (x =? 88)
        then int_of 16 (rstrip_semicolon ds)
        else int_of 10 (rstrip_semicolon (x :: ds))
    | _ => 0
    end in
  match find (fun kv => fst kv =? num) invalid_charrefs with
  | Some kv => [snd kv]
  | None =>
      if ((55296 <=? num) && (num <=? 57343)) || (1114111 <? num)
      then [65533]
      else if existsb (N.eqb num) invalid_codepoints then []
      else [num]
  end.

(** The loop [for x in range(len(s)-1, 1, -1)] of the named branch: the
    longest proper prefix of at least two characters that is a name. *)
Fixpoint longest_name (s : str) (x : nat) : option str :=
  match x with
  | S ((S _) as x') =>
      match lookup (firstn x s) with
      | Some v => Some (v ++ skipn x s)
      | None => longest_name s x'
      end
  | _ => None
  end.

(** [_replace_charref], on group 1 of a match. *)
Definition replace_charref (s : str) : str :=
  match s with
  | 35 :: _ => replace_numeric s
  | _ =>
      match lookup s with
      | Some v => v
      | None =>
          match longest_name s (length s - 1) with
          | Some r => r
          | None => 38 :: s
          end
      end
  end.

(** The scan of [_charref.sub(_replace_charref, s)]. *)
Fixpoint sub_scan (fuel : nat) (s : str) : str :=
  match fuel with
  | O => []
  | S fuel' =>
      match s with
      | [] => []
      | c :: t =>
          if c =? 38 then
            match match_charref t with
            | Some (g, rest) => replace_charref g ++ sub_scan fuel' rest
            | None => c :: sub_scan fuel' t
            end
          else c :: sub_scan fuel' t
      end
  end.

(** The matches of [_charref] in [s], in order: group 1 of each. *)
Fixpoint charrefs_scan (fuel : nat) (s : str) : list str :=
  match fuel with
  | O => []
  | S fuel' =>
      match s with
      | [] => []
      | c :: t =>
          if c =? 38 then
            match match_charref t with
            | Some (g, rest) => g :: charrefs_scan fuel' rest
            | None => charrefs_scan fuel' t
            end
          else charrefs_scan fuel' t
      end
  end.

Definition charrefs (s : str) : list str := charrefs_scan (S (length s)) s.

(** [html.unescape(s)] *)
Definition unescape (s : str) : str :=
  if existsb (N.eqb 38) s then sub_scan (S (length s)) s else s.

End Html.

(** ** [fix_url.py] *)

Module FixUrl.

(** The three characters that stand where the mail lost an equals sign:
    U+00EF, U+00BF, U+00BD. *)
Definition corruption_marker : str := [239; 191; 189]%N.

Definition malformed : str :=
  lit "https://www.paypal.com/signin?expId=confirmEmail&amp;cc"
  ++ corruption_marker
  ++ lit "238665767824618297"
  ++ lit "&amp;em=V6MN70DmDl16zNoUJBAMe9m4nwa0VPzRrTuy3LyF1mYlPp9LGI_Myfhf1l4"
  ++ lit "&amp;returnUri=https%3A%2F%2Fwww.paypal.com%2Fmep%2Fdashboard"
  ++ lit "&amp;v=1&amp;utm_source=unp&amp;utm_medium=email"
  ++ lit "&amp;utm_campaign=RT000594"
  ++ lit "&amp;utm_unptidj03a056-cf6e-11f0-935e-1d78024aafd6"
  ++ lit "&amp;ppid=RT000594&amp;cnac=US&amp;rsta=en_US%28en-US%29"
  ++ lit "&amp;cust=H37KLCN2WXJ7N"
  ++ lit "&amp;unptidj03a056-cf6e-11f0-935e-1d78024aafd6&amp;calc"
  ++ corruption_marker
  ++ lit "a7a55029f30&amp;unp_tpcid"
  ++ corruption_marker
  ++ lit "tivation-confirmation-email-251&amp;page=main%3Aemail%3ART000594"
  ++ lit "&amp;pgrp=main%3Aemail&amp;e=cl&amp;mchn=em&amp;s=ci&amp;mail=sys"
  ++ lit "&amp;appVersion=1.371.0&amp;tenant_name=PAYPAL&amp;xt"
  ++ corruption_marker
  ++ lit "5585%2C150948%2C104038&amp;link_ref=www.paypal.com_signin".

(** The state of the script after its last assignment to [fixed]. *)
Definition fixed : str :=
  let fixed := str_replace (lit "&amp;") (lit "&") malformed in
  let fixed :=
    str_replace (lit "&cc" ++ corruption_marker) (lit "&cc=") fixed in
  let fixed :=
    str_replace (lit "&calc" ++ corruption_marker ++ lit "a7a55029f30")
                (lit "&calc=c9a7a55029f30") fixed in
  let fixed :=
    str_replace (lit "&unp_tpcid" ++ corruption_marker ++ lit "tivation")
                (lit "&unp_tpcid=activation") fixed in
  let fixed :=
    str_replace (lit "&xt" ++ corruption_marker ++ lit "5585")
                (lit "&xt=145585") fixed in
  let fixed :=
    str_replace (lit "&utm_unptidj03a056") (lit "&utm_unptid=j03a056") fixed in
  let fixed :=
    str_replace (lit "&unptidj03a056") (lit "&unptid=j03a056") fixed in
  fixed.

Definition decoded : str := Html.unescape fixed.

(** The four [print] calls of the script. *)
Definition output : list str :=
  [ lit "Corrected URL:";
    fixed;
    [10%N] ++ lit "Decoded URL (with HTML entities decoded):";
    decoded ].

End FixUrl.

(** * Vocabulary of the properties *)

Section Occurrences.
Context {A : Type}.

(** [p] occurs in [s] with [i] elements before it. *)
Definition occurs_at (p s : list A) (i : nat) : Prop :=
  exists pre post, s = pre ++ p ++ post /\ length pre = i.

(** [p] is a substring of [s]. *)
Definition occurs (p s : list A) : Prop :=
  exists pre post, s = pre ++ p ++ post.

End Occurrences.

Module DecodeEmailSpec.
Import DecodeEmail.

(** A computation that cannot end in [exit]. *)
Definition no_exit {A} (m : M A) : Prop :=
  forall w, match fst (m w) with SystemExit _ => False | _ => True end.

Definition is_ascii (s : str) : bool := forallb (fun c => (c <? 128)%N) s.

Definition CRLF : str := [13; 10]%N.

Definition DQUOTE : str := [34]%N.

(** A message whose HTML part is quoted-printable and closed by the
    terminal boundary. *)
Definition sample_email : str :=
  lit "MIME-Version: 1.0" ++ NL
  ++ html_part_marker ++ NL
  ++ lit "Content-Transfer-Encoding: quoted-printable" ++ NL ++ NL
  ++ lit "<a href=3D" ++ DQUOTE ++ lit "https://example.com/a?x=3D1"
  ++ DQUOTE ++ lit ">a</a>" ++ NL
  ++ terminal_marker ++ NL.

(** A message that ends inside its HTML part. *)
Definition unterminated_email : str :=
  lit "MIME-Version: 1.0" ++ NL
  ++ html_part_marker ++ NL ++ NL
  ++ lit "<p>Hi</p>".


(** The lines printed for a list of links: for each, a numbered heading
    and the link. *)
Fixpoint numbered (label : str) (links : list str) (i : Z) : list str :=
  match links with
  | [] => []
  | link :: links' =>
      (NL ++ label ++ str_of_int i ++ lit ":") :: link
      :: numbered label links' (i + 1)
  end.

(** A link between quote characters [q1] and [q2], as the patterns see
    it. *)
Definition href (prefix : str) (q1 : codepoint) (v : str) (q2 : codepoint)
  : str :=
  prefix ++ q1 :: v ++ [q2].

End DecodeEmailSpec.


Module RegexSpec.

(** [s] begins with a match of the pattern: [prefix], a quote character,
    the group [v] of one or more characters none of which is a quote
    character, a quote character; [rest] follows the match. *)
Definition matches_at (prefix s v rest : str) : Prop :=
  exists q1 q2,
    Regex.is_quote q1 = true /\ Regex.is_quote q2 = true
    /\ v <> []
    /\ (forall c, In c v -> Regex.is_quote c = false)
    /\ s = prefix ++ q1 :: v ++ q2 :: rest.

(** [scan prefix s vs]: [vs] lists the groups of the matches met when [s]
    is read from left to right, each match starting at the first position
    where one exists after the end of the match before it. *)
Inductive scan (prefix : str) : str -> list str -> Prop :=
| scan_end : scan prefix [] []
| scan_skip (c : codepoint) (s : str) (vs : list str) :
    (forall v rest, ~ matches_at prefix (c :: s) v rest) ->
    scan prefix s vs ->
    scan prefix (c :: s) vs
| scan_match (s v rest : str) (vs : list str) :
    matches_at prefix s v rest ->
    scan prefix rest vs ->
    scan prefix s (v :: vs).

(** Free of quote characters. *)
Definition quote_free (s : str) : Prop :=
  forall c, In c s -> Regex.is_quote c = false.

End RegexSpec.

Module FixUrlSpec.

(** The percent escapes of a text, in order: at each percent sign, the
    sign and the two characters after it. *)
Fixpoint percent_escapes (s : str) : list str :=
  match s with
  | [] => []
  | c :: t =>
      if (c =? 37)%N then firstn 3 s :: percent_escapes t
      else percent_escapes t
  end.

(** A match of the character-reference pattern that [html.unescape]
    leaves as it stands. *)
Definition left_alone (g : str) : Prop :=
  Html.replace_charref g = 38%N :: g.

End FixUrlSpec.

Module QuopriSpec.
Import Quopri.

Section LineEnds.
Context {A : Type} (is_lf is_cr : A -> bool).

(** Every line feed of [s] comes right after a carriage return when [crlf]
    is set, and none does when it is not; [prev_cr] tells whether a
    carriage return comes right before [s]. *)
Fixpoint line_ends_ok (crlf prev_cr : bool) (s : list A) : bool :=
  match s with
  | [] => true
  | c :: t =>
      if is_lf c then Bool.eqb prev_cr crlf && line_ends_ok crlf false t
      else line_ends_ok crlf (is_cr c) t
  end.

(** The line ends of [s] are all of one kind: all LF, or all CR LF. *)
Definition uniform (s : list A) : bool :=
  line_ends_ok false false s || line_ends_ok true false s.

End LineEnds.

Definition uniform_line_ends (s : str) : bool :=
  uniform (N.eqb 10) (N.eqb 13) s.

Definition uniform_line_ends_bytes (b : bytes) : bool :=
  uniform (Ascii.eqb LF) (Ascii.eqb CR) b.

(** [wrote crlf rout rdec]: the output [rout] of the encoder, last byte
    first, is made of literal bytes, [=XX] escapes and soft line breaks,
    and stands for the bytes [rdec], last byte first. *)
Inductive wrote (crlf : bool) : bytes -> bytes -> Prop :=
| wrote_nil : wrote crlf [] []
| wrote_lit (c : ascii) (rout rdec : bytes) :
    Ascii.eqb c "="%char = false ->
    (N_of_ascii c <? 128)%N = true ->
    wrote crlf rout rdec ->
    wrote crlf (c :: rout) (c :: rdec)
| wrote_hex (c : ascii) (rout rdec : bytes) :
    wrote crlf rout rdec ->
    wrote crlf (rev (to_hex c) ++ "="%char :: rout) (c :: rdec)
| wrote_soft (rout rdec : bytes) :
    wrote crlf rout rdec ->
    wrote crlf (soft_break crlf rout) rdec.

(** [bytes.decode('ascii')] on bytes below 128. *)
Definition ascii_str (b : bytes) : str := map N_of_ascii b.

(** Quoted-printable text in which every [=] opens a complete unit: two
    hexadecimal digits, or a soft line break, LF or CR LF. *)
Fixpoint well_formed (s : bytes) : bool :=
  match s with
  | [] => true
  | c :: s1 =>
      if Ascii.eqb c "="%char then
        match s1 with
        | [] => false
        | c1 :: s2 =>
            if Ascii.eqb c1 LF then well_formed s2
            else
              match s2 with
              | [] => false
              | c2 :: s3 =>
                  if (Ascii.eqb c1 CR && Ascii.eqb c2 LF)
                     || (is_hex c1 && is_hex c2)
                  then well_formed s3
                  else false
              end
        end
      else well_formed s1
  end.


End QuopriSpec.
(** * Further vocabulary *)

Module DecodeEmailOutput.
Import DecodeEmail DecodeEmailSpec.

(** What [decode_link] returns when it raises nothing: the decoding of a
    raw link taken alone. *)
Definition raw_decoding (link : str) : option str :=
  match Utf8.encode link with
  | Some link_bytes => Utf8.decode (Quopri.decodestring link_bytes)
  | None => None
  end.

(** The lines printed for a list of raw links paired with their
    decodings: for each, a numbered heading, the raw link, and the
    decoding after its label. *)
Fixpoint raw_lines (links : list (str * str)) (i : Z) : list str :=
  match links with
  | [] => []
  | (link, decoded_link) :: links' =>
      (NL ++ lit "Raw Link " ++ str_of_int i ++ lit ":") :: link
      :: (lit "Decoded: " ++ decoded_link)
      :: raw_lines links' (i + 1)
  end.

(** The three lines that open the output. *)
Definition html_banner : list str :=
  [rule; lit "DECODED HTML CONTENT:"; rule].

Definition links_banner : list str :=
  [NL ++ rule; lit "EXTRACTED LINKS:"; rule].

Definition raw_links_banner : list str :=
  [NL ++ rule; lit "RAW QUOTED-PRINTABLE LINKS (before decoding):"; rule].

Definition file_notice : str :=
  lit "(Content written to decoded_html.txt due to encoding issues)".

(** A computation that raises no exception outside [allowed]. *)
Definition raises_only {A} (allowed : exn -> Prop) (m : M A) : Prop :=
  forall w e, fst (m w) = Raise e -> allowed e.

(** A computation that leaves [decoded_html.txt] as it found it. *)
Definition keeps_file {A} (m : M A) : Prop :=
  forall w, decoded_html_txt (snd (m w)) = decoded_html_txt w.

End DecodeEmailOutput.

Module FixUrlSteps.
Import FixUrl.

(** The assignments of the script to [fixed], as a function of the text
    they start from. *)
Definition repair (malformed : str) : str :=
  let fixed := str_replace (lit "&amp;") (lit "&") malformed in
  let fixed :=
    str_replace (lit "&cc" ++ corruption_marker) (lit "&cc=") fixed in
  let fixed :=
    str_replace (lit "&calc" ++ corruption_marker ++ lit "a7a55029f30")
                (lit "&calc=c9a7a55029f30") fixed in
  let fixed :=
    str_replace (lit "&unp_tpcid" ++ corruption_marker ++ lit "tivation")
                (lit "&unp_tpcid=activation") fixed in
  let fixed :=
    str_replace (lit "&xt" ++ corruption_marker ++ lit "5585")
                (lit "&xt=145585") fixed in
  let fixed :=
    str_replace (lit "&utm_unptidj03a056") (lit "&utm_unptid=j03a056") fixed in
  let fixed :=
    str_replace (lit "&unptidj03a056") (lit "&unptid=j03a056") fixed in
  fixed.

(** The seven texts the script searches for, in the order of its
    [replace] calls. *)
Definition patterns : list str :=
  [ lit "&amp;";
    lit "&cc" ++ corruption_marker;
    lit "&calc" ++ corruption_marker ++ lit "a7a55029f30";
    lit "&unp_tpcid" ++ corruption_marker ++ lit "tivation";
    lit "&xt" ++ corruption_marker ++ lit "5585";
    lit "&utm_unptidj03a056";
    lit "&unptidj03a056" ].

End FixUrlSteps.

(** * Properties *)

(** ** Searching and slicing *)

Section SeqFacts.
Context {A : Type} (eqb : A -> A -> bool).
Hypothesis eqb_eq : forall x y, eqb x y = true <-> x = y.

Lemma starts_with_iff (p s : list A) :
  PyStr.starts_with eqb p s = true <-> exists t, s = p ++ t.
Proof.
  revert s; induction p as [|x p IH]; intros s; simpl.
  - split; [intros _; now exists s | reflexivity].
  - destruct s as [|y s].
    + split; [discriminate | intros [t H]; discriminate].
    + rewrite andb_true_iff, eqb_eq, IH. split.
      * intros [-> [t ->]]. now exists t.
      * intros [t H]. injection H as -> ->. split; [reflexivity | now exists t].
Qed.

Lemma starts_with_occurs_at_0 (p s : list A) :
  PyStr.starts_with eqb p s = true <-> occurs_at p s 0.
Proof.
  rewrite starts_with_iff. split.
  - intros [t ->]. now exists [], t.
  - intros (pre & post & -> & Hl). destruct pre; [|discriminate]. now exists post.
Qed.

Lemma occurs_at_cons (p : list A) (c : A) (s : list A) (k : nat) :
  occurs_at p (c :: s) (S k) <-> occurs_at p s k.
Proof.
  split.
  - intros (pre & post & E & Hl). destruct pre as [|c' pre]; [discriminate|].
    injection E as -> ->. injection Hl as Hl. now exists pre, post.
  - intros (pre & post & -> & Hl). exists (c :: pre), post. simpl. now rewrite Hl.
Qed.

Lemma occurs_at_nil (p : list A) (k : nat) :
  occurs_at p [] (S k) -> False.
Proof. intros (pre & post & E & Hl). destruct pre; discriminate. Qed.

(** [find_from] returns the position of the first occurrence, counted
    from [i], or [-1] when there is none. *)
Lemma find_from_spec (p s : list A) (i : Z) :
  (PyStr.find_from eqb p s i = -1 /\ forall k, ~ occurs_at p s k)
  \/ (exists k, PyStr.find_from eqb p s i = i + Z.of_nat k
                /\ occurs_at p s k
                /\ forall j, (j < k)%nat -> ~ occurs_at p s j).
Proof.
  revert i; induction s as [|c s IH]; intros i; simpl.
  - destruct (PyStr.starts_with eqb p []) eqn:E.
    + right. exists 0%nat. rewrite Z.add_0_r. repeat split.
      * now apply starts_with_occurs_at_0.
      * intros j Hj; lia.
    + left. split; [reflexivity|]. intros [|k] H.
      * apply starts_with_occurs_at_0 in H. congruence.
      * now apply occurs_at_nil in H.
  - destruct (PyStr.starts_with eqb p (c :: s)) eqn:E.
    + right. exists 0%nat. rewrite Z.add_0_r. repeat split.
      * now apply starts_with_occurs_at_0.
      * intros j Hj; lia.
    + destruct (IH (i + 1)) as [[Hf Hn] | (k & Hf & Ho & Hmin)].
      * left. split; [exact Hf|]. intros [|k] H.
        -- apply starts_with_occurs_at_0 in H. congruence.
        -- apply occurs_at_cons in H. now apply (Hn k).
      * right. exists (S k). repeat split.
        -- rewrite Hf. lia.
        -- now apply occurs_at_cons.
        -- intros [|j] Hj H.
           ++ apply starts_with_occurs_at_0 in H. congruence.
           ++ apply occurs_at_cons in H. apply (Hmin j); [lia | exact H].
Qed.

Lemma occurs_at_skipn (p s : list A) (n k : nat) :
  (n <= length s)%nat ->
  occurs_at p (skipn n s) k <-> occurs_at p s (n + k).
Proof.
  revert s; induction n as [|n IH]; intros s Hn; simpl.
  - reflexivity.
  - destruct s as [|c s]; simpl in Hn; [lia|].
    rewrite occurs_at_cons. apply IH. lia.
Qed.

Lemma occurs_at_bound (p s : list A) (k : nat) :
  occurs_at p s k -> (k + length p <= length s)%nat.
Proof.
  intros (pre & post & -> & <-). rewrite !length_app. lia.
Qed.

(** [s.find(p, start)] for a non-negative [start]: the first occurrence at
    or after [start], or [-1] when there is none. *)
Lemma find_spec (p s : list A) (start : nat) :
  (PyStr.find eqb p s (Z.of_nat start) = -1
   /\ forall k, (start <= k)%nat -> ~ occurs_at p s k)
  \/ (exists k, PyStr.find eqb p s (Z.of_nat start) = Z.of_nat k
                /\ (start <= k)%nat
                /\ occurs_at p s k
                /\ forall j, (start <= j < k)%nat -> ~ occurs_at p s j).
Proof.
  unfold PyStr.find.
  destruct (Z.ltb_spec (Z.of_nat start) 0) as [?|_]; [lia|].
  destruct (Z.ltb_spec (Z.of_nat (length s)) (Z.of_nat start)) as [Hlt|Hle].
  - left. split; [reflexivity|]. intros k Hk H.
    apply occurs_at_bound in H. lia.
  - rewrite Nat2Z.id.
    assert (Hn : (start <= length s)%nat) by lia.
    destruct (find_from_spec p (skipn start s) (Z.of_nat start))
      as [[Hf Hno] | (k & Hf & Ho & Hmin)].
    + left. split; [exact Hf|]. intros k Hk H.
      apply (Hno (k - start)%nat). apply occurs_at_skipn; [exact Hn|].
      now replace (start + (k - start))%nat with k by lia.
    + right. exists (start + k)%nat. repeat split.
      * rewrite Hf. lia.
      * lia.
      * now apply occurs_at_skipn.
      * intros j Hj H. apply (Hmin (j - start)%nat); [lia|].
        apply occurs_at_skipn; [exact Hn|].
        now replace (start + (j - start))%nat with j by lia.
Qed.

(** [p in s] decides whether [p] is a substring of [s]. *)
Lemma contains_iff (p s : list A) :
  PyStr.contains eqb p s = true <-> occurs p s.
Proof.
  unfold PyStr.contains.
  destruct (find_spec p s 0) as [[Hf Hno] | (k & Hf & _ & Ho & _)];
    simpl in Hf; rewrite Hf.
  - split; [discriminate|]. intros (pre & post & E).
    exfalso. apply (Hno (length pre)); [lia|]. now exists pre, post.
  - split; [|intros _; destruct k; reflexivity].
    intros _. destruct Ho as (pre & post & E & _). now exists pre, post.
Qed.

(** A slice with bounds inside the sequence. *)
Lemma slice_inside (s : list A) (a b : nat) :
  (a <= b <= length s)%nat ->
  PyStr.slice s (Z.of_nat a) (Z.of_nat b) = firstn (b - a) (skipn a s).
Proof.
  intros H. unfold PyStr.slice, PyStr.clip.
  destruct (Z.ltb_spec (Z.of_nat a) 0); [lia|].
  destruct (Z.ltb_spec (Z.of_nat b) 0); [lia|].
  rewrite !Z.min_l by lia.
  rewrite Nat2Z.id. f_equal. lia.
Qed.

(** A slice that ends at [-1] leaves the last element out. *)
Lemma slice_to_minus_one (s : list A) (a : nat) :
  (a <= length s)%nat ->
  PyStr.slice s (Z.of_nat a) (-1) = removelast (skipn a s).
Proof.
  intros H. unfold PyStr.slice, PyStr.clip.
  destruct (Z.ltb_spec (Z.of_nat a) 0); [lia|].
  change (-1 <? 0) with true. cbv iota.
  rewrite Z.min_l by lia. rewrite Nat2Z.id.
  rewrite removelast_firstn_len, length_skipn. f_equal. lia.
Qed.

Lemma slice_from_inside (s : list A) (a : nat) :
  PyStr.slice_from s (Z.of_nat a) = skipn a s.
Proof.
  unfold PyStr.slice_from, PyStr.clip.
  destruct (Z.ltb_spec (Z.of_nat a) 0); [lia|].
  destruct (Z.min_spec (Z.of_nat a) (Z.of_nat (length s))) as [[_ ->]|[Hle ->]].
  - now rewrite Nat2Z.id.
  - rewrite Nat2Z.id. rewrite !skipn_all2; [reflexivity | lia | lia].
Qed.

End SeqFacts.

Lemma N_eqb_eq (x y : N) : N.eqb x y = true <-> x = y.
Proof. apply N.eqb_eq. Qed.

Lemma find_none_iff (p s : str) (start : nat) :
  str_find p s (Z.of_nat start) = -1
  <-> forall k, (start <= k)%nat -> ~ occurs_at p s k.
Proof.
  unfold str_find.
  destruct (find_spec N.eqb N_eqb_eq p s start)
    as [[Hf Hno] | (k & Hf & Hk & Ho & _)].
  - split; [intros _; exact Hno | intros _; exact Hf].
  - split.
    + intros E. rewrite E in Hf. lia.
    + intros Hno. exfalso. now apply (Hno k).
Qed.

Lemma find_some (p s : str) (start : nat) :
  str_find p s (Z.of_nat start) <> -1 ->
  exists k, str_find p s (Z.of_nat start) = Z.of_nat k
            /\ (start <= k)%nat /\ occurs_at p s k
            /\ forall j, (start <= j < k)%nat -> ~ occurs_at p s j.
Proof.
  unfold str_find. intros Hne.
  destruct (find_spec N.eqb N_eqb_eq p s start) as [[Hf _] | H];
    [contradiction | exact H].
Qed.

Lemma str_contains_iff (p s : str) :
  str_contains p s = true <-> occurs p s.
Proof. apply contains_iff, N_eqb_eq. Qed.

Lemma occurs_find (p s : str) :
  occurs p s <-> str_find p s 0 <> -1.
Proof.
  rewrite <- str_contains_iff. unfold str_contains, PyStr.contains, str_find.
  rewrite negb_true_iff, Z.eqb_neq. reflexivity.
Qed.

(** ** The control flow of [decode_email.py] *)

Module DecodeEmailFacts.
Import DecodeEmail DecodeEmailSpec.

Lemma no_exit_ret {A} (a : A) : no_exit (ret a).
Proof. intros w; exact I. Qed.

Lemma no_exit_raise {A} (e : exn) : no_exit (@raise A e).
Proof. intros w; exact I. Qed.

Lemma no_exit_or_raise {A} (e : exn) (o : option A) : no_exit (or_raise e o).
Proof. destruct o; [apply no_exit_ret | apply no_exit_raise]. Qed.

Lemma no_exit_bind {A B} (m : M A) (k : A -> M B) :
  no_exit m -> (forall a, no_exit (k a)) -> no_exit (bind m k).
Proof.
  intros Hm Hk w. unfold bind. specialize (Hm w).
  destruct (m w) as [[a|e|c] w']; simpl in *; [apply Hk | exact I | exact Hm].
Qed.

Lemma no_exit_print (cs : codepoint -> bool) (s : str) : no_exit (print cs s).
Proof. intros w. unfold print. now destruct (encodable cs s). Qed.

Lemma no_exit_write (s : str) : no_exit (write_decoded_html_txt s).
Proof.
  unfold write_decoded_html_txt.
  destruct (Utf8.encode s); [intros w; exact I | apply no_exit_raise].
Qed.

Lemma no_exit_try (body handler : M unit) :
  no_exit body -> no_exit handler -> no_exit (try_except_encode body handler).
Proof.
  intros Hb Hh w. unfold try_except_encode. specialize (Hb w).
  destruct (body w) as [[a|[]|c] w']; simpl in *; try exact I; try exact Hb.
  apply Hh.
Qed.

Lemma no_exit_for_each {A} (xs : list A) (body : A -> M unit) :
  (forall x, no_exit (body x)) -> no_exit (for_each xs body).
Proof.
  intros Hb. induction xs as [|x xs IH]; simpl.
  - apply no_exit_ret.
  - apply no_exit_bind; [apply Hb | intros _; exact IH].
Qed.

Create HintDb no_exit.
#[local] Hint Resolve no_exit_ret no_exit_raise no_exit_or_raise
  no_exit_print no_exit_write : no_exit.

Ltac no_exit_step :=
  first [ apply no_exit_bind; [|intros ?]
        | apply no_exit_try
        | apply no_exit_for_each; intros [? ?]
        | solve [auto with no_exit] ].

Lemma no_exit_decode_link (link : str) : no_exit (decode_link link).
Proof. unfold decode_link. repeat no_exit_step. Qed.

Lemma no_exit_print_links (cs : codepoint -> bool) (links : list str) :
  no_exit (print_links cs links).
Proof. unfold print_links. repeat no_exit_step. Qed.

Lemma no_exit_print_raw_links (cs : codepoint -> bool) (links : list str) :
  no_exit (print_raw_links cs links).
Proof.
  unfold print_raw_links. repeat no_exit_step.
Qed.

(** Printing an ASCII literal succeeds whatever the output encoding. *)
Lemma print_ascii (cs : codepoint -> bool) (s : str) (w : world) :
  forallb (fun c => (c <? 128)%N) s = true ->
  print cs s w = (Return tt, mkWorld (stdout w ++ [s]) (decoded_html_txt w)).
Proof.
  intros H. unfold print, encodable.
  replace (forallb _ s) with true; [reflexivity|].
  symmetry. rewrite forallb_forall in *. intros c Hc.
  now rewrite (H c Hc).
Qed.

(** The script when the marker of the HTML part is missing. *)
Lemma main_not_found (cs : codepoint -> bool) (email_content : str) :
  html_start_of email_content = -1 ->
  run cs email_content
  = (SystemExit 1, mkWorld [lit "Could not find HTML part"] None).
Proof.
  intros H. unfold run, main. rewrite H. simpl Z.eqb. cbv iota.
  unfold bind at 1. unfold bind at 1. rewrite print_ascii by reflexivity.
  reflexivity.
Qed.

(** The script when the marker is present: it never reaches [exit]. *)
Lemma main_found (cs : codepoint -> bool) (email_content : str) :
  html_start_of email_content <> -1 ->
  match fst (run cs email_content) with
  | SystemExit _ => False
  | _ => True
  end.
Proof.
  intros H. unfold run.
  assert (Hm : no_exit (main cs email_content)).
  { unfold main. apply Z.eqb_neq in H. rewrite H.
    repeat no_exit_step. }
  apply Hm.
Qed.

End DecodeEmailFacts.

(** ** The HTML part: marker, end, body *)

Section HtmlPart.
Import DecodeEmail DecodeEmailSpec DecodeEmailFacts.

(** C1.  When the text of the file does not contain the marker
    [--<boundary>\nContent-Type: text/html;], the script prints only the
    diagnostic and ends through [exit(1)]; when the text contains the
    marker and no exception escapes, the script reaches its end, which is
    exit status 0. *)
Theorem marker_lookup_decides_exit_status
  (cs : codepoint -> bool) (email_content : str) :
  (~ occurs html_part_marker email_content ->
   run cs email_content
   = (SystemExit 1, mkWorld [lit "Could not find HTML part"] None)
   /\ exit_status (fst (run cs email_content)) = 1)
  /\ (occurs html_part_marker email_content ->
      (forall e, fst (run cs email_content) <> Raise e) ->
      fst (run cs email_content) = Return tt
      /\ exit_status (fst (run cs email_content)) = 0).
Proof.
  split.
  - intros Hno.
    assert (E : html_start_of email_content = -1).
    { unfold html_start_of.
      destruct (Z.eq_dec (str_find html_part_marker email_content 0) (-1))
        as [E|E]; [exact E|].
      exfalso. apply Hno. now apply occurs_find. }
    rewrite (main_not_found cs _ E). split; reflexivity.
  - intros Hocc Hexc.
    apply occurs_find in Hocc.
    pose proof (main_found cs email_content Hocc) as Hm.
    destruct (fst (run cs email_content)) as [[]|e|c].
    + split; reflexivity.
    + now specialize (Hexc e).
    + contradiction.
Qed.

Lemma marker_lookup_decides_exit_status_witness :
  (run (fun _ => false) (lit "Subject: no HTML here")
   = (SystemExit 1, mkWorld [lit "Could not find HTML part"] None)
   /\ exit_status (fst (run (fun _ => false) (lit "Subject: no HTML here")))
      = 1)
  /\ (fst (run (fun _ => true) sample_email) = Return tt
      /\ exit_status (fst (run (fun _ => true) sample_email)) = 0).
Proof.
  split.
  - apply (proj1 (marker_lookup_decides_exit_status _ _)).
    intros H. apply occurs_find in H. apply H. vm_compute. reflexivity.
  - apply (proj2 (marker_lookup_decides_exit_status _ _)).
    + apply occurs_find. vm_compute. discriminate.
    + intros e. vm_compute. discriminate.
Defined.

(** C2, as amended.  When the marker is found and neither the terminal
    marker nor a further boundary occurs from the part start on, the end
    index of the slice is [-1], and the extracted part is the rest of the
    text from the part start without its last character. *)
Theorem part_without_closing_boundary (email_content : str) :
  occurs html_part_marker email_content ->
  (forall k, (Z.to_nat (html_start_of email_content) <= k)%nat ->
             ~ occurs_at terminal_marker email_content k) ->
  (forall k, (Z.to_nat (html_start_of email_content) + 1 <= k)%nat ->
             ~ occurs_at boundary_marker email_content k) ->
  html_end_of email_content (html_start_of email_content) = -1
  /\ html_section_of email_content
     = removelast
         (PyStr.slice_from email_content (html_start_of email_content)).
Proof.
  intros Hocc Hterm Hbnd.
  apply occurs_find in Hocc.
  destruct (find_some _ _ 0 Hocc) as (k & Hk & _ & Hat & _).
  unfold html_section_of.
  change (str_find html_part_marker email_content (Z.of_nat 0))
    with (html_start_of email_content) in Hk.
  rewrite Hk in *. rewrite Nat2Z.id in Hterm, Hbnd.
  assert (Hend : html_end_of email_content (Z.of_nat k) = -1).
  { unfold html_end_of.
    rewrite (proj2 (find_none_iff terminal_marker email_content k) Hterm).
    simpl. replace (Z.of_nat k + 1) with (Z.of_nat (k + 1)) by lia.
    now apply find_none_iff. }
  split; [exact Hend|].
  rewrite Hend, slice_from_inside.
  apply slice_to_minus_one.
  apply occurs_at_bound in Hat. lia.
Qed.

Lemma part_without_closing_boundary_witness :
  html_end_of unterminated_email (html_start_of unterminated_email) = -1
  /\ html_section_of unterminated_email
     = removelast
         (PyStr.slice_from unterminated_email
            (html_start_of unterminated_email)).
Proof.
  apply (part_without_closing_boundary unterminated_email).
  - apply occurs_find. vm_compute. discriminate.
  - change (Z.to_nat (html_start_of unterminated_email)) with 18%nat.
    apply find_none_iff. vm_compute. reflexivity.
  - change (Z.to_nat (html_start_of unterminated_email) + 1)%nat with 19%nat.
    apply find_none_iff. vm_compute. reflexivity.
Defined.

(** C2 as first stated fails: on [unterminated_email] the part start is
    found and no boundary follows, the end index is [-1], and the
    extracted part is not the whole rest of the text: the final [>] of the
    text is missing from it. *)
Lemma part_without_closing_boundary_drops_last_char :
  occurs html_part_marker unterminated_email
  /\ (forall k, (Z.to_nat (html_start_of unterminated_email) <= k)%nat ->
                ~ occurs_at terminal_marker unterminated_email k)
  /\ (forall k, (Z.to_nat (html_start_of unterminated_email) + 1 <= k)%nat ->
                ~ occurs_at boundary_marker unterminated_email k)
  /\ html_end_of unterminated_email (html_start_of unterminated_email) = -1
  /\ PyStr.slice_from unterminated_email (html_start_of unterminated_email)
     = html_section_of unterminated_email ++ lit ">"
  /\ html_section_of unterminated_email
     <> PyStr.slice_from unterminated_email
          (html_start_of unterminated_email).
Proof.
  split; [apply occurs_find; vm_compute; discriminate|].
  split; [change (Z.to_nat (html_start_of unterminated_email)) with 18%nat;
          apply find_none_iff; vm_compute; reflexivity|].
  split; [change (Z.to_nat (html_start_of unterminated_email) + 1)%nat
            with 19%nat;
          apply find_none_iff; vm_compute; reflexivity|].
  split; [vm_compute; reflexivity|].
  split; [vm_compute; reflexivity|].
  vm_compute. discriminate.
Qed.

(** The offset of the body when the separator is the four-character
    sequence CR LF CR LF: two characters past the start of the separator,
    so the body still begins with CR LF. *)
Lemma body_after_crlf_separator (headers body : str) :
  (forall k, ~ occurs_at (NL ++ NL) (headers ++ CRLF ++ CRLF ++ body) k) ->
  (forall k, (k < length headers)%nat ->
             ~ occurs_at (CRLF ++ CRLF) (headers ++ CRLF ++ CRLF ++ body) k) ->
  html_body_of (headers ++ CRLF ++ CRLF ++ body) = CRLF ++ body.
Proof.
  intros Hnl Hfirst. unfold html_body_of, body_start_of.
  rewrite (proj2 (find_none_iff (NL ++ NL) _ 0)) by (intros k _; apply Hnl).
  simpl (-1 =? -1). cbv iota.
  assert (Hne : str_find [13; 10; 13; 10]%N
                  (headers ++ CRLF ++ CRLF ++ body) 0 <> -1).
  { apply occurs_find. exists headers, body. reflexivity. }
  destruct (find_some _ _ 0 Hne) as (k & Hk & _ & Hat & Hmin).
  assert (k = length headers) as ->.
  { destruct (Nat.lt_trichotomy k (length headers)) as [Hlt|[E|Hgt]].
    - exfalso. now apply (Hfirst k).
    - exact E.
    - exfalso. apply (Hmin (length headers)); [lia|].
      exists headers, body. split; reflexivity. }
  change (Z.of_nat 0) with 0 in Hk. rewrite Hk.
  destruct (Z.eqb_spec (Z.of_nat (length headers)) (-1)) as [?|_]; [lia|].
  replace (Z.of_nat (length headers) + 2)
    with (Z.of_nat (2 + length headers)) by lia.
  rewrite slice_from_inside.
  rewrite <- (skipn_skipn 2 (length headers)).
  rewrite skipn_app, skipn_all, Nat.sub_diag. reflexivity.
Qed.


End HtmlPart.

(** ** The scan of [re.findall] *)

Module RegexFacts.
Import Regex RegexSpec.

Lemma span_value_split (s : str) :
  s = fst (span_value s) ++ snd (span_value s)
  /\ quote_free (fst (span_value s))
  /\ match snd (span_value s) with
     | [] => True
     | q :: _ => is_quote q = true
     end.
Proof.
  induction s as [|c s IH]; simpl.
  - repeat split. intros c [].
  - destruct (is_quote c) eqn:Ec; simpl.
    + repeat split; [intros d [] | exact Ec].
    + destruct (span_value s) as [v r]; simpl in *.
      destruct IH as (E & Hv & Hr). repeat split.
      * now rewrite <- E.
      * intros d [<-|Hd]; [exact Ec | now apply Hv].
      * exact Hr.
Qed.

Lemma span_value_app (v : str) (q : codepoint) (rest : str) :
  quote_free v -> is_quote q = true ->
  span_value (v ++ q :: rest) = (v, q :: rest).
Proof.
  intros Hv Hq. induction v as [|c v IH]; simpl.
  - now rewrite Hq.
  - rewrite (Hv c) by now left.
    rewrite IH; [reflexivity|]. intros d Hd. apply Hv. now right.
Qed.

Lemma starts_with_app (p t : str) : PyStr.starts_with N.eqb p (p ++ t) = true.
Proof. apply (starts_with_iff N.eqb N_eqb_eq). now exists t. Qed.

Lemma skipn_prefix (p t : str) : skipn (length p) (p ++ t) = t.
Proof. now rewrite skipn_app, skipn_all, Nat.sub_diag. Qed.

(** The matcher computes the matches of the pattern. *)
Lemma match_here_iff (prefix s v rest : str) :
  match_here prefix s = Some (v, rest) <-> matches_at prefix s v rest.
Proof.
  split.
  - unfold match_here. intros H.
    destruct (PyStr.starts_with N.eqb prefix s) eqn:Es; [|discriminate].
    apply (starts_with_iff N.eqb N_eqb_eq) in Es. destruct Es as [t ->].
    rewrite skipn_prefix in H.
    destruct t as [|q t]; [discriminate|].
    destruct (is_quote q) eqn:Eq; [|discriminate].
    destruct (span_value_split t) as (E & Hv & Hr).
    destruct (span_value t) as [[|c v'] [|q' r]]; try discriminate.
    simpl in *. rewrite Hr in H. injection H as <- <-.
    exists q, q'. repeat split; try assumption; [discriminate | now rewrite E].
  - intros (q1 & q2 & H1 & H2 & Hne & Hv & ->).
    unfold match_here. rewrite starts_with_app, skipn_prefix, H1.
    rewrite (span_value_app v q2 rest Hv H2), H2.
    destruct v; [contradiction | reflexivity].
Qed.

Lemma match_here_shorter (prefix s v rest : str) :
  match_here prefix s = Some (v, rest) -> (length rest < length s)%nat.
Proof.
  intros H. apply match_here_iff in H.
  destruct H as (q1 & q2 & _ & _ & _ & _ & ->).
  rewrite length_app. simpl. rewrite length_app. simpl. lia.
Qed.

(** Any fuel above the length of the text gives the same scan. *)
Lemma findall_scan_fuel (prefix : str) (fuel1 fuel2 : nat) (s : str) :
  (length s < fuel1)%nat -> (length s < fuel2)%nat ->
  findall_scan prefix fuel1 s = findall_scan prefix fuel2 s.
Proof.
  revert fuel2 s. induction fuel1 as [|fuel1 IH]; intros fuel2 s H1 H2; [lia|].
  destruct fuel2 as [|fuel2]; [lia|]. simpl.
  destruct (match_here prefix s) as [[v rest]|] eqn:E.
  - apply match_here_shorter in E. f_equal. apply IH; lia.
  - destruct s as [|c s]; [reflexivity|]. simpl in *. apply IH; lia.
Qed.

Lemma findall_scan_S (prefix : str) (fuel : nat) (s : str) :
  findall_scan prefix (S fuel) s
  = match match_here prefix s with
    | Some (v, rest) => v :: findall_scan prefix fuel rest
    | None =>
        match s with
        | [] => []
        | _ :: s' => findall_scan prefix fuel s'
        end
    end.
Proof. reflexivity. Qed.

Lemma findall_match (prefix s v rest : str) :
  matches_at prefix s v rest ->
  findall prefix s = v :: findall prefix rest.
Proof.
  intros H. apply match_here_iff in H. unfold findall.
  rewrite findall_scan_S, H.
  f_equal. apply match_here_shorter in H. apply findall_scan_fuel; lia.
Qed.

Lemma findall_skip (prefix : str) (c : codepoint) (s : str) :
  match_here prefix (c :: s) = None ->
  findall prefix (c :: s) = findall prefix s.
Proof.
  intros H. unfold findall. now rewrite findall_scan_S, H.
Qed.

Lemma findall_nil (prefix : str) : findall prefix [] = [].
Proof.
  unfold findall. rewrite findall_scan_S.
  destruct (match_here prefix []) as [[v rest]|] eqn:E; [|reflexivity].
  apply match_here_shorter in E. simpl in E. lia.
Qed.

(** [findall] lists the matches of a left-to-right scan. *)
Lemma findall_scans (prefix : str) (s : str) :
  scan prefix s (findall prefix s).
Proof.
  remember (length s) as n eqn:Hn. revert s Hn.
  induction n as [n IH] using lt_wf_ind. intros s ->.
  destruct (match_here prefix s) as [[v rest]|] eqn:E.
  - pose proof (match_here_shorter _ _ _ _ E) as Hlt.
    apply match_here_iff in E. rewrite (findall_match _ _ _ _ E).
    apply scan_match with rest; [exact E|]. now apply (IH (length rest)).
  - destruct s as [|c s].
    + rewrite findall_nil. constructor.
    + rewrite (findall_skip _ _ _ E). apply scan_skip.
      * intros v rest H. apply match_here_iff in H. congruence.
      * apply (IH (length s)); [simpl; lia | reflexivity].
Qed.

(** The scan has one result only. *)
Lemma scan_functional (prefix s : str) (vs : list str) :
  scan prefix s vs -> vs = findall prefix s.
Proof.
  induction 1 as [|c s vs Hno _ IH|s v rest vs Hm _ IH].
  - now rewrite findall_nil.
  - rewrite findall_skip; [exact IH|].
    destruct (match_here prefix (c :: s)) as [[v rest]|] eqn:E; [|reflexivity].
    apply match_here_iff in E. now apply Hno in E.
  - rewrite (findall_match _ _ _ _ Hm). now f_equal.
Qed.



End RegexFacts.

Lemma str_eqb_eq (a b : str) : str_eqb a b = true <-> a = b.
Proof.
  unfold str_eqb. rewrite andb_true_iff, Nat.eqb_eq.
  rewrite (starts_with_iff N.eqb N_eqb_eq). split.
  - intros [Hl [t ->]]. rewrite length_app in Hl.
    destruct t; [now rewrite app_nil_r|].
    exfalso. unfold str, codepoint in *. simpl in Hl. lia.
  - intros ->. split; [reflexivity | exists []; now rewrite app_nil_r].
Qed.

(** ** Printing the links *)

Module PrintFacts.
Import DecodeEmail DecodeEmailSpec.

Lemma is_ascii_app (a b : str) :
  is_ascii (a ++ b) = is_ascii a && is_ascii b.
Proof. apply forallb_app. Qed.

Lemma is_ascii_digits (d : Decimal.uint) :
  is_ascii (lit (NilEmpty.string_of_uint d)) = true.
Proof.
  unfold is_ascii, lit.
  induction d; simpl; try reflexivity; exact IHd.
Qed.

Lemma is_ascii_str_of_int (i : Z) : is_ascii (str_of_int i) = true.
Proof. apply is_ascii_digits. Qed.

Lemma encodable_ascii (cs : codepoint -> bool) (s : str) :
  is_ascii s = true -> encodable cs s = true.
Proof.
  unfold is_ascii, encodable. rewrite !forallb_forall.
  intros H c Hc. now rewrite (H c Hc).
Qed.

Lemma print_ok (cs : codepoint -> bool) (s : str) (w : world) :
  encodable cs s = true ->
  print cs s w = (Return tt, mkWorld (stdout w ++ [s]) (decoded_html_txt w)).
Proof. intros H. unfold print. now rewrite H. Qed.

Lemma heading_encodable (cs : codepoint -> bool) (label : str) (i : Z) :
  is_ascii label = true ->
  encodable cs (NL ++ label ++ str_of_int i ++ lit ":") = true.
Proof.
  intros H. apply encodable_ascii.
  rewrite !is_ascii_app, H, is_ascii_str_of_int. reflexivity.
Qed.

(** The loop over the links of the decoded HTML prints, for each link in
    the order of the list, its numbered heading and the link itself. *)
Lemma print_links_from (cs : codepoint -> bool) (links : list str)
  (i : Z) (w : world) :
  forallb (encodable cs) links = true ->
  for_each (enumerate links i) (print_link cs) w
  = (Return tt,
     mkWorld (stdout w ++ numbered (lit "Link ") links i)
             (decoded_html_txt w)).
Proof.
  revert i w. induction links as [|link links IH]; intros i w H;
    cbn [enumerate for_each numbered].
  - unfold ret. rewrite app_nil_r. now destruct w.
  - cbn [forallb] in H. apply andb_true_iff in H. destruct H as [Hl Hr].
    unfold print_link at 1.
    unfold bind at 1. unfold bind at 1.
    rewrite print_ok by (apply heading_encodable; reflexivity).
    rewrite print_ok by exact Hl.
    rewrite IH by exact Hr. cbn [stdout decoded_html_txt].
    now rewrite <- !app_assoc.
Qed.

Lemma print_links_ok (cs : codepoint -> bool) (links : list str) (w : world) :
  forallb (encodable cs) links = true ->
  print_links cs links w
  = (Return tt,
     mkWorld (stdout w ++ numbered (lit "Link ") links 1)
             (decoded_html_txt w)).
Proof. apply print_links_from. Qed.

End PrintFacts.

(** ** The links of the decoded HTML *)

Section Links.
Import DecodeEmail DecodeEmailSpec Regex RegexSpec RegexFacts PrintFacts.



(** C4, as amended.  The link list is the result of the left-to-right
    scan for [href=], a quote character of either kind, one or more
    characters none of which is a quote character of either kind, and a
    quote character of either kind; the value extracted ends at the first
    quote character of either kind, so that of a double-quoted value
    holding a single quote only the part before the single quote is
    extracted. *)
Theorem links_are_the_scanned_matches (decoded_html x y rest : str) :
  (forall vs, links_of decoded_html = vs
              <-> scan (lit "href=") decoded_html vs)
  /\ (x <> [] -> quote_free x ->
      links_of (lit "href=" ++ DQUOTE ++ x ++ lit "'" ++ y ++ DQUOTE ++ rest)
      = x :: links_of (y ++ DQUOTE ++ rest)).
Proof.
  split.
  - intros vs. split.
    + intros <-. apply findall_scans.
    + intros H. symmetry. now apply scan_functional.
  - intros Hne Hx. apply findall_match.
    exists 34%N, 39%N. repeat split; try assumption.
Qed.

Lemma links_are_the_scanned_matches_witness :
  links_of (lit "href=" ++ DQUOTE ++ lit "it" ++ lit "'" ++ lit "s"
            ++ DQUOTE ++ lit ">")
  = lit "it" :: links_of (lit "s" ++ DQUOTE ++ lit ">").
Proof.
  apply (proj2 (links_are_the_scanned_matches [] (lit "it") (lit "s") (lit ">"))).
  - discriminate.
  - intros c Hc. simpl in Hc.
    repeat (destruct Hc as [<-|Hc]; [reflexivity|]). contradiction.
Defined.

(** C4 as first stated fails: of the double-quoted value [it's] only [it]
    is extracted, where the claim has the full value; and a value opened
    by a double quote and closed by a single quote is extracted too. *)
Lemma quoted_value_stops_at_other_quote :
  links_of (lit "<a href=" ++ DQUOTE ++ lit "it's" ++ DQUOTE ++ lit ">")
  = [lit "it"]
  /\ links_of (lit "<a href=" ++ DQUOTE ++ lit "it's" ++ DQUOTE ++ lit ">")
     <> [lit "it's"]
  /\ links_of (lit "<a href=" ++ DQUOTE ++ lit "a' b") = [lit "a"].
Proof.
  split; [vm_compute; reflexivity|].
  split; [vm_compute; discriminate | vm_compute; reflexivity].
Qed.



End Links.

(** ** [fix_url.py] *)

Section FixUrlFacts.
Import FixUrl FixUrlSpec.

Lemma occurs_by_search (p s : str) : str_contains p s = true -> occurs p s.
Proof. apply str_contains_iff. Qed.

Lemma absent_by_search (p s : str) : str_contains p s = false -> ~ occurs p s.
Proof. intros H Ho. apply str_contains_iff in Ho. congruence. Qed.

Lemma all_left_alone (gs : list str) :
  forallb (fun g => str_eqb (Html.replace_charref g) (38%N :: g)) gs = true ->
  Forall left_alone gs.
Proof.
  rewrite forallb_forall, Forall_forall. intros H g Hg.
  apply str_eqb_eq. now apply H.
Qed.

Lemma unescape_fixed : Html.unescape fixed = fixed.
Proof. vm_compute. reflexivity. Qed.

Lemma charrefs_of_fixed_left_alone : Forall left_alone (Html.charrefs fixed).
Proof. apply all_left_alone. vm_compute. reflexivity. Qed.

(** C5.  The corrected URL holds the five repaired parameters, no
    [&amp;], no corruption marker, and none of the three characters of
    the marker. *)
Theorem corrected_url_is_repaired :
  occurs (lit "&cc=") fixed
  /\ occurs (lit "&calc=c9a7a55029f30") fixed
  /\ occurs (lit "&unp_tpcid=activation") fixed
  /\ occurs (lit "&xt=145585") fixed
  /\ occurs (lit "&utm_unptid=j03a056") fixed
  /\ ~ occurs (lit "&amp;") fixed
  /\ ~ occurs corruption_marker fixed
  /\ (forall c, In c corruption_marker -> ~ In c fixed).
Proof.
  repeat split;
    try (apply occurs_by_search; vm_compute; reflexivity);
    try (apply absent_by_search; vm_compute; reflexivity).
  intros c Hc Hin.
  assert (H : forallb (fun c => (c <? 128)%N) fixed = true)
    by (vm_compute; reflexivity).
  rewrite forallb_forall in H. specialize (H c Hin).
  apply N.ltb_lt in H. simpl in Hc.
  destruct Hc as [<-|[<-|[<-|[]]]]; lia.
Qed.

(** C9.  The decoded URL holds no [&amp;]; every match of the
    character-reference pattern in it is left as it stands by
    [html.unescape], which therefore returns it unchanged; its percent
    escapes are those of the corrected URL, in the same order, among them
    [%3A], [%2F], [%2C], [%28] and [%29]. *)
Theorem decoded_url_has_no_entity_and_keeps_escapes :
  ~ occurs (lit "&amp;") decoded
  /\ Forall left_alone (Html.charrefs decoded)
  /\ Html.unescape decoded = decoded
  /\ percent_escapes decoded = percent_escapes fixed
  /\ (forall e, In e [lit "%3A"; lit "%2F"; lit "%2C"; lit "%28"; lit "%29"] ->
                In e (percent_escapes fixed) /\ In e (percent_escapes decoded)).
Proof.
  unfold decoded. rewrite !unescape_fixed.
  split; [apply absent_by_search; vm_compute; reflexivity|].
  split; [exact charrefs_of_fixed_left_alone|].
  split; [reflexivity|].
  split; [reflexivity|].
  assert (H : forallb
                (fun e => existsb (str_eqb e) (percent_escapes fixed)
                          && existsb (str_eqb e) (percent_escapes fixed))
                [lit "%3A"; lit "%2F"; lit "%2C"; lit "%28"; lit "%29"] = true)
    by (vm_compute; reflexivity).
  rewrite forallb_forall in H. intros e He. specialize (H e He).
  apply andb_true_iff in H. destruct H as [H1 H2].
  apply existsb_exists in H1, H2.
  destruct H1 as (x1 & Hx1 & E1), H2 as (x2 & Hx2 & E2).
  apply str_eqb_eq in E1, E2. subst x1 x2. now split.
Qed.

(** C10.  [html.unescape] returns the corrected URL unchanged: the two
    URLs the script prints are equal, and every match of the
    character-reference pattern in the corrected URL is left as it
    stands. *)
Theorem unescape_is_identity_on_corrected_url :
  decoded = fixed
  /\ nth_error output 3 = nth_error output 1
  /\ Forall left_alone (Html.charrefs fixed).
Proof.
  split; [exact unescape_fixed|].
  split; [exact (f_equal Some unescape_fixed)|].
  exact charrefs_of_fixed_left_alone.
Qed.

End FixUrlFacts.

(** ** Quoted-printable: encoding, then decoding *)

Module QuopriFacts.
Import Quopri QuopriSpec.

Lemma a2b_lit (c : ascii) (y : bytes) :
  Ascii.eqb c "="%char = false ->
  a2b_qp_loop false (c :: y) = c :: a2b_qp_loop false y.
Proof. intros H. simpl. now rewrite H. Qed.

(** The two digits written for a byte are read back as that byte. *)
Lemma hex_digits_read_back (c : ascii) :
  let h1 := hex_digit (N_of_ascii c / 16) in
  let h2 := hex_digit (N_of_ascii c mod 16) in
  Ascii.eqb h1 LF = false /\ Ascii.eqb h1 CR = false
  /\ Ascii.eqb h1 "="%char = false
  /\ is_hex h1 && is_hex h2 = true
  /\ ascii_of_N (digit_value h1 * 16 + digit_value h2) = c
  /\ Ascii.eqb h2 " "%char = false /\ Ascii.eqb h2 TAB = false
  /\ (N_of_ascii h1 <? 128)%N = true /\ (N_of_ascii h2 <? 128)%N = true.
Proof.
  destruct c as [[] [] [] [] [] [] [] []]; vm_compute; repeat split.
Qed.

Lemma a2b_hex (c : ascii) (y : bytes) :
  a2b_qp_loop false ("="%char :: to_hex c ++ y) = c :: a2b_qp_loop false y.
Proof.
  destruct (hex_digits_read_back c) as (H1 & H2 & H3 & H4 & H5 & _).
  unfold to_hex.
  change (a2b_qp_loop false
            ("="%char :: [hex_digit (N_of_ascii c / 16);
                          hex_digit (N_of_ascii c mod 16)] ++ y))
    with (if Ascii.eqb (hex_digit (N_of_ascii c / 16)) LF
          then a2b_qp_loop false (hex_digit (N_of_ascii c mod 16) :: y)
          else if Ascii.eqb (hex_digit (N_of_ascii c / 16)) CR
          then a2b_qp_loop true (hex_digit (N_of_ascii c mod 16) :: y)
          else if Ascii.eqb (hex_digit (N_of_ascii c / 16)) "="%char
          then "="%char
               :: a2b_qp_loop false (hex_digit (N_of_ascii c mod 16) :: y)
          else if is_hex (hex_digit (N_of_ascii c / 16))
                  && is_hex (hex_digit (N_of_ascii c mod 16))
          then ascii_of_N
                 (digit_value (hex_digit (N_of_ascii c / 16)) * 16
                  + digit_value (hex_digit (N_of_ascii c mod 16)))
               :: a2b_qp_loop false y
          else "="%char
               :: a2b_qp_loop false
                    (hex_digit (N_of_ascii c / 16)
                     :: hex_digit (N_of_ascii c mod 16) :: y)).
  now rewrite H1, H2, H3, H4, H5.
Qed.

Lemma a2b_soft (crlf : bool) (y : bytes) :
  a2b_qp_loop false (rev (soft_break crlf []) ++ y) = a2b_qp_loop false y.
Proof. destruct crlf; reflexivity. Qed.

Lemma soft_break_app (crlf : bool) (rout : bytes) :
  soft_break crlf rout = soft_break crlf [] ++ rout.
Proof. destruct crlf; reflexivity. Qed.

(** Decoding what the encoder wrote gives the bytes it stands for. *)
Lemma wrote_decodes (crlf : bool) (rout rdec : bytes) :
  wrote crlf rout rdec ->
  forall y, a2b_qp_loop false (rev rout ++ y) = rev rdec ++ a2b_qp_loop false y.
Proof.
  induction 1 as [|c rout rdec Hc _ _ IH|c rout rdec _ IH|rout rdec _ IH];
    intros y.
  - reflexivity.
  - simpl. rewrite <- !app_assoc. simpl. now rewrite IH, a2b_lit.
  - rewrite rev_app_distr, rev_involutive. simpl rev.
    rewrite <- !app_assoc. rewrite IH.
    change (["="%char] ++ to_hex c ++ y) with ("="%char :: to_hex c ++ y).
    now rewrite a2b_hex.
  - rewrite soft_break_app, rev_app_distr, <- app_assoc, IH.
    now rewrite a2b_soft.
Qed.

(** What the encoder wrote is ASCII. *)
Lemma wrote_ascii (crlf : bool) (rout rdec : bytes) :
  wrote crlf rout rdec ->
  forallb (fun c => (N_of_ascii c <? 128)%N) rout = true.
Proof.
  induction 1 as [|c rout rdec _ Hc _ IH|c rout rdec _ IH|rout rdec _ IH].
  - reflexivity.
  - simpl. now rewrite Hc, IH.
  - destruct (hex_digits_read_back c) as (_ & _ & _ & _ & _ & _ & _ & H1 & H2).
    simpl. now rewrite H1, H2, IH.
  - destruct crlf; simpl; exact IH.
Qed.

(** Rewriting the white space at the end of a line keeps what the output
    stands for. *)
Lemma wrote_protect_space (crlf : bool) (rout rdec : bytes) :
  wrote crlf rout rdec -> wrote crlf (protect_space rout) rdec.
Proof.
  intros H. unfold protect_space.
  destruct rout as [|ch r]; [exact H|].
  destruct (Ascii.eqb ch " "%char || Ascii.eqb ch TAB) eqn:E; [|exact H].
  inversion H; subst.
  - now apply wrote_hex.
  - exfalso.
    match goal with
    | E : context [hex_digit (N_of_ascii ?c mod 16)] |- _ =>
        destruct (hex_digits_read_back c) as (_ & _ & _ & _ & _ & H6 & H7 & _);
        cbv zeta in H6, H7; rewrite H6, H7 in E; discriminate
    end.
  - exfalso.
    match goal with
    | Hs : soft_break _ _ = _ |- _ =>
        destruct crlf; simpl in Hs; injection Hs as <- _; discriminate
    end.
Qed.

Lemma wrote_line_end (crlf : bool) (rout rdec : bytes) :
  wrote crlf rout rdec ->
  wrote crlf (line_end crlf rout)
             (if crlf then LF :: CR :: rdec else LF :: rdec).
Proof.
  intros H. destruct crlf; simpl; repeat (apply wrote_lit; try reflexivity);
    exact H.
Qed.

Lemma must_quote_not_eol (c : ascii) (s1 : bytes) (linelen : N) :
  Ascii.eqb c LF = true \/ Ascii.eqb c CR = true ->
  must_quote c s1 linelen = false.
Proof.
  intros [H|H]; apply Ascii.eqb_eq in H; subst c; unfold must_quote;
    destruct s1 as [|d s1]; try destruct (linelen =? 0)%N; reflexivity.
Qed.

(** A byte the encoder copies is not [=] and is below 128. *)
Lemma copied_byte (c : ascii) (s1 : bytes) (linelen : N) :
  must_quote c s1 linelen = false ->
  Ascii.eqb c "="%char = false /\ (N_of_ascii c <? 128)%N = true.
Proof.
  unfold must_quote. intros H.
  apply orb_false_iff in H. destruct H as [H _].
  apply orb_false_iff in H. destruct H as [H _].
  apply orb_false_iff in H. destruct H as [H _].
  apply orb_false_iff in H. destruct H as [H1 H2].
  split; [exact H2|].
  apply N.ltb_ge in H1. apply N.ltb_lt. lia.
Qed.

Lemma line_ends_ok_not_lf (crlf p q : bool) (s : bytes) :
  match s with d :: _ => Ascii.eqb LF d = false | [] => True end ->
  line_ends_ok (Ascii.eqb LF) (Ascii.eqb CR) crlf p s
  = line_ends_ok (Ascii.eqb LF) (Ascii.eqb CR) crlf q s.
Proof. destruct s as [|d s]; [reflexivity|]. simpl. now intros ->. Qed.

(** The encoder loop, on an input whose line ends agree with [crlf]:
    its result is an output that stands for what was written before
    followed by the input. *)
Lemma loop_writes (crlf : bool) (n : nat) :
  forall (s rout rdec : bytes) (linelen : N),
    (length s <= n)%nat ->
    wrote crlf rout rdec ->
    line_ends_ok (Ascii.eqb LF) (Ascii.eqb CR) crlf false s = true ->
    exists rout',
      b2a_qp_loop crlf s rout linelen = rev rout'
      /\ wrote crlf rout' (rev s ++ rdec).
Proof.
  induction n as [|n IH]; intros s rout rdec linelen Hn Hw Hok.
  - destruct s; [|simpl in Hn; lia]. exists rout. now split.
  - destruct s as [|c s1]; [exists rout; now split|].
    simpl in Hn. cbn [b2a_qp_loop].
    destruct (must_quote c s1 linelen) eqn:Eq.
    + (* written as =XX *)
      assert (Hc : Ascii.eqb LF c = false /\ Ascii.eqb CR c = false).
      { split; apply not_true_is_false; intros E; apply Ascii.eqb_eq in E;
          subst c.
        - rewrite must_quote_not_eol in Eq by (left; reflexivity).
          discriminate.
        - rewrite must_quote_not_eol in Eq by (right; reflexivity).
          discriminate. }
      destruct Hc as [Hlf Hcr].
      cbn [line_ends_ok] in Hok. rewrite Hlf, Hcr in Hok.
      destruct (IH s1 (rev (to_hex c) ++ "="%char ::
                       (if (MAXLINESIZE <=? linelen + 3)%N
                        then soft_break crlf rout else rout))
                  (c :: rdec)
                  ((if (MAXLINESIZE <=? linelen + 3)%N then 0 else linelen)
                   + 3)%N) as (rout' & E & Hw').
      * lia.
      * apply wrote_hex. destruct (MAXLINESIZE <=? linelen + 3)%N;
          [now apply wrote_soft | exact Hw].
      * exact Hok.
      * exists rout'. split; [exact E|].
        simpl. now rewrite <- app_assoc.
    + destruct (Ascii.eqb c LF) eqn:Elf.
      * (* a bare line feed *)
        apply Ascii.eqb_eq in Elf. subst c.
        cbn [line_ends_ok] in Hok. rewrite Ascii.eqb_refl in Hok.
        apply andb_true_iff in Hok. destruct Hok as [Hcrlf Hok].
        destruct crlf; [discriminate|].
        destruct (IH s1 (line_end false (protect_space rout)) (LF :: rdec) 0%N)
          as (rout' & E & Hw').
        -- lia.
        -- apply (wrote_line_end false). now apply wrote_protect_space.
        -- exact Hok.
        -- exists rout'. split; [exact E|]. simpl. now rewrite <- app_assoc.
      * assert (Hlf : Ascii.eqb LF c = false)
          by (rewrite Ascii.eqb_sym; exact Elf).
        destruct (copied_byte _ _ _ Eq) as [Hne Hlt].
        cbn [line_ends_ok] in Hok. rewrite Hlf in Hok.
        destruct s1 as [|d s2].
        -- (* the last byte, copied *)
           destruct (IH [] (c :: rout) (c :: rdec) (linelen + 1)%N)
             as (rout' & E & Hw'); [simpl; lia | now apply wrote_lit
                                    | reflexivity |].
           exists rout'. split; [exact E|]. exact Hw'.
        -- destruct (Ascii.eqb c CR && Ascii.eqb d LF) eqn:Ecrlf.
           ++ (* a carriage return and a line feed *)
              apply andb_true_iff in Ecrlf. destruct Ecrlf as [Ec Ed].
              apply Ascii.eqb_eq in Ec, Ed. subst c d.
              cbn [line_ends_ok] in Hok.
              rewrite !Ascii.eqb_refl in Hok.
              apply andb_true_iff in Hok. destruct Hok as [Hcrlf Hok].
              destruct crlf; [|discriminate].
              destruct (IH s2 (line_end true (protect_space rout))
                          (LF :: CR :: rdec) 0%N) as (rout' & E & Hw').
              ** simpl in Hn. lia.
              ** apply (wrote_line_end true). now apply wrote_protect_space.
              ** exact Hok.
              ** exists rout'. split; [exact E|].
                 simpl. now rewrite <- !app_assoc.
           ++ (* a byte copied, after a soft line break where the line is
                 full *)
              destruct (IH (d :: s2)
                          (c :: (if negb (Ascii.eqb d LF)
                                    && (MAXLINESIZE <=? linelen + 1)%N
                                 then soft_break crlf rout else rout))
                          (c :: rdec)
                          ((if negb (Ascii.eqb d LF)
                               && (MAXLINESIZE <=? linelen + 1)%N
                            then 0 else linelen) + 1)%N)
                as (rout' & E & Hw').
              ** simpl in *. lia.
              ** apply wrote_lit; try assumption.
                 destruct (negb (Ascii.eqb d LF)
                           && (MAXLINESIZE <=? linelen + 1)%N);
                   [now apply wrote_soft | exact Hw].
              ** destruct (Ascii.eqb CR c) eqn:Ecr; [|exact Hok].
                 rewrite <- Hok. apply line_ends_ok_not_lf.
                 apply Ascii.eqb_eq in Ecr. subst c.
                 rewrite Ascii.eqb_refl in Ecrlf. simpl in Ecrlf.
                 rewrite Ascii.eqb_sym. exact Ecrlf.
              ** exists rout'. split; [exact E|].
                 simpl. now rewrite <- app_assoc.
Qed.

End QuopriFacts.

(** ** UTF-8: encoding, then decoding *)

Module Utf8Facts.
Import Utf8.
Local Open Scope N_scope.

Ltac Zify.zify_post_hook ::= Z.to_euclidean_division_equations.

Lemma byte_value (n : N) : n < 256 -> N_of_ascii (byte_of n) = n.
Proof. apply N_ascii_embedding. Qed.

Lemma decode_1 (b1 : ascii) (t : bytes) :
  (N_of_ascii b1 <? 128) = true ->
  decode (b1 :: t) = option_map (cons (N_of_ascii b1)) (decode t).
Proof. intros H. cbn [decode]. now rewrite H. Qed.

Lemma decode_2 (b1 b2 : ascii) (t : bytes) :
  (N_of_ascii b1 <? 128) = false ->
  in_range 194 223 b1 = true ->
  is_cont b2 = true ->
  decode (b1 :: b2 :: t)
  = option_map (cons ((N_of_ascii b1 - 192) * 64 + cont b2)) (decode t).
Proof. intros H1 H2 H3. cbn [decode]. now rewrite H1, H2, H3. Qed.

Lemma decode_3 (b1 b2 b3 : ascii) (t : bytes) :
  (N_of_ascii b1 <? 128) = false ->
  in_range 194 223 b1 = false ->
  in_range 224 239 b1 = true ->
  in_range (if N_of_ascii b1 =? 224 then 160 else 128)
           (if N_of_ascii b1 =? 237 then 159 else 191) b2 = true ->
  is_cont b3 = true ->
  decode (b1 :: b2 :: b3 :: t)
  = option_map
      (cons ((N_of_ascii b1 - 224) * 4096 + cont b2 * 64 + cont b3))
      (decode t).
Proof.
  intros H1 H2 H3 H4 H5. cbn [decode]. now rewrite H1, H2, H3, H4, H5.
Qed.

Lemma decode_4 (b1 b2 b3 b4 : ascii) (t : bytes) :
  (N_of_ascii b1 <? 128) = false ->
  in_range 194 223 b1 = false ->
  in_range 224 239 b1 = false ->
  in_range 240 244 b1 = true ->
  in_range (if N_of_ascii b1 =? 240 then 144 else 128)
           (if N_of_ascii b1 =? 244 then 143 else 191) b2 = true ->
  is_cont b3 = true ->
  is_cont b4 = true ->
  decode (b1 :: b2 :: b3 :: b4 :: t)
  = option_map
      (cons ((N_of_ascii b1 - 240) * 262144 + cont b2 * 4096
             + cont b3 * 64 + cont b4))
      (decode t).
Proof.
  intros H1 H2 H3 H4 H5 H6 H7. cbn [decode].
  now rewrite H1, H2, H3, H4, H5, H6, H7.
Qed.

Ltac range_tac :=
  unfold in_range, is_cont, cont;
  rewrite ?byte_value by lia;
  repeat match goal with
         | |- context [?a =? ?b] => destruct (N.eqb_spec a b)
         end;
  rewrite ?andb_true_iff, ?andb_false_iff, ?N.leb_le, ?N.leb_gt,
    ?N.ltb_lt, ?N.ltb_ge;
  lia.

(** The encoding of a scalar value is read back as that value; it is one
    byte below 128 for a code point below 128, and a sequence of bytes
    from 128 up otherwise. *)
Lemma encode_char_decodes (c : codepoint) (t : bytes) :
  scalar c = true ->
  exists b,
    encode_char c = Some b
    /\ decode (b ++ t) = option_map (cons c) (decode t)
    /\ b <> []
    /\ ((c < 128 /\ b = [byte_of c])
        \/ (128 <= c /\ forall x, In x b -> 128 <= N_of_ascii x)).
Proof.
  unfold scalar. intros Hs.
  apply andb_true_iff in Hs. destruct Hs as [Hmax Hsur].
  apply N.leb_le in Hmax. apply negb_true_iff in Hsur.
  unfold encode_char.
  destruct (N.ltb_spec c 128) as [H1|H1].
  - exists [byte_of c]. split; [reflexivity|].
    split; [|split; [discriminate | now left]].
    cbn [app]. rewrite decode_1 by range_tac.
    now rewrite byte_value by lia.
  - destruct (N.ltb_spec c 2048) as [H2|H2].
    + eexists. split; [reflexivity|]. split.
      * cbn [app]. rewrite decode_2 by range_tac.
        do 2 f_equal. range_tac.
      * split; [discriminate|].
        right. split; [exact H1|]. intros x [<-|[<-|[]]];
          rewrite byte_value by lia; lia.
    + destruct (N.ltb_spec c 65536) as [H3|H3].
      * rewrite Hsur.
        apply andb_false_iff in Hsur.
        rewrite N.leb_gt in Hsur. rewrite N.leb_gt in Hsur.
        eexists. split; [reflexivity|]. split.
        -- cbn [app]. rewrite decode_3 by range_tac.
           do 2 f_equal. range_tac.
        -- split; [discriminate|].
           right. split; [exact H1|]. intros x [<-|[<-|[<-|[]]]];
             rewrite byte_value by lia; lia.
      * destruct (N.leb_spec c 1114111) as [H4|H4]; [|lia].
        eexists. split; [reflexivity|]. split.
        -- cbn [app]. rewrite decode_4 by range_tac.
           do 2 f_equal. range_tac.
        -- split; [discriminate|].
           right. split; [exact H1|]. intros x [<-|[<-|[<-|[<-|[]]]]];
             rewrite byte_value by lia; lia.
Qed.

Lemma encode_decodes (s : str) :
  forallb scalar s = true ->
  exists b, encode s = Some b /\ decode b = Some s.
Proof.
  induction s as [|c s IH]; intros H.
  - now exists [].
  - cbn [forallb] in H. apply andb_true_iff in H. destruct H as [Hc Hs].
    destruct (IH Hs) as (bs & Hbs & Hd).
    destruct (encode_char_decodes c bs Hc) as (b & Hb & Hdb & _ & _).
    exists (b ++ bs). cbn [encode]. rewrite Hb, Hbs. split; [reflexivity|].
    now rewrite Hdb, Hd.
Qed.

End Utf8Facts.

(** ** The round trip through [quopri] *)

Section RoundTrip.
Import DecodeEmail DecodeEmailSpec Quopri QuopriSpec QuopriFacts Utf8Facts.

(** The flag the encoder computes is the kind of line end of an input
    whose line ends are of one kind. *)
Lemma line_ends_detected (crlf p : bool) (b : bytes) :
  line_ends_ok (Ascii.eqb LF) (Ascii.eqb CR) crlf p b = true -> line_ends_ok (Ascii.eqb LF) (Ascii.eqb CR) (crlf_after p b) p b = true.
Proof.
  revert p. induction b as [|c b IH]; intros p H; [reflexivity|].
  cbn [line_ends_ok crlf_after] in *.
  rewrite (Ascii.eqb_sym c LF), (Ascii.eqb_sym c CR).
  destruct (Ascii.eqb LF c).
  - apply andb_true_iff in H. destruct H as [Hp H].
    apply eqb_prop in Hp. subst crlf.
    now rewrite eqb_reflx, H.
  - now apply IH.
Qed.

Lemma uniform_detected (b : bytes) :
  uniform_line_ends_bytes b = true ->
  line_ends_ok (Ascii.eqb LF) (Ascii.eqb CR) (detect_crlf b) false b = true.
Proof.
  unfold uniform_line_ends_bytes, uniform, detect_crlf. intros H.
  apply orb_true_iff in H. destruct H as [H|H];
    now apply line_ends_detected in H.
Qed.

(** Encoding bytes whose line ends are of one kind, then decoding, gives
    the bytes back; the encoded text is ASCII. *)
Lemma bytes_round_trip (b : bytes) :
  uniform_line_ends_bytes b = true ->
  a2b_qp (b2a_qp b) = b
  /\ forallb (fun c => (N_of_ascii c <? 128)%N) (b2a_qp b) = true.
Proof.
  intros H. apply uniform_detected in H.
  destruct (loop_writes (detect_crlf b) (length b) b [] [] 0%N
              (le_n _) (wrote_nil _) H) as (rout & E & Hw).
  unfold b2a_qp, a2b_qp. rewrite E. split.
  - pose proof (wrote_decodes _ _ _ Hw []) as Hd.
    rewrite !app_nil_r in Hd. rewrite Hd. apply rev_involutive.
  - apply wrote_ascii in Hw. rewrite forallb_forall in *.
    intros c Hc. apply Hw. now apply in_rev.
Qed.

Lemma byte_of_eqb (n c : N) :
  (n < 128)%N -> (c < 128)%N ->
  Ascii.eqb (ascii_of_N n) (Utf8.byte_of c) = N.eqb n c.
Proof.
  intros Hn Hc. unfold Utf8.byte_of.
  destruct (N.eqb_spec n c) as [->|Hne].
  - apply Ascii.eqb_refl.
  - apply Ascii.eqb_neq. intros E. apply Hne.
    rewrite <- (N_ascii_embedding n), <- (N_ascii_embedding c) by lia.
    now rewrite E.
Qed.

Lemma line_ends_after_high_bytes (crlf p : bool) (hi rest : bytes) :
  hi <> [] ->
  (forall x, In x hi -> (128 <= N_of_ascii x)%N) ->
  line_ends_ok (Ascii.eqb LF) (Ascii.eqb CR) crlf p (hi ++ rest) = line_ends_ok (Ascii.eqb LF) (Ascii.eqb CR) crlf false rest.
Proof.
  revert p. induction hi as [|x hi IH]; intros p Hne Hhi; [contradiction|].
  assert (Hx : (128 <= N_of_ascii x)%N) by (apply Hhi; now left).
  assert (Hlf : Ascii.eqb LF x = false).
  { apply Ascii.eqb_neq. intros <-. vm_compute in Hx. now apply Hx. }
  assert (Hcr : Ascii.eqb CR x = false).
  { apply Ascii.eqb_neq. intros <-. vm_compute in Hx. now apply Hx. }
  cbn [app line_ends_ok]. rewrite Hlf, Hcr.
  destruct hi as [|y hi]; [reflexivity|].
  apply IH; [discriminate|]. intros z Hz. apply Hhi. now right.
Qed.

(** UTF-8 keeps the line ends of a text. *)
Lemma line_ends_of_encoding (crlf : bool) (s : str) :
  forall (p : bool) (b : bytes),
    forallb Utf8.scalar s = true ->
    Utf8.encode s = Some b ->
    line_ends_ok (Ascii.eqb LF) (Ascii.eqb CR) crlf p b = line_ends_ok (N.eqb 10) (N.eqb 13) crlf p s.
Proof.
  induction s as [|c s IH]; intros p b Hs Hb.
  - injection Hb as <-. reflexivity.
  - cbn [forallb] in Hs. apply andb_true_iff in Hs. destruct Hs as [Hc Hs].
    cbn [Utf8.encode] in Hb.
    destruct (encode_char_decodes c [] Hc) as (bc & Hbc & _ & Hne & Hkind).
    rewrite Hbc in Hb.
    destruct (Utf8.encode s) as [bs|] eqn:Ebs; [|discriminate].
    injection Hb as <-.
    destruct Hkind as [[Hlt ->]|[Hge Hhi]].
    + cbn [app line_ends_ok].
      unfold LF, CR. rewrite !byte_of_eqb by lia.
      destruct (10 =? c)%N; [f_equal|]; now apply IH.
    + rewrite (line_ends_after_high_bytes crlf p bc bs Hne Hhi).
      cbn [line_ends_ok].
      destruct (N.eqb_spec 10 c) as [<-|_]; [lia|].
      destruct (N.eqb_spec 13 c) as [<-|_]; [lia|].
      now apply IH.
Qed.

Lemma ascii_buffer_of_bytes (b : bytes) :
  forallb (fun c => (N_of_ascii c <? 128)%N) b = true ->
  ascii_buffer (ascii_str b) = Some b.
Proof.
  intros H. unfold ascii_buffer, ascii_str.
  replace (forallb (fun c => (c <? 128)%N) (map N_of_ascii b)) with true.
  - f_equal. rewrite map_map. rewrite <- (map_id b) at 2.
    apply map_ext. intros a. apply ascii_N_embedding.
  - symmetry. rewrite forallb_forall in *. intros n Hn.
    apply in_map_iff in Hn. destruct Hn as (a & <- & Ha). now apply H.
Qed.

(** C8, as amended.  For every text of Unicode scalar values whose line
    ends are all LF or all CR LF, encoding its UTF-8 bytes with
    [quopri.encodestring] and decoding the result with the decode step of
    the script gives the text back. *)
Theorem quoted_printable_round_trip (s : str) (w : world) :
  forallb Utf8.scalar s = true ->
  uniform_line_ends s = true ->
  exists b,
    Utf8.encode s = Some b
    /\ Utf8.decode (decodestring (encodestring b)) = Some s
    /\ decode_html (ascii_str (encodestring b)) w = (Return s, w).
Proof.
  intros Hs Hu.
  destruct (encode_decodes s Hs) as (b & Hb & Hd).
  assert (Hub : uniform_line_ends_bytes b = true).
  { unfold uniform_line_ends_bytes, uniform_line_ends, uniform in *.
    now rewrite !(line_ends_of_encoding _ s _ b Hs Hb). }
  destruct (bytes_round_trip b Hub) as [Hrt Hascii].
  exists b. split; [exact Hb|].
  unfold decodestring, encodestring. rewrite Hrt. split; [exact Hd|].
  unfold decode_html, decodestring_str.
  rewrite (ascii_buffer_of_bytes _ Hascii). cbn [option_map or_raise].
  unfold bind, ret. rewrite Hrt, Hd. reflexivity.
Qed.

Lemma quoted_printable_round_trip_witness :
  exists b,
    Utf8.encode ([233; 8364; 128512]%N ++ lit "a=b" ++ CRLF ++ lit " c ") = Some b
    /\ Utf8.decode (decodestring (encodestring b))
       = Some ([233; 8364; 128512]%N ++ lit "a=b" ++ CRLF ++ lit " c ")
    /\ decode_html (ascii_str (encodestring b)) (mkWorld [] None)
       = (Return ([233; 8364; 128512]%N ++ lit "a=b" ++ CRLF ++ lit " c "),
          mkWorld [] None).
Proof.
  apply (quoted_printable_round_trip
           ([233; 8364; 128512]%N ++ lit "a=b" ++ CRLF ++ lit " c ")
           (mkWorld [] None)); reflexivity.
Defined.

(** C8 as first stated fails: the text LF CR LF, whose line ends are of
    two kinds, comes back as LF LF. *)
Lemma mixed_line_ends_do_not_round_trip :
  Utf8.encode [10; 13; 10]%N = Some [LF; CR; LF]
  /\ encodestring [LF; CR; LF] = [LF; LF]
  /\ decode_html (ascii_str (encodestring [LF; CR; LF])) (mkWorld [] None)
     = (Return [10; 10]%N, mkWorld [] None)
  /\ decode_html (ascii_str (encodestring [LF; CR; LF])) (mkWorld [] None)
     <> (Return [10; 13; 10]%N, mkWorld [] None).
Proof.
  split; [reflexivity|]. split; [reflexivity|].
  split; [reflexivity|]. vm_compute. discriminate.
Qed.

End RoundTrip.

(** ** Decoding a raw link alone and in its context *)

Module RawLinkFacts.
Import Quopri QuopriSpec Utf8 Utf8Facts.
Local Open Scope N_scope.

Lemma hex_is_plain (c : ascii) :
  is_hex c = true ->
  Ascii.eqb c LF = false /\ Ascii.eqb c CR = false
  /\ Ascii.eqb c "="%char = false.
Proof.
  destruct c as [[] [] [] [] [] [] [] []]; vm_compute;
    intros H; try discriminate H; repeat split.
Qed.

(** Text made of complete units is decoded unit by unit: what follows it
    is decoded on its own. *)
Lemma a2b_after_well_formed (n : nat) :
  forall x y : bytes,
    (length x <= n)%nat ->
    well_formed x = true ->
    a2b_qp_loop false (x ++ y) = a2b_qp_loop false x ++ a2b_qp_loop false y.
Proof.
  induction n as [|n IH]; intros x y Hn Hx.
  - destruct x; [reflexivity | simpl in Hn; lia].
  - destruct x as [|c s1]; [reflexivity|].
    cbn [app a2b_qp_loop well_formed] in *.
    destruct (Ascii.eqb c "="%char).
    + destruct s1 as [|c1 s2]; [discriminate|].
      cbn [app] in *.
      destruct (Ascii.eqb c1 LF) eqn:E1.
      * apply IH; [simpl in Hn; lia | exact Hx].
      * destruct s2 as [|c2 s3]; [discriminate|].
        cbn [app] in *.
        destruct (Ascii.eqb c1 CR) eqn:E2.
        -- destruct (Ascii.eqb c2 LF) eqn:E3.
           ++ cbn [andb orb] in Hx. cbn [a2b_qp_loop]. rewrite E3.
              apply IH; [simpl in Hn; lia | exact Hx].
           ++ cbn [andb orb] in Hx.
              destruct (is_hex c1) eqn:Eh; [|discriminate].
              apply hex_is_plain in Eh. destruct Eh as (_ & Eh & _).
              congruence.
        -- cbn [andb orb] in Hx.
           destruct (is_hex c1 && is_hex c2) eqn:Eh; [|discriminate].
           apply andb_true_iff in Eh. destruct Eh as [Eh1 _].
           apply hex_is_plain in Eh1. destruct Eh1 as (_ & _ & Eh1).
           rewrite Eh1. cbn [app]. f_equal.
           apply IH; [simpl in Hn; lia | exact Hx].
    + cbn [app]. f_equal. apply IH; [simpl in Hn; lia | exact Hx].
Qed.





End RawLinkFacts.

Section RawLinks.
Import DecodeEmail DecodeEmailSpec Regex RegexSpec RegexFacts PrintFacts.
Import Quopri QuopriSpec QuopriFacts RawLinkFacts.



Lemma decode_html_inv (html_body decoded_html : str) (w : world) :
  decode_html html_body w = (Return decoded_html, w) ->
  is_ascii html_body = true
  /\ Utf8.decode (a2b_qp (map ascii_of_N html_body)) = Some decoded_html.
Proof.
  unfold decode_html, decodestring_str, ascii_buffer, is_ascii.
  destruct (forallb (fun c => (c <? 128)%N) html_body);
    cbn [option_map or_raise]; unfold bind, ret, raise; [|discriminate].
  destruct (Utf8.decode (a2b_qp (map ascii_of_N html_body)));
    cbn [or_raise]; unfold ret, raise; intros H; [|discriminate].
  injection H as ->. now split.
Qed.





End RawLinks.

(** * Further properties *)

(** ** Where the HTML part and its body end *)

Section PartBounds.
Import DecodeEmail DecodeEmailSpec DecodeEmailFacts.

(** The search returns the place of an occurrence that no other precedes
    from [start] on. *)
Lemma find_first (p s : str) (start k : nat) :
  (start <= k)%nat ->
  occurs_at p s k ->
  (forall j, (start <= j < k)%nat -> ~ occurs_at p s j) ->
  str_find p s (Z.of_nat start) = Z.of_nat k.
Proof.
  intros Hk Hat Hmin.
  assert (Hne : str_find p s (Z.of_nat start) <> -1).
  { intros E. apply (proj1 (find_none_iff p s start) E k Hk Hat). }
  destruct (find_some p s start Hne) as (k' & -> & Hk' & Hat' & Hmin').
  f_equal. destruct (Nat.lt_trichotomy k' k) as [H|[H|H]].
  - exfalso. apply (Hmin k'); [lia | exact Hat'].
  - exact H.
  - exfalso. apply (Hmin' k); [lia | exact Hat].
Qed.

Lemma nothing_before_find (p s : str) (start k : nat) :
  str_find p s (Z.of_nat start) = Z.of_nat k ->
  forall j, (start <= j < k)%nat -> ~ occurs_at p s j.
Proof.
  intros H.
  destruct (find_some p s start) as (k' & Hk & _ & _ & Hmin);
    [rewrite H; lia|].
  rewrite H in Hk. apply Nat2Z.inj in Hk. now subst k'.
Qed.

Lemma occurs_at_here (p pre post : str) :
  occurs_at p (pre ++ p ++ post) (length pre).
Proof. now exists pre, post. Qed.

Lemma slice_middle (pre mid post : str) :
  PyStr.slice (pre ++ mid ++ post) (Z.of_nat (length pre))
    (Z.of_nat (length pre + length mid)) = mid.
Proof.
  rewrite slice_inside.
  - rewrite skipn_app, skipn_all, Nat.sub_diag. cbn [skipn app].
    replace (length pre + length mid - length pre)%nat with (length mid) by lia.
    rewrite firstn_app, firstn_all, Nat.sub_diag. cbn [firstn].
    apply app_nil_r.
  - rewrite !length_app. lia.
Qed.

(** X2.  When the terminal marker follows the part, the extracted part runs
    from the start marker to just before the first terminal marker; any
    boundary in between stays inside it. *)
Theorem part_ends_before_terminal_marker (pre mid post : str) :
  let email_content :=
    pre ++ (html_part_marker ++ mid) ++ terminal_marker ++ post in
  (forall j, (j < length pre)%nat ->
             ~ occurs_at html_part_marker email_content j) ->
  (forall j, (length pre <= j < length pre
                                + length (html_part_marker ++ mid))%nat ->
             ~ occurs_at terminal_marker email_content j) ->
  html_section_of email_content = html_part_marker ++ mid.
Proof.
  intros email_content Hfirst Hterm.
  assert (Hs : html_start_of email_content = Z.of_nat (length pre)).
  { unfold html_start_of. apply (find_first _ _ 0).
    - lia.
    - unfold email_content. rewrite <- app_assoc. apply occurs_at_here.
    - intros j Hj. apply Hfirst. lia. }
  assert (He : html_end_of email_content (Z.of_nat (length pre))
               = Z.of_nat (length pre + length (html_part_marker ++ mid))).
  { unfold html_end_of.
    rewrite (find_first terminal_marker email_content (length pre)
               (length pre + length (html_part_marker ++ mid))).
    - destruct (Z.eqb_spec
                  (Z.of_nat (length pre
                             + length (html_part_marker ++ mid))) (-1));
        [lia | reflexivity].
    - lia.
    - unfold email_content. rewrite app_assoc, <- length_app.
      apply occurs_at_here.
    - exact Hterm. }
  unfold html_section_of. rewrite Hs, He. apply slice_middle.
Qed.

Lemma part_ends_before_terminal_marker_witness :
  html_section_of sample_email
  = html_part_marker ++ NL
    ++ lit "Content-Transfer-Encoding: quoted-printable" ++ NL ++ NL
    ++ lit "<a href=3D" ++ DQUOTE ++ lit "https://example.com/a?x=3D1"
    ++ DQUOTE ++ lit ">a</a>" ++ NL.
Proof.
  apply (part_ends_before_terminal_marker
           (lit "MIME-Version: 1.0" ++ NL)
           (NL ++ lit "Content-Transfer-Encoding: quoted-printable"
            ++ NL ++ NL
            ++ lit "<a href=3D" ++ DQUOTE ++ lit "https://example.com/a?x=3D1"
            ++ DQUOTE ++ lit ">a</a>" ++ NL)
           NL).
  - intros j Hj.
    assert (H : str_find html_part_marker sample_email (Z.of_nat 0)
                = Z.of_nat 18) by (vm_compute; reflexivity).
    destruct (find_some html_part_marker sample_email 0)
      as (k & Hk & _ & _ & Hmin); [rewrite H; discriminate|].
    rewrite H in Hk. apply Nat2Z.inj in Hk. subst k.
    apply Hmin. simpl in Hj. lia.
  - intros j Hj.
    assert (H : str_find terminal_marker sample_email (Z.of_nat 18)
                = Z.of_nat 184) by (vm_compute; reflexivity).
    destruct (find_some terminal_marker sample_email 18)
      as (k & Hk & _ & _ & Hmin); [rewrite H; discriminate|].
    rewrite H in Hk. apply Nat2Z.inj in Hk. subst k.
    apply Hmin. vm_compute in Hj. lia.
Defined.

(** X3.  When no terminal marker follows the part start, the extracted part
    ends just before the first boundary after the start. *)
Theorem part_ends_before_next_boundary (pre mid post : str) :
  let email_content :=
    pre ++ (html_part_marker ++ mid) ++ boundary_marker ++ post in
  (forall j, (j < length pre)%nat ->
             ~ occurs_at html_part_marker email_content j) ->
  (forall j, (length pre <= j)%nat ->
             ~ occurs_at terminal_marker email_content j) ->
  (forall j, (length pre + 1 <= j < length pre
                                    + length (html_part_marker ++ mid))%nat ->
             ~ occurs_at boundary_marker email_content j) ->
  html_section_of email_content = html_part_marker ++ mid.
Proof.
  intros email_content Hfirst Hterm Hbnd.
  assert (Hs : html_start_of email_content = Z.of_nat (length pre)).
  { unfold html_start_of. apply (find_first _ _ 0).
    - lia.
    - unfold email_content. rewrite <- app_assoc. apply occurs_at_here.
    - intros j Hj. apply Hfirst. lia. }
  assert (He : html_end_of email_content (Z.of_nat (length pre))
               = Z.of_nat (length pre + length (html_part_marker ++ mid))).
  { unfold html_end_of.
    rewrite (proj2 (find_none_iff terminal_marker email_content (length pre))
               Hterm).
    simpl (-1 =? -1). cbv iota.
    replace (Z.of_nat (length pre) + 1) with (Z.of_nat (length pre + 1))
      by lia.
    apply find_first.
    - rewrite length_app. simpl. lia.
    - unfold email_content. rewrite app_assoc, <- length_app.
      apply occurs_at_here.
    - exact Hbnd. }
  unfold html_section_of. rewrite Hs, He. apply slice_middle.
Qed.

Lemma part_ends_before_next_boundary_witness :
  html_section_of
    (lit "To: a@b" ++ NL
     ++ (html_part_marker ++ NL ++ NL ++ lit "<p>Hi</p>")
     ++ boundary_marker ++ NL ++ lit "Content-Type: image/png")
  = html_part_marker ++ NL ++ NL ++ lit "<p>Hi</p>".
Proof.
  apply (part_ends_before_next_boundary
           (lit "To: a@b" ++ NL) (NL ++ NL ++ lit "<p>Hi</p>")
           (NL ++ lit "Content-Type: image/png")).
  - intros j Hj. apply (nothing_before_find html_part_marker _ 0 8).
    + vm_compute. reflexivity.
    + vm_compute in Hj. lia.
  - intros j Hj. apply (proj1 (find_none_iff terminal_marker _ 8)).
    + vm_compute. reflexivity.
    + vm_compute in Hj. lia.
  - intros j Hj. apply (nothing_before_find boundary_marker _ 9 93).
    + vm_compute. reflexivity.
    + vm_compute in Hj. lia.
Defined.

(** X4.  When the part holds a bare double line feed, the body is the text
    after the first one, also when the sequence CR LF CR LF comes
    earlier in the part. *)
Theorem body_follows_first_blank_line (headers body : str) :
  (forall j, (j < length headers)%nat ->
             ~ occurs_at (NL ++ NL) (headers ++ (NL ++ NL) ++ body) j) ->
  html_body_of (headers ++ (NL ++ NL) ++ body) = body.
Proof.
  intros Hfirst. unfold html_body_of, body_start_of.
  rewrite (find_first (NL ++ NL) _ 0 (length headers)).
  - destruct (Z.eqb_spec (Z.of_nat (length headers)) (-1)) as [?|_]; [lia|].
    destruct (Z.eqb_spec (Z.of_nat (length headers)) (-1)) as [?|_]; [lia|].
    replace (Z.of_nat (length headers) + 2)
      with (Z.of_nat (2 + length headers)) by lia.
    rewrite slice_from_inside, <- (skipn_skipn 2 (length headers)).
    now rewrite skipn_app, skipn_all, Nat.sub_diag.
  - lia.
  - apply occurs_at_here.
  - intros j Hj. apply Hfirst. lia.
Qed.

Lemma body_follows_first_blank_line_witness :
  html_body_of
    ((lit "Content-Type: text/html;" ++ CRLF ++ CRLF ++ lit "X-Note: y")
     ++ (NL ++ NL) ++ lit "<p>Hi</p>")
  = lit "<p>Hi</p>".
Proof.
  apply (body_follows_first_blank_line
           (lit "Content-Type: text/html;" ++ CRLF ++ CRLF ++ lit "X-Note: y")
           (lit "<p>Hi</p>")).
  intros j Hj. apply (nothing_before_find (NL ++ NL) _ 0 37).
  - vm_compute. reflexivity.
  - vm_compute in Hj. lia.
Defined.

(** X5.  When the part holds neither separator, the whole part, its first line
    included, is taken as the body. *)
Theorem body_is_whole_part_without_separator (html_section : str) :
  (forall j, ~ occurs_at (NL ++ NL) html_section j) ->
  (forall j, ~ occurs_at (CRLF ++ CRLF) html_section j) ->
  html_body_of html_section = html_section.
Proof.
  intros Hnl Hcrlf. unfold html_body_of, body_start_of.
  rewrite (proj2 (find_none_iff (NL ++ NL) _ 0)) by (intros k _; apply Hnl).
  simpl (-1 =? -1). cbv iota.
  change [13; 10; 13; 10]%N with (CRLF ++ CRLF).
  rewrite (proj2 (find_none_iff (CRLF ++ CRLF) _ 0))
    by (intros k _; apply Hcrlf).
  change (if -1 =? -1 then 0 else -1 + 2) with (Z.of_nat 0).
  apply (slice_from_inside html_section 0).
Qed.

Lemma body_is_whole_part_without_separator_witness :
  html_body_of (html_part_marker ++ NL ++ lit "<p>Hi</p>")
  = html_part_marker ++ NL ++ lit "<p>Hi</p>".
Proof.
  apply body_is_whole_part_without_separator; intros j;
    apply (proj1 (find_none_iff _ _ 0)); try lia; vm_compute; reflexivity.
Defined.

Lemma slice_is_part (s : str) (a b : Z) :
  exists pre post, s = pre ++ PyStr.slice s a b ++ post.
Proof.
  unfold PyStr.slice.
  set (m := Z.to_nat (PyStr.clip (Z.of_nat (length s)) a)).
  set (n := Z.to_nat (PyStr.clip (Z.of_nat (length s)) b
                      - PyStr.clip (Z.of_nat (length s)) a)).
  exists (firstn m s), (skipn n (skipn m s)).
  now rewrite (firstn_skipn n), (firstn_skipn m).
Qed.

(** X6.  The text handed to the decoder is never made up: the part is a
    contiguous piece of the text of the file, and the body is the part
    without some of its beginning. *)
Theorem body_is_a_piece_of_the_file (email_content : str) :
  exists before skipped after,
    email_content = before ++ html_section_of email_content ++ after
    /\ html_section_of email_content
       = skipped ++ html_body_of (html_section_of email_content).
Proof.
  destruct (slice_is_part email_content (html_start_of email_content)
              (html_end_of email_content (html_start_of email_content)))
    as (before & after & E).
  exists before,
    (firstn (Z.to_nat
               (PyStr.clip
                  (Z.of_nat (length (html_section_of email_content)))
                  (body_start_of (html_section_of email_content))))
       (html_section_of email_content)),
    after.
  split; [exact E|].
  unfold html_body_of, PyStr.slice_from. now rewrite firstn_skipn.
Qed.

(** X1.  [s.find(p, start)] with a start that is not negative gives [-1]
    when [p] does not occur from [start] on, and otherwise the position of
    the first occurrence from [start] on. *)
Theorem find_gives_first_occurrence (p s : str) (start : nat) :
  (str_find p s (Z.of_nat start) = -1
   /\ forall k, (start <= k)%nat -> ~ occurs_at p s k)
  \/ (exists k, str_find p s (Z.of_nat start) = Z.of_nat k
                /\ (start <= k)%nat
                /\ occurs_at p s k
                /\ forall j, (start <= j < k)%nat -> ~ occurs_at p s j).
Proof. apply (find_spec N.eqb N_eqb_eq). Qed.

End PartBounds.

(** ** What the link lists can hold *)

Section LinkValues.
Import DecodeEmail DecodeEmailSpec Regex RegexSpec RegexFacts.

Lemma scanned_value_is_quoted (prefix s v : str) (vs : list str) :
  scan prefix s vs ->
  In v vs ->
  exists pre q1 q2 post,
    s = pre ++ href prefix q1 v q2 ++ post
    /\ is_quote q1 = true /\ is_quote q2 = true
    /\ v <> [] /\ quote_free v.
Proof.
  induction 1 as [|c s vs _ _ IH|s v' rest vs Hm _ IH]; intros Hin.
  - destruct Hin.
  - destruct (IH Hin) as (pre & q1 & q2 & post & -> & H).
    now exists (c :: pre), q1, q2, post.
  - destruct Hin as [->|Hin].
    + destruct Hm as (q1 & q2 & H1 & H2 & Hne & Hv & ->).
      exists [], q1, q2, rest. unfold href. cbn [app].
      repeat split; try assumption.
      repeat (rewrite <- app_assoc || rewrite <- app_comm_cons). reflexivity.
    + destruct (IH Hin) as (pre & q1 & q2 & post & -> & H).
      destruct Hm as (p1 & p2 & _ & _ & _ & _ & ->).
      exists (prefix ++ p1 :: v' ++ p2 :: pre), q1, q2, post.
      split; [|exact H].
      repeat (rewrite <- app_assoc || rewrite <- app_comm_cons). reflexivity.
Qed.

Lemma found_value_is_quoted (prefix s v : str) :
  In v (findall prefix s) ->
  exists pre q1 q2 post,
    s = pre ++ href prefix q1 v q2 ++ post
    /\ is_quote q1 = true /\ is_quote q2 = true
    /\ v <> [] /\ quote_free v.
Proof. apply scanned_value_is_quoted, findall_scans. Qed.

(** X17.  Every entry of either link list is a value that stands in the scanned
    text between two quote characters, right after the literal prefix of
    the pattern; it is never empty and never holds a quote character. *)
Theorem every_link_is_a_quoted_value (prefix s v : str) :
  In v (findall prefix s) ->
  exists pre q1 q2 post,
    s = pre ++ href prefix q1 v q2 ++ post
    /\ is_quote q1 = true /\ is_quote q2 = true
    /\ v <> [] /\ quote_free v.
Proof. apply found_value_is_quoted. Qed.

Lemma every_link_is_a_quoted_value_witness :
  exists pre q1 q2 post,
    lit "<a href='x'>" = pre ++ href (lit "href=") q1 (lit "x") q2 ++ post
    /\ is_quote q1 = true /\ is_quote q2 = true
    /\ lit "x" <> [] /\ quote_free (lit "x").
Proof.
  apply (every_link_is_a_quoted_value (lit "href=") (lit "<a href='x'>")).
  vm_compute. now left.
Defined.

(** X18.  A text in which the literal prefix of the pattern does not occur
    gives an empty link list. *)
Theorem no_prefix_no_links (prefix s : str) :
  ~ occurs prefix s -> findall prefix s = [].
Proof.
  intros Hno. destruct (findall prefix s) as [|v vs] eqn:E; [reflexivity|].
  exfalso. apply Hno.
  destruct (found_value_is_quoted prefix s v)
    as (pre & q1 & q2 & post & -> & _).
  - rewrite E. now left.
  - exists pre, (q1 :: v ++ [q2] ++ post). unfold href.
    repeat (rewrite <- app_assoc || rewrite <- app_comm_cons). reflexivity.
Qed.

Lemma no_prefix_no_links_witness :
  findall (lit "href=3D") (lit "<a href='x'>") = [].
Proof.
  apply no_prefix_no_links. intros H. apply str_contains_iff in H.
  vm_compute in H. discriminate.
Defined.

(** The characters of a link are characters of the scanned text. *)
Lemma link_chars (prefix s v : str) (c : codepoint) :
  In v (findall prefix s) -> In c v -> In c s.
Proof.
  intros Hv Hc.
  destruct (found_value_is_quoted prefix s v Hv)
    as (pre & q1 & q2 & post & -> & _).
  unfold href. apply in_or_app; right. apply in_or_app; left.
  apply in_or_app; right. right. apply in_or_app. now left.
Qed.

End LinkValues.

(** ** The quoted-printable decoder *)

Section DecoderFacts.
Import Quopri QuopriSpec QuopriFacts RawLinkFacts.

Lemma plain_text_unchanged (s : bytes) :
  (forall c, In c s -> Ascii.eqb c "="%char = false) ->
  a2b_qp_loop false s = s.
Proof.
  induction s as [|c s IH]; intros H; [reflexivity|].
  rewrite a2b_lit by (apply H; now left).
  f_equal. apply IH. intros d Hd. apply H. now right.
Qed.

(** X7.  Text without an equals sign is decoded to itself. *)
Theorem decoding_keeps_text_without_equals (s : bytes) :
  (forall c, In c s -> c <> "="%char) ->
  decodestring s = s.
Proof.
  intros H. apply plain_text_unchanged.
  intros c Hc. apply Ascii.eqb_neq. now apply H.
Qed.

Lemma decoding_keeps_text_without_equals_witness :
  decodestring (map ascii_of_N (lit "https://example.com/a"))
  = map ascii_of_N (lit "https://example.com/a").
Proof.
  apply decoding_keeps_text_without_equals.
  intros c Hc E. subst c. simpl in Hc.
  repeat (destruct Hc as [Hc|Hc]; [discriminate Hc|]). contradiction.
Defined.

Lemma loop_never_lengthens (n : nat) :
  forall (skipping : bool) (s : bytes),
    (length s <= n)%nat ->
    (length (a2b_qp_loop skipping s) <= length s)%nat.
Proof.
  induction n as [|n IH]; intros skipping s Hn.
  - destruct s; [destruct skipping; simpl; lia | simpl in Hn; lia].
  - destruct s as [|c s1]; [destruct skipping; simpl; lia|].
    simpl in Hn. cbn [a2b_qp_loop].
    destruct skipping.
    { destruct (Ascii.eqb c LF);
        [specialize (IH false s1) | specialize (IH true s1)];
        simpl; lia. }
    destruct (Ascii.eqb c "="%char).
    2:{ specialize (IH false s1). simpl. lia. }
    destruct s1 as [|c1 s2]; [simpl; lia|]. simpl in Hn.
    destruct (Ascii.eqb c1 LF).
    { specialize (IH false s2). simpl. lia. }
    destruct (Ascii.eqb c1 CR).
    { specialize (IH true s2). simpl. lia. }
    destruct (Ascii.eqb c1 "="%char).
    { specialize (IH false s2). simpl. lia. }
    destruct s2 as [|c2 s3].
    + specialize (IH false [c1]). simpl in *. lia.
    + destruct (is_hex c1 && is_hex c2).
      * specialize (IH false s3). simpl in *. lia.
      * specialize (IH false (c1 :: c2 :: s3)). simpl in *. lia.
Qed.

(** X8.  The decoded text is never longer than the encoded text. *)
Theorem decoding_never_lengthens (s : bytes) :
  (length (decodestring s) <= length s)%nat.
Proof. apply (loop_never_lengthens (length s)). lia. Qed.

(** X9.  Text in which every equals sign opens a complete unit is decoded unit
    by unit: decoding it followed by any text gives its decoding followed
    by the decoding of that text, and a soft line break between the two,
    LF or CR LF, leaves no trace. *)
Theorem well_formed_text_decodes_piecewise (x y : bytes) :
  well_formed x = true ->
  decodestring (x ++ y) = decodestring x ++ decodestring y
  /\ decodestring (x ++ "="%char :: LF :: y)
     = decodestring x ++ decodestring y
  /\ decodestring (x ++ "="%char :: CR :: LF :: y)
     = decodestring x ++ decodestring y.
Proof.
  intros H. unfold decodestring, a2b_qp.
  rewrite !(a2b_after_well_formed (length x) x _ (le_n _) H).
  repeat split; reflexivity.
Qed.

Lemma well_formed_text_decodes_piecewise_witness :
  decodestring (map ascii_of_N (lit "a=3Db") ++ map ascii_of_N (lit "=C3=A9"))
  = decodestring (map ascii_of_N (lit "a=3Db"))
    ++ decodestring (map ascii_of_N (lit "=C3=A9"))
  /\ decodestring (map ascii_of_N (lit "a=3Db")
                   ++ "="%char :: LF :: map ascii_of_N (lit "=C3=A9"))
     = decodestring (map ascii_of_N (lit "a=3Db"))
       ++ decodestring (map ascii_of_N (lit "=C3=A9"))
  /\ decodestring (map ascii_of_N (lit "a=3Db")
                   ++ "="%char :: CR :: LF :: map ascii_of_N (lit "=C3=A9"))
     = decodestring (map ascii_of_N (lit "a=3Db"))
       ++ decodestring (map ascii_of_N (lit "=C3=A9")).
Proof.
  apply well_formed_text_decodes_piecewise. reflexivity.
Defined.

End DecoderFacts.

(** ** UTF-8: decoding, then encoding *)

Section Utf8Canonical.
Import Utf8 Utf8Facts.
Local Open Scope N_scope.

Ltac Zify.zify_post_hook ::= Z.to_euclidean_division_equations.

Lemma in_range_bounds (lo hi : N) (b : ascii) :
  in_range lo hi b = true -> lo <= N_of_ascii b <= hi.
Proof.
  unfold in_range. intros H. apply andb_true_iff in H.
  destruct H as [H1 H2]. apply N.leb_le in H1, H2. lia.
Qed.

Lemma is_cont_bounds (b : ascii) :
  is_cont b = true -> 128 <= N_of_ascii b <= 191.
Proof. apply (in_range_bounds 128 191). Qed.

Ltac encode_tests :=
  unfold encode_char, scalar;
  repeat match goal with
         | |- context [?a <? ?b] => destruct (N.ltb_spec a b); try lia
         | |- context [?a <=? ?b] => destruct (N.leb_spec a b); try lia
         end;
  cbn [andb negb]; (split; [|reflexivity]);
  repeat f_equal; lia.

Lemma encode_one (n1 : N) :
  n1 < 128 ->
  encode_char n1 = Some [byte_of n1] /\ scalar n1 = true.
Proof. intros H1. encode_tests. Qed.

Lemma encode_two (n1 n2 : N) :
  194 <= n1 <= 223 -> 128 <= n2 <= 191 ->
  encode_char ((n1 - 192) * 64 + (n2 - 128)) = Some [byte_of n1; byte_of n2]
  /\ scalar ((n1 - 192) * 64 + (n2 - 128)) = true.
Proof. intros H1 H2. encode_tests. Qed.

Lemma encode_three (n1 n2 n3 : N) :
  224 <= n1 <= 239 ->
  (if n1 =? 224 then 160 else 128) <= n2
  <= (if n1 =? 237 then 159 else 191) ->
  128 <= n3 <= 191 ->
  encode_char ((n1 - 224) * 4096 + (n2 - 128) * 64 + (n3 - 128))
  = Some [byte_of n1; byte_of n2; byte_of n3]
  /\ scalar ((n1 - 224) * 4096 + (n2 - 128) * 64 + (n3 - 128)) = true.
Proof.
  intros H1 H2 H3.
  destruct (N.eqb_spec n1 224); destruct (N.eqb_spec n1 237); encode_tests.
Qed.

Lemma encode_four (n1 n2 n3 n4 : N) :
  240 <= n1 <= 244 ->
  (if n1 =? 240 then 144 else 128) <= n2
  <= (if n1 =? 244 then 143 else 191) ->
  128 <= n3 <= 191 -> 128 <= n4 <= 191 ->
  encode_char ((n1 - 240) * 262144 + (n2 - 128) * 4096
               + (n3 - 128) * 64 + (n4 - 128))
  = Some [byte_of n1; byte_of n2; byte_of n3; byte_of n4]
  /\ scalar ((n1 - 240) * 262144 + (n2 - 128) * 4096
             + (n3 - 128) * 64 + (n4 - 128)) = true.
Proof.
  intros H1 H2 H3 H4.
  destruct (N.eqb_spec n1 240); destruct (N.eqb_spec n1 244); encode_tests.
Qed.

Lemma byte_back (b : ascii) : byte_of (N_of_ascii b) = b.
Proof. apply ascii_N_embedding. Qed.

Lemma decode_canonical (n : nat) :
  forall (b : bytes) (s : str),
    (length b <= n)%nat ->
    decode b = Some s ->
    encode s = Some b /\ forallb scalar s = true.
Proof.
  induction n as [|n IH]; intros b s Hn H.
  - destruct b; [|simpl in Hn; lia]. injection H as <-. now split.
  - destruct b as [|b1 t1]; [injection H as <-; now split|].
    simpl in Hn. cbn [decode] in H.
    destruct (N_of_ascii b1 <? 128) eqn:E1.
    { destruct (decode t1) as [s'|] eqn:Ed; [|discriminate].
      injection H as <-.
      destruct (IH t1 s' ltac:(lia) Ed) as [He Hs].
      apply N.ltb_lt in E1.
      destruct (encode_one _ E1) as [Hc Hsc].
      cbn [encode forallb].
      rewrite Hc, Hsc, He, Hs, !byte_back. now split. }
    destruct (in_range 194 223 b1) eqn:E2.
    { destruct t1 as [|b2 t2]; [discriminate|].
      destruct (is_cont b2) eqn:E3; [|discriminate].
      destruct (decode t2) as [s'|] eqn:Ed; [|discriminate].
      injection H as <-. simpl in Hn.
      destruct (IH t2 s' ltac:(lia) Ed) as [He Hs].
      destruct (encode_two _ _ (in_range_bounds _ _ _ E2)
                  (is_cont_bounds _ E3)) as [Hc Hsc].
      unfold cont. cbn [encode forallb].
      rewrite Hc, Hsc, He, Hs, !byte_back. now split. }
    destruct (in_range 224 239 b1) eqn:E3.
    { destruct t1 as [|b2 [|b3 t3]]; try discriminate.
      destruct (in_range _ _ b2) eqn:E4; [|discriminate].
      destruct (is_cont b3) eqn:E5; [|discriminate].
      cbn [andb] in H.
      destruct (decode t3) as [s'|] eqn:Ed; [|discriminate].
      injection H as <-. simpl in Hn.
      destruct (IH t3 s' ltac:(lia) Ed) as [He Hs].
      destruct (encode_three _ _ _ (in_range_bounds _ _ _ E3)
                  (in_range_bounds _ _ _ E4) (is_cont_bounds _ E5))
        as [Hc Hsc].
      unfold cont. cbn [encode forallb].
      rewrite Hc, Hsc, He, Hs, !byte_back. now split. }
    destruct (in_range 240 244 b1) eqn:E4; [|discriminate].
    destruct t1 as [|b2 [|b3 [|b4 t4]]]; try discriminate.
    destruct (in_range _ _ b2) eqn:E5; [|discriminate].
    destruct (is_cont b3) eqn:E6; [|discriminate].
    destruct (is_cont b4) eqn:E7; [|discriminate].
    cbn [andb] in H.
    destruct (decode t4) as [s'|] eqn:Ed; [|discriminate].
    injection H as <-. simpl in Hn.
    destruct (IH t4 s' ltac:(lia) Ed) as [He Hs].
    destruct (encode_four _ _ _ _ (in_range_bounds _ _ _ E4)
                (in_range_bounds _ _ _ E5) (is_cont_bounds _ E6)
                (is_cont_bounds _ E7)) as [Hc Hsc].
    unfold cont. cbn [encode forallb].
    rewrite Hc, Hsc, He, Hs, !byte_back. now split.
Qed.

Lemma decoded_text_encodes (b : bytes) (s : str) :
  decode b = Some s -> encode s = Some b /\ forallb scalar s = true.
Proof. apply (decode_canonical (length b)). lia. Qed.

(** X10.  Bytes that decode have one reading only: the decoded text holds
    Unicode scalar values and nothing else, and encoding it gives the
    same bytes back, so no overlong form, surrogate or value above
    U+10FFFF is accepted. *)
Theorem utf8_decoding_is_canonical (b : bytes) (s : str) :
  decode b = Some s -> encode s = Some b /\ forallb scalar s = true.
Proof. apply decoded_text_encodes. Qed.

Lemma utf8_decoding_is_canonical_witness :
  encode [104; 233; 8364; 128512]
  = Some (map ascii_of_N [104; 195; 169; 226; 130; 172; 240; 159; 152; 128])
  /\ forallb scalar [104; 233; 8364; 128512] = true.
Proof.
  apply utf8_decoding_is_canonical. reflexivity.
Defined.

End Utf8Canonical.

(** ** What a run prints, writes and raises *)

Module RunFacts.
Import DecodeEmail DecodeEmailSpec DecodeEmailOutput DecodeEmailFacts.
Import PrintFacts Regex.

Lemma bind_return {A B} (m : M A) (k : A -> M B) (w w' : world) (a : A) :
  m w = (Return a, w') -> bind m k w = k a w'.
Proof. intros H. unfold bind. now rewrite H. Qed.

Lemma bind_raise {A B} (m : M A) (k : A -> M B) (w w' : world) (e : exn) :
  m w = (Raise e, w') -> bind m k w = (Raise e, w').
Proof. intros H. unfold bind. now rewrite H. Qed.

Lemma print_fails (cs : codepoint -> bool) (s : str) (w : world) :
  encodable cs s = false -> print cs s w = (Raise UnicodeEncodeError, w).
Proof. intros H. unfold print. now rewrite H. Qed.

Lemma try_returns (body handler : M unit) (w w' : world) :
  body w = (Return tt, w') -> try_except_encode body handler w = (Return tt, w').
Proof. intros H. unfold try_except_encode. now rewrite H. Qed.

Lemma try_caught (body handler : M unit) (w w' : world) :
  body w = (Raise UnicodeEncodeError, w') ->
  try_except_encode body handler w = handler w'.
Proof. intros H. unfold try_except_encode. now rewrite H. Qed.

(** The decode step touches neither the output nor the file. *)
Lemma decode_html_world (html_body : str) (w : world) :
  snd (decode_html html_body w) = w.
Proof.
  unfold decode_html, bind.
  destruct (Quopri.decodestring_str html_body) as [b|]; cbn [or_raise];
    [|reflexivity].
  unfold ret. destruct (Utf8.decode b); reflexivity.
Qed.

(** Its result does not depend on them. *)
Lemma decode_html_result (html_body : str) (w w' : world) :
  fst (decode_html html_body w) = fst (decode_html html_body w').
Proof.
  unfold decode_html, bind.
  destruct (Quopri.decodestring_str html_body) as [b|]; cbn [or_raise];
    [|reflexivity].
  unfold ret. destruct (Utf8.decode b); reflexivity.
Qed.

Lemma decode_html_at (html_body : str) (r : result str) (w0 w0' w : world) :
  decode_html html_body w0 = (r, w0') -> decode_html html_body w = (r, w).
Proof.
  intros H.
  rewrite (surjective_pairing (decode_html html_body w)).
  rewrite decode_html_world, (decode_html_result html_body w w0), H.
  reflexivity.
Qed.

(** The script, past the search for the start marker. *)
Lemma main_found_unfold (cs : codepoint -> bool) (email_content : str)
  (w : world) :
  occurs html_part_marker email_content ->
  main cs email_content w
  = bind (decode_html (html_body_of (html_section_of email_content)))
      (fun decoded_html =>
         print cs rule ;;
         print cs (lit "DECODED HTML CONTENT:") ;;
         print cs rule ;;
         try_except_encode
           (print cs decoded_html)
           (write_decoded_html_txt decoded_html ;; print cs file_notice) ;;
         print cs (NL ++ rule) ;;
         print cs (lit "EXTRACTED LINKS:") ;;
         print cs rule ;;
         print_links cs (links_of decoded_html) ;;
         print cs (NL ++ rule) ;;
         print cs (lit "RAW QUOTED-PRINTABLE LINKS (before decoding):") ;;
         print cs rule ;;
         print_raw_links cs
           (raw_links_of (html_body_of (html_section_of email_content)))) w.
Proof.
  intros Hocc. apply occurs_find in Hocc. apply Z.eqb_neq in Hocc.
  unfold main. fold (html_start_of email_content) in Hocc. rewrite Hocc.
  reflexivity.
Qed.

(** X11.  A failure of the decode step ends the run before anything is printed:
    a body with a character outside ASCII ([ValueError]) or decoded bytes
    that are not UTF-8 ([UnicodeDecodeError]) leave the output empty and
    the file unwritten. *)
Theorem decode_failure_prints_nothing
  (cs : codepoint -> bool) (email_content : str) (e : exn) (w w' : world) :
  occurs html_part_marker email_content ->
  decode_html (html_body_of (html_section_of email_content)) w = (Raise e, w') ->
  run cs email_content = (Raise e, mkWorld [] None).
Proof.
  intros Hocc Hd. unfold run. rewrite (main_found_unfold cs _ _ Hocc).
  apply bind_raise. exact (decode_html_at _ _ _ _ _ Hd).
Qed.

Lemma decode_failure_prints_nothing_witness :
  run (fun _ => true)
    (html_part_marker ++ NL ++ NL ++ lit "caf" ++ [233%N] ++ terminal_marker)
  = (Raise ValueError, mkWorld [] None)
  /\ run (fun _ => true)
       (html_part_marker ++ NL ++ NL ++ lit "caf=E9" ++ terminal_marker)
     = (Raise UnicodeDecodeError, mkWorld [] None).
Proof.
  split.
  - apply (decode_failure_prints_nothing _ _ ValueError
             (mkWorld [] None) (mkWorld [] None)).
    + apply occurs_find. vm_compute. discriminate.
    + vm_compute. reflexivity.
  - apply (decode_failure_prints_nothing _ _ UnicodeDecodeError
             (mkWorld [] None) (mkWorld [] None)).
    + apply occurs_find. vm_compute. discriminate.
    + vm_compute. reflexivity.
Defined.

Lemma decode_link_of_raw (link d : str) (w : world) :
  raw_decoding link = Some d -> decode_link link w = (Return d, w).
Proof.
  unfold raw_decoding, decode_link. intros H.
  destruct (Utf8.encode link) as [b|]; [|discriminate].
  cbn [or_raise]. unfold bind, ret. now rewrite H.
Qed.

(** The loop over the raw links prints, for each link in the order of the
    list, its numbered heading, the link and its decoding. *)
Lemma print_raw_links_from (cs : codepoint -> bool)
  (links : list (str * str)) (i : Z) (w : world) :
  Forall (fun ld => encodable cs (fst ld) = true
                    /\ raw_decoding (fst ld) = Some (snd ld)
                    /\ encodable cs (snd ld) = true) links ->
  for_each (enumerate (map fst links) i) (print_raw_link cs) w
  = (Return tt,
     mkWorld (stdout w ++ raw_lines links i) (decoded_html_txt w)).
Proof.
  revert i w. induction links as [|[link d] links IH]; intros i w H;
    cbn [map enumerate for_each raw_lines].
  - unfold ret. rewrite app_nil_r. now destruct w.
  - inversion H as [|ld lds (Hl & Hd & He) Hrest]; subst.
    cbn [fst snd] in *.
    unfold print_raw_link at 1.
    erewrite bind_return.
    2:{ erewrite bind_return
          by (apply print_ok, heading_encodable; reflexivity).
        erewrite bind_return by (apply print_ok; exact Hl).
        erewrite bind_return by (apply decode_link_of_raw; exact Hd).
        apply print_ok. unfold encodable in *. rewrite forallb_app.
        apply andb_true_iff. split; [reflexivity | exact He]. }
    rewrite IH by exact Hrest. cbn [stdout decoded_html_txt].
    now rewrite <- !app_assoc.
Qed.

Lemma links_encodable (cs : codepoint -> bool) (prefix s : str) :
  encodable cs s = true ->
  forallb (encodable cs) (findall prefix s) = true.
Proof.
  intros H. apply forallb_forall. intros v Hv.
  unfold encodable in *. rewrite forallb_forall in *.
  intros c Hc. apply H. exact (link_chars prefix s v c Hv Hc).
Qed.

(** X13.  A run in which nothing fails: the start marker is found, the body
    decodes, and standard output can encode the decoded HTML and the
    decoding of every raw link.  It prints the banner and the decoded
    HTML, the numbered links of the decoded HTML, then the numbered raw
    links each with its decoding, writes no file and ends normally. *)
Theorem run_prints_html_links_and_raw_links
  (cs : codepoint -> bool) (email_content decoded_html : str)
  (raw : list (str * str)) (w w' : world) :
  occurs html_part_marker email_content ->
  decode_html (html_body_of (html_section_of email_content)) w
  = (Return decoded_html, w') ->
  encodable cs decoded_html = true ->
  map fst raw = raw_links_of (html_body_of (html_section_of email_content)) ->
  Forall (fun ld => raw_decoding (fst ld) = Some (snd ld)
                    /\ encodable cs (snd ld) = true) raw ->
  run cs email_content
  = (Return tt,
     mkWorld (html_banner ++ [decoded_html]
              ++ links_banner
              ++ numbered (lit "Link ") (links_of decoded_html) 1
              ++ raw_links_banner
              ++ raw_lines raw 1)
             None).
Proof.
  intros Hocc Hd Henc Hraw Hdec.
  pose proof (decode_html_at _ _ _ _ (mkWorld [] None) Hd) as Hd0.
  destruct (decode_html_inv _ _ _ Hd0) as [Hascii _].
  unfold run. rewrite (main_found_unfold cs _ _ Hocc).
  erewrite bind_return by exact Hd0.
  erewrite bind_return by (apply print_ascii; reflexivity).
  erewrite bind_return by (apply print_ascii; reflexivity).
  erewrite bind_return by (apply print_ascii; reflexivity).
  erewrite bind_return by (apply try_returns, print_ok; exact Henc).
  erewrite bind_return by (apply print_ascii; reflexivity).
  erewrite bind_return by (apply print_ascii; reflexivity).
  erewrite bind_return by (apply print_ascii; reflexivity).
  erewrite bind_return
    by (apply print_links_ok, links_encodable; exact Henc).
  erewrite bind_return by (apply print_ascii; reflexivity).
  erewrite bind_return by (apply print_ascii; reflexivity).
  erewrite bind_return by (apply print_ascii; reflexivity).
  unfold print_raw_links. rewrite <- Hraw.
  rewrite print_raw_links_from.
  - cbn [stdout decoded_html_txt app]. unfold html_banner, links_banner,
      raw_links_banner. cbn [app].
    repeat (rewrite <- app_assoc || rewrite <- app_comm_cons). reflexivity.
  - rewrite Forall_forall in *. intros ld Hld.
    destruct (Hdec ld Hld) as [H1 H2]. repeat split; try assumption.
    apply encodable_ascii. unfold is_ascii in *.
    rewrite forallb_forall in *. intros c Hc. apply Hascii.
    apply (link_chars (lit "href=3D") _ (fst ld)); [|exact Hc].
    unfold raw_links_of in Hraw. rewrite <- Hraw. now apply in_map.
Qed.

Lemma run_prints_html_links_and_raw_links_witness :
  run (fun _ => false) sample_email
  = (Return tt,
     mkWorld (html_banner
              ++ [lit "<a href=" ++ DQUOTE ++ lit "https://example.com/a?x=1"
                  ++ DQUOTE ++ lit ">a</a>" ++ NL]
              ++ links_banner
              ++ numbered (lit "Link ")
                   (links_of (lit "<a href=" ++ DQUOTE
                              ++ lit "https://example.com/a?x=1"
                              ++ DQUOTE ++ lit ">a</a>" ++ NL)) 1
              ++ raw_links_banner
              ++ raw_lines [(lit "https://example.com/a?x=3D1",
                             lit "https://example.com/a?x=1")] 1)
             None).
Proof.
  apply (run_prints_html_links_and_raw_links (fun _ => false) sample_email
           (lit "<a href=" ++ DQUOTE ++ lit "https://example.com/a?x=1"
            ++ DQUOTE ++ lit ">a</a>" ++ NL)
           [(lit "https://example.com/a?x=3D1",
             lit "https://example.com/a?x=1")]
           (mkWorld [] None) (mkWorld [] None)).
  - apply occurs_find. vm_compute. discriminate.
  - vm_compute. reflexivity.
  - vm_compute. reflexivity.
  - vm_compute. reflexivity.
  - repeat constructor.
Defined.

Lemma write_ok (s : str) (b : bytes) (w : world) :
  Utf8.encode s = Some b ->
  write_decoded_html_txt s w = (Return tt, mkWorld (stdout w) (Some s)).
Proof. intros H. unfold write_decoded_html_txt. now rewrite H. Qed.

(** The handler of the [try] statement, entered after the decode step
    returned [decoded_html]. *)
Lemma fallback_writes_file (cs : codepoint -> bool) (html_body decoded_html : str)
  (w0 w0' w : world) :
  decode_html html_body w0 = (Return decoded_html, w0') ->
  encodable cs decoded_html = false ->
  try_except_encode
    (print cs decoded_html)
    (write_decoded_html_txt decoded_html ;; print cs file_notice) w
  = (Return tt, mkWorld (stdout w ++ [file_notice]) (Some decoded_html)).
Proof.
  intros Hd Henc.
  destruct (decode_html_inv _ _ _ (decode_html_at _ _ _ _ w0 Hd)) as [_ Hu].
  destruct (decoded_text_encodes _ _ Hu) as [He _].
  rewrite (try_caught _ _ w w) by (apply print_fails; exact Henc).
  erewrite bind_return by (apply (write_ok _ _ _ He)).
  rewrite print_ascii by reflexivity. reflexivity.
Qed.

(** X14.  When standard output cannot encode the decoded HTML but can encode
    its links and the decodings of the raw links, the run writes the
    decoded HTML to [decoded_html.txt], prints the notice in its place,
    and goes on to print both link lists. *)
Theorem unencodable_html_goes_to_the_file
  (cs : codepoint -> bool) (email_content decoded_html : str)
  (raw : list (str * str)) (w w' : world) :
  occurs html_part_marker email_content ->
  decode_html (html_body_of (html_section_of email_content)) w
  = (Return decoded_html, w') ->
  encodable cs decoded_html = false ->
  forallb (encodable cs) (links_of decoded_html) = true ->
  map fst raw = raw_links_of (html_body_of (html_section_of email_content)) ->
  Forall (fun ld => raw_decoding (fst ld) = Some (snd ld)
                    /\ encodable cs (snd ld) = true) raw ->
  run cs email_content
  = (Return tt,
     mkWorld (html_banner ++ [file_notice]
              ++ links_banner
              ++ numbered (lit "Link ") (links_of decoded_html) 1
              ++ raw_links_banner
              ++ raw_lines raw 1)
             (Some decoded_html)).
Proof.
  intros Hocc Hd Henc Hlinks Hraw Hdec.
  pose proof (decode_html_at _ _ _ _ (mkWorld [] None) Hd) as Hd0.
  destruct (decode_html_inv _ _ _ Hd0) as [Hascii _].
  unfold run. rewrite (main_found_unfold cs _ _ Hocc).
  erewrite bind_return by exact Hd0.
  erewrite bind_return by (apply print_ascii; reflexivity).
  erewrite bind_return by (apply print_ascii; reflexivity).
  erewrite bind_return by (apply print_ascii; reflexivity).
  erewrite bind_return by (apply (fallback_writes_file _ _ _ _ _ _ Hd Henc)).
  erewrite bind_return by (apply print_ascii; reflexivity).
  erewrite bind_return by (apply print_ascii; reflexivity).
  erewrite bind_return by (apply print_ascii; reflexivity).
  erewrite bind_return by (apply print_links_ok; exact Hlinks).
  erewrite bind_return by (apply print_ascii; reflexivity).
  erewrite bind_return by (apply print_ascii; reflexivity).
  erewrite bind_return by (apply print_ascii; reflexivity).
  unfold print_raw_links. rewrite <- Hraw.
  rewrite print_raw_links_from.
  - cbn [stdout decoded_html_txt app]. unfold html_banner, links_banner,
      raw_links_banner. cbn [app].
    repeat (rewrite <- app_assoc || rewrite <- app_comm_cons). reflexivity.
  - rewrite Forall_forall in *. intros ld Hld.
    destruct (Hdec ld Hld) as [H1 H2]. repeat split; try assumption.
    apply encodable_ascii. unfold is_ascii in *.
    rewrite forallb_forall in *. intros c Hc. apply Hascii.
    apply (link_chars (lit "href=3D") _ (fst ld)); [|exact Hc].
    unfold raw_links_of in Hraw. rewrite <- Hraw. now apply in_map.
Qed.

Lemma unencodable_html_goes_to_the_file_witness :
  run (fun _ => false)
    (html_part_marker ++ NL ++ NL
     ++ lit "<p>caf=C3=A9</p><a href=3D'https://example.com/a'>a</a>"
     ++ terminal_marker)
  = (Return tt,
     mkWorld (html_banner ++ [file_notice]
              ++ links_banner
              ++ numbered (lit "Link ") [lit "https://example.com/a"] 1
              ++ raw_links_banner
              ++ raw_lines [(lit "https://example.com/a",
                             lit "https://example.com/a")] 1)
             (Some (lit "<p>caf" ++ [233%N]
                    ++ lit "</p><a href='https://example.com/a'>a</a>"))).
Proof.
  apply (unencodable_html_goes_to_the_file (fun _ => false) _
           (lit "<p>caf" ++ [233%N]
            ++ lit "</p><a href='https://example.com/a'>a</a>")
           [(lit "https://example.com/a", lit "https://example.com/a")]
           (mkWorld [] None) (mkWorld [] None)).
  - apply occurs_find. vm_compute. discriminate.
  - vm_compute. reflexivity.
  - vm_compute. reflexivity.
  - vm_compute. reflexivity.
  - vm_compute. reflexivity.
  - repeat constructor.
Defined.

Lemma print_links_stops (cs : codepoint -> bool) (ok : list str)
  (link : str) (rest : list str) (i : Z) (w : world) :
  forallb (encodable cs) ok = true ->
  encodable cs link = false ->
  for_each (enumerate (ok ++ link :: rest) i) (print_link cs) w
  = (Raise UnicodeEncodeError,
     mkWorld (stdout w ++ numbered (lit "Link ") ok i
              ++ [NL ++ lit "Link "
                  ++ str_of_int (i + Z.of_nat (length ok)) ++ lit ":"])
             (decoded_html_txt w)).
Proof.
  revert i w. induction ok as [|l ok IH]; intros i w Hok Hbad;
    cbn [app enumerate for_each numbered].
  - apply bind_raise. unfold print_link.
    erewrite bind_return
      by (apply print_ok, heading_encodable; reflexivity).
    rewrite print_fails by exact Hbad.
    cbn [length Z.of_nat]. now rewrite Z.add_0_r.
  - cbn [forallb] in Hok. apply andb_true_iff in Hok. destruct Hok as [Hl Hok].
    erewrite bind_return.
    2:{ unfold print_link.
        erewrite bind_return
          by (apply print_ok, heading_encodable; reflexivity).
        apply print_ok. exact Hl. }
    rewrite IH by assumption. cbn [stdout decoded_html_txt].
    replace (i + 1 + Z.of_nat (length ok))
      with (i + Z.of_nat (length (l :: ok))) by (cbn [length]; lia).
    now rewrite <- !app_assoc.
Qed.

(** X16.  The [try] statement guards the print of the decoded HTML only.  When
    standard output cannot encode one of the links, the run has written
    the decoded HTML to the file and printed the notice, prints the links
    before that one and the heading of that one, and ends there with an
    uncaught [UnicodeEncodeError]. *)
Theorem unencodable_link_ends_the_run
  (cs : codepoint -> bool) (email_content decoded_html link : str)
  (ok rest : list str) (w w' : world) :
  occurs html_part_marker email_content ->
  decode_html (html_body_of (html_section_of email_content)) w
  = (Return decoded_html, w') ->
  links_of decoded_html = ok ++ link :: rest ->
  forallb (encodable cs) ok = true ->
  encodable cs link = false ->
  run cs email_content
  = (Raise UnicodeEncodeError,
     mkWorld (html_banner ++ [file_notice]
              ++ links_banner
              ++ numbered (lit "Link ") ok 1
              ++ [NL ++ lit "Link "
                  ++ str_of_int (1 + Z.of_nat (length ok)) ++ lit ":"])
             (Some decoded_html)).
Proof.
  intros Hocc Hd Hlinks Hok Hbad.
  assert (Henc : encodable cs decoded_html = false).
  { destruct (encodable cs decoded_html) eqn:E; [|reflexivity].
    pose proof (links_encodable cs (lit "href=") _ E) as H.
    fold (links_of decoded_html) in H. rewrite Hlinks in H.
    rewrite forallb_app in H. cbn [forallb] in H.
    rewrite Hbad, andb_false_r in H. discriminate. }
  pose proof (decode_html_at _ _ _ _ (mkWorld [] None) Hd) as Hd0.
  unfold run. rewrite (main_found_unfold cs _ _ Hocc).
  erewrite bind_return by exact Hd0.
  erewrite bind_return by (apply print_ascii; reflexivity).
  erewrite bind_return by (apply print_ascii; reflexivity).
  erewrite bind_return by (apply print_ascii; reflexivity).
  erewrite bind_return by (apply (fallback_writes_file _ _ _ _ _ _ Hd Henc)).
  erewrite bind_return by (apply print_ascii; reflexivity).
  erewrite bind_return by (apply print_ascii; reflexivity).
  erewrite bind_return by (apply print_ascii; reflexivity).
  erewrite bind_raise.
  2:{ unfold print_links. rewrite Hlinks.
      apply print_links_stops; assumption. }
  cbn [stdout decoded_html_txt app]. unfold html_banner, links_banner.
  cbn [app]. repeat (rewrite <- app_assoc || rewrite <- app_comm_cons).
  reflexivity.
Qed.

Lemma unencodable_link_ends_the_run_witness :
  run (fun _ => false)
    (html_part_marker ++ NL ++ NL
     ++ lit "<a href=3D'/a'>a</a><a href=3D'/caf=C3=A9'>b</a>"
     ++ terminal_marker)
  = (Raise UnicodeEncodeError,
     mkWorld (html_banner ++ [file_notice]
              ++ links_banner
              ++ numbered (lit "Link ") [lit "/a"] 1
              ++ [NL ++ lit "Link " ++ str_of_int (1 + 1) ++ lit ":"])
             (Some (lit "<a href='/a'>a</a><a href='/caf" ++ [233%N]
                    ++ lit "'>b</a>"))).
Proof.
  apply (unencodable_link_ends_the_run (fun _ => false) _
           (lit "<a href='/a'>a</a><a href='/caf" ++ [233%N] ++ lit "'>b</a>")
           (lit "/caf" ++ [233%N]) [lit "/a"] []
           (mkWorld [] None) (mkWorld [] None)).
  - apply occurs_find. vm_compute. discriminate.
  - vm_compute. reflexivity.
  - vm_compute. reflexivity.
  - vm_compute. reflexivity.
  - vm_compute. reflexivity.
Defined.

Lemma raises_only_ret {A} (P : exn -> Prop) (a : A) : raises_only P (ret a).
Proof. intros w e H. discriminate. Qed.

Lemma raises_only_or_raise {A} (P : exn -> Prop) (e : exn) (o : option A) :
  P e -> raises_only P (or_raise e o).
Proof.
  intros He w e' H. destruct o; simpl in H; [discriminate|].
  injection H as <-. exact He.
Qed.

Lemma raises_only_print (P : exn -> Prop) (cs : codepoint -> bool) (s : str) :
  P UnicodeEncodeError -> raises_only P (print cs s).
Proof.
  intros He w e H. unfold print in H.
  destruct (encodable cs s); simpl in H; [discriminate|].
  injection H as <-. exact He.
Qed.

Lemma raises_only_write (P : exn -> Prop) (s : str) :
  P UnicodeEncodeError -> raises_only P (write_decoded_html_txt s).
Proof.
  intros He w e H. unfold write_decoded_html_txt in H.
  destruct (Utf8.encode s); simpl in H; [discriminate|].
  injection H as <-. exact He.
Qed.

Lemma raises_only_bind {A B} (P : exn -> Prop) (m : M A) (k : A -> M B) :
  raises_only P m -> (forall a, raises_only P (k a)) ->
  raises_only P (bind m k).
Proof.
  intros Hm Hk w e H. unfold bind in H. specialize (Hm w).
  destruct (m w) as [[a|e'|c] w']; simpl in *.
  - exact (Hk a w' e H).
  - injection H as <-. now apply Hm.
  - discriminate.
Qed.

Lemma raises_only_try (P : exn -> Prop) (body handler : M unit) :
  raises_only P body -> raises_only P handler ->
  raises_only P (try_except_encode body handler).
Proof.
  intros Hb Hh w e H. unfold try_except_encode in H. specialize (Hb w).
  destruct (body w) as [[a|[]|c] w']; simpl in *;
    try discriminate; try (injection H as <-; now apply Hb).
  exact (Hh w' e H).
Qed.

Lemma raises_only_for_each {A} (P : exn -> Prop) (xs : list A)
  (body : A -> M unit) :
  (forall x, raises_only P (body x)) -> raises_only P (for_each xs body).
Proof.
  intros Hb. induction xs as [|x xs IH]; cbn [for_each].
  - apply raises_only_ret.
  - apply raises_only_bind; [apply Hb | intros _; exact IH].
Qed.

Ltac raises_step :=
  first [ apply raises_only_bind; [|intros ?]
        | apply raises_only_try
        | apply raises_only_for_each; intros [? ?]
        | apply raises_only_print; discriminate
        | apply raises_only_write; discriminate
        | apply raises_only_or_raise; discriminate
        | apply raises_only_ret ].

Lemma is_ascii_buffer (s : str) :
  Quopri.ascii_buffer s = None <-> is_ascii s = false.
Proof.
  unfold Quopri.ascii_buffer, is_ascii.
  destruct (forallb (fun c => (c <? 128)%N) s); split; congruence.
Qed.

(** X12.  [ValueError] comes from one place only: the run ends with it exactly
    when the start marker is found and the body holds a character outside
    ASCII. *)
Theorem value_error_means_non_ascii_body
  (cs : codepoint -> bool) (email_content : str) :
  fst (run cs email_content) = Raise ValueError
  <-> occurs html_part_marker email_content
      /\ is_ascii (html_body_of (html_section_of email_content)) = false.
Proof.
  split.
  - intros H.
    destruct (Z.eq_dec (html_start_of email_content) (-1)) as [E|E].
    { rewrite (main_not_found cs _ E) in H. discriminate. }
    assert (Hocc : occurs html_part_marker email_content)
      by (now apply occurs_find).
    split; [exact Hocc|].
    destruct (is_ascii (html_body_of (html_section_of email_content)))
      eqn:Ea; [exfalso|reflexivity].
    unfold run in H. rewrite (main_found_unfold cs _ _ Hocc) in H.
    revert H. generalize (mkWorld [] None). intros w H.
    assert (Hr : raises_only (fun e => e <> ValueError)
                   (bind (decode_html
                            (html_body_of (html_section_of email_content)))
                      (fun decoded_html =>
         print cs rule ;;
         print cs (lit "DECODED HTML CONTENT:") ;;
         print cs rule ;;
         try_except_encode
           (print cs decoded_html)
           (write_decoded_html_txt decoded_html ;; print cs file_notice) ;;
         print cs (NL ++ rule) ;;
         print cs (lit "EXTRACTED LINKS:") ;;
         print cs rule ;;
         print_links cs (links_of decoded_html) ;;
         print cs (NL ++ rule) ;;
         print cs (lit "RAW QUOTED-PRINTABLE LINKS (before decoding):") ;;
         print cs rule ;;
         print_raw_links cs
           (raw_links_of (html_body_of (html_section_of email_content)))))).
    { apply raises_only_bind.
      - unfold decode_html, Quopri.decodestring_str.
        destruct (Quopri.ascii_buffer
                    (html_body_of (html_section_of email_content)))
          as [b|] eqn:Eb.
        + cbn [option_map or_raise]. repeat raises_step.
        + apply is_ascii_buffer in Eb. congruence.
      - intros decoded_html. unfold print_links, print_raw_links,
          print_link, print_raw_link, decode_link.
        repeat raises_step. }
    exact (Hr w ValueError H eq_refl).
  - intros [Hocc Ha].
    assert (Hd : decode_html (html_body_of (html_section_of email_content))
                   (mkWorld [] None) = (Raise ValueError, mkWorld [] None)).
    { unfold decode_html, Quopri.decodestring_str.
      rewrite (proj2 (is_ascii_buffer _) Ha). reflexivity. }
    unfold run. rewrite (main_found_unfold cs _ _ Hocc).
    now rewrite (bind_raise _ _ _ _ _ Hd).
Qed.

Lemma keeps_file_ret {A} (a : A) : keeps_file (ret a).
Proof. intros w. reflexivity. Qed.

Lemma keeps_file_or_raise {A} (e : exn) (o : option A) :
  keeps_file (or_raise e o).
Proof. intros w. destruct o; reflexivity. Qed.

Lemma keeps_file_print (cs : codepoint -> bool) (s : str) :
  keeps_file (print cs s).
Proof. intros w. unfold print. destruct (encodable cs s); reflexivity. Qed.

Lemma keeps_file_bind {A B} (m : M A) (k : A -> M B) :
  keeps_file m -> (forall a, keeps_file (k a)) -> keeps_file (bind m k).
Proof.
  intros Hm Hk w. unfold bind. specialize (Hm w).
  destruct (m w) as [[a|e|c] w']; simpl in *; [|exact Hm|exact Hm].
  rewrite <- Hm. apply Hk.
Qed.

Lemma keeps_file_for_each {A} (xs : list A) (body : A -> M unit) :
  (forall x, keeps_file (body x)) -> keeps_file (for_each xs body).
Proof.
  intros Hb. induction xs as [|x xs IH]; cbn [for_each].
  - apply keeps_file_ret.
  - apply keeps_file_bind; [apply Hb | intros _; exact IH].
Qed.

Ltac keeps_step :=
  first [ apply keeps_file_bind; [|intros ?]
        | apply keeps_file_for_each; intros [? ?]
        | apply keeps_file_print
        | apply keeps_file_or_raise
        | apply keeps_file_ret ].

(** What follows the [try] statement never touches the file. *)
Lemma rest_keeps_file (cs : codepoint -> bool) (decoded_html html_body : str) :
  keeps_file
    (print cs (NL ++ rule) ;;
     print cs (lit "EXTRACTED LINKS:") ;;
     print cs rule ;;
     print_links cs (links_of decoded_html) ;;
     print cs (NL ++ rule) ;;
     print cs (lit "RAW QUOTED-PRINTABLE LINKS (before decoding):") ;;
     print cs rule ;;
     print_raw_links cs (raw_links_of html_body)).
Proof.
  unfold print_links, print_raw_links, print_link, print_raw_link,
    decode_link.
  repeat keeps_step.
Qed.

(** X15.  [decoded_html.txt] is written exactly when the start marker is found,
    the body decodes, and standard output cannot encode the decoded HTML;
    what is written is the decoded HTML, and an exception raised later in
    the run leaves it in place. *)
Theorem file_is_written_exactly_on_fallback
  (cs : codepoint -> bool) (email_content content : str) :
  decoded_html_txt (snd (run cs email_content)) = Some content
  <-> occurs html_part_marker email_content
      /\ decode_html (html_body_of (html_section_of email_content))
           (mkWorld [] None)
         = (Return content, mkWorld [] None)
      /\ encodable cs content = false.
Proof.
  destruct (Z.eq_dec (html_start_of email_content) (-1)) as [E|E].
  { rewrite (main_not_found cs _ E). split; [discriminate|].
    intros [Hocc _]. apply occurs_find in Hocc. contradiction. }
  assert (Hocc : occurs html_part_marker email_content)
    by (now apply occurs_find).
  unfold run. rewrite (main_found_unfold cs _ _ Hocc).
  destruct (decode_html (html_body_of (html_section_of email_content))
              (mkWorld [] None)) as [[dh|e|c] w1] eqn:Hd.
  2:{ pose proof (decode_html_world
                    (html_body_of (html_section_of email_content))
                    (mkWorld [] None)) as Hw.
      rewrite Hd in Hw. simpl in Hw. subst w1.
      rewrite (bind_raise _ _ _ _ _ Hd). simpl.
      split; [discriminate | intros (_ & H & _); discriminate]. }
  2:{ unfold bind. rewrite Hd. simpl.
      pose proof (decode_html_world
                    (html_body_of (html_section_of email_content))
                    (mkWorld [] None)) as Hw.
      rewrite Hd in Hw. simpl in Hw. subst w1. simpl.
      split; [discriminate | intros (_ & H & _); discriminate]. }
  pose proof (decode_html_world
                (html_body_of (html_section_of email_content))
                (mkWorld [] None)) as Hw.
  rewrite Hd in Hw. simpl in Hw. subst w1.
  erewrite bind_return by exact Hd.
  erewrite bind_return by (apply print_ascii; reflexivity).
  erewrite bind_return by (apply print_ascii; reflexivity).
  erewrite bind_return by (apply print_ascii; reflexivity).
  destruct (encodable cs dh) eqn:Henc.
  - erewrite bind_return by (apply try_returns, print_ok; exact Henc).
    rewrite rest_keeps_file. simpl. split; [discriminate|].
    intros (_ & H & Hf). injection H as ->. congruence.
  - erewrite bind_return
      by (apply (fallback_writes_file _ _ _ _ _ _ Hd Henc)).
    rewrite rest_keeps_file. simpl. split.
    + intros H. injection H as <-. repeat split; assumption.
    + intros (_ & H & _). now injection H as ->.
Qed.

End RunFacts.

(** ** The decoding of one raw link *)

Section OneLink.
Import DecodeEmail Utf8 Utf8Facts.

Lemma no_equals_in_encoding (s : str) :
  forall b : bytes,
    forallb scalar s = true ->
    ~ In 61%N s ->
    encode s = Some b ->
    forall x, In x b -> Ascii.eqb x "="%char = false.
Proof.
  induction s as [|c s IH]; intros b Hs Hno Hb x Hx.
  - injection Hb as <-. destruct Hx.
  - cbn [forallb] in Hs. apply andb_true_iff in Hs. destruct Hs as [Hc Hs].
    cbn [encode] in Hb.
    destruct (encode_char_decodes c [] Hc) as (bc & Hbc & _ & _ & Hkind).
    rewrite Hbc in Hb.
    destruct (encode s) as [bs|] eqn:Ebs; [|discriminate].
    injection Hb as <-. apply in_app_or in Hx. destruct Hx as [Hx|Hx].
    + apply Ascii.eqb_neq. intros ->.
      destruct Hkind as [[Hlt ->]|[_ Hhi]].
      * destruct Hx as [Hx|[]]. apply Hno. left.
        apply (f_equal N_of_ascii) in Hx. unfold byte_of in Hx.
        rewrite N_ascii_embedding in Hx by lia. exact Hx.
      * specialize (Hhi _ Hx). vm_compute in Hhi. now apply Hhi.
    + apply (IH bs Hs); [|reflexivity|exact Hx].
      intros H. apply Hno. now right.
Qed.

(** X19.  A raw link without an equals sign is printed twice as it stands: its
    decoding is the link itself. *)
Theorem link_without_equals_decodes_to_itself (link : str) (w : world) :
  forallb scalar link = true ->
  ~ In 61%N link ->
  decode_link link w = (Return link, w).
Proof.
  intros Hs Hno.
  destruct (encode_decodes link Hs) as (b & Hb & Hd).
  unfold decode_link. rewrite Hb. cbn [or_raise]. unfold bind, ret.
  unfold Quopri.decodestring, Quopri.a2b_qp.
  rewrite plain_text_unchanged
    by (apply (no_equals_in_encoding link b Hs Hno Hb)).
  now rewrite Hd.
Qed.

Lemma link_without_equals_decodes_to_itself_witness :
  decode_link (lit "https://example.com/caf" ++ [233%N]) (mkWorld [] None)
  = (Return (lit "https://example.com/caf" ++ [233%N]), mkWorld [] None).
Proof.
  apply link_without_equals_decodes_to_itself.
  - reflexivity.
  - intros H. simpl in H.
    repeat (destruct H as [H|H]; [discriminate H|]). contradiction.
Defined.

End OneLink.

(** ** The replacements of [fix_url.py] *)

Section Replacements.
Import FixUrl FixUrlSteps.

Lemma scan_without_occurrence (old new s : str) :
  (forall k, ~ occurs_at old s k) ->
  PyStr.replace_scan N.eqb old new 0 s = s.
Proof.
  induction s as [|c s IH]; intros Hno; [reflexivity|].
  cbn [PyStr.replace_scan].
  destruct (PyStr.starts_with N.eqb old (c :: s)) eqn:E.
  - exfalso. apply (Hno 0%nat).
    now apply (starts_with_occurs_at_0 N.eqb N_eqb_eq).
  - f_equal. apply IH. intros k Hk. apply (Hno (S k)).
    now apply occurs_at_cons.
Qed.

Lemma replace_absent (old new s : str) :
  ~ occurs old s -> str_replace old new s = s.
Proof.
  intros Hno. unfold str_replace, PyStr.replace.
  destruct old as [|x old].
  - exfalso. apply Hno. now exists [], s.
  - apply scan_without_occurrence. intros k (pre & post & E & _).
    apply Hno. now exists pre, post.
Qed.

Lemma scan_skips (old new a post : str) :
  PyStr.replace_scan N.eqb old new (length a) (a ++ post)
  = PyStr.replace_scan N.eqb old new 0 post.
Proof.
  induction a as [|c a IH]; [reflexivity|].
  cbn [length app PyStr.replace_scan]. exact IH.
Qed.

(** X20.  [replace] works from left to right: the first occurrence of a
    non-empty [old] is replaced, what stands before it is kept, and the
    search goes on after it, so the text put in is not searched again. *)
Theorem replace_takes_first_occurrence_and_goes_on (old new pre post : str) :
  old <> [] ->
  (forall j, (j < length pre)%nat -> ~ occurs_at old (pre ++ old ++ post) j) ->
  str_replace old new (pre ++ old ++ post)
  = pre ++ new ++ str_replace old new post.
Proof.
  intros Hne. unfold str_replace, PyStr.replace.
  destruct old as [|x old]; [contradiction|].
  induction pre as [|c pre IH]; intros Hfirst.
  - cbn [app PyStr.replace_scan].
    change (x :: old ++ post) with ((x :: old) ++ post).
    rewrite (proj2 (starts_with_iff N.eqb N_eqb_eq (x :: old)
                      ((x :: old) ++ post)))
      by (now exists post).
    f_equal. rewrite <- (scan_skips (x :: old) new old post).
    f_equal. cbn [length]. simpl. apply Nat.sub_0_r.
  - cbn [app PyStr.replace_scan].
    match goal with
    | |- context [PyStr.starts_with ?e ?p ?t] =>
        destruct (PyStr.starts_with e p t) eqn:E
    end.
    + exfalso. apply (Hfirst 0%nat); [simpl; lia|].
      now apply (starts_with_occurs_at_0 N.eqb N_eqb_eq).
    + f_equal. apply IH. intros j Hj Hocc.
      apply (Hfirst (S j)); [simpl; lia|].
      now apply occurs_at_cons.
Qed.

Lemma replace_takes_first_occurrence_and_goes_on_witness :
  str_replace (lit "&amp;") (lit "&") (lit "a=1" ++ lit "&amp;" ++ lit "amp;b")
  = lit "a=1" ++ lit "&" ++ str_replace (lit "&amp;") (lit "&") (lit "amp;b").
Proof.
  apply replace_takes_first_occurrence_and_goes_on.
  - discriminate.
  - intros j Hj.
    apply (nothing_before_find (lit "&amp;") _ 0 3).
    + vm_compute. reflexivity.
    + simpl in Hj. lia.
Defined.

Ltac in_patterns :=
  unfold patterns; repeat (first [left; reflexivity | right]).

(** X21.  The seven replacements leave a text as it is when none of the seven
    searched texts occurs in it. *)
Theorem repair_keeps_text_without_patterns (s : str) :
  (forall p, In p patterns -> ~ occurs p s) ->
  repair s = s.
Proof.
  intros H. unfold repair. cbv zeta.
  rewrite (replace_absent (lit "&amp;") _ s)
    by (apply H; in_patterns).
  rewrite (replace_absent (lit "&cc" ++ corruption_marker) _ s)
    by (apply H; in_patterns).
  rewrite (replace_absent
             (lit "&calc" ++ corruption_marker ++ lit "a7a55029f30") _ s)
    by (apply H; in_patterns).
  rewrite (replace_absent
             (lit "&unp_tpcid" ++ corruption_marker ++ lit "tivation") _ s)
    by (apply H; in_patterns).
  rewrite (replace_absent (lit "&xt" ++ corruption_marker ++ lit "5585") _ s)
    by (apply H; in_patterns).
  rewrite (replace_absent (lit "&utm_unptidj03a056") _ s)
    by (apply H; in_patterns).
  apply replace_absent. apply H. in_patterns.
Qed.

Lemma repair_keeps_text_without_patterns_witness :
  repair (lit "https://www.paypal.com/signin?expId=confirmEmail&cc=1")
  = lit "https://www.paypal.com/signin?expId=confirmEmail&cc=1".
Proof.
  apply repair_keeps_text_without_patterns.
  intros p Hp Hocc. apply str_contains_iff in Hocc.
  unfold patterns in Hp. simpl in Hp.
  repeat (destruct Hp as [<-|Hp]; [vm_compute in Hocc; discriminate|]).
  contradiction.
Defined.

(** The script's own text is the function applied to its literal. *)
Lemma fixed_is_repair : fixed = repair malformed.
Proof. unfold fixed, repair. reflexivity. Qed.

End Replacements.
